(** * Campus wallet ledger: a shallow embedding of the wallet router

  The development follows [server/routers/wallet] (the tRPC wallet router) and
  [db/schema-wallet] (the drizzle tables and the zod input schemas).

  - SQL tables are lists of rows; [select ... where ... limit 1] is [find],
    [update ... set ... where] maps over the rows, [insert] appends and fails
    on a duplicate value of a [unique()] column.
  - [integer] columns are [Z]. The columns are 32-bit in the store, which
    refuses a value outside the range: that is checked for the balances
    that [verifyFunding], [transfer] and [payMerchant] credit and for the
    counters of a merchant. It is not checked for the balances a debit
    writes (the router has compared the debit with the available balance
    before) nor for the scan counter of a QR code. JavaScript numbers that
    hold integers are [Z] too; the places where the router multiplies by a
    decimal literal and calls [Math.round] go through IEEE-754 binary64
    ([SpecFloat]).
  - Foreign keys: the caller is a row of [users] (the session is read from
    that table) and a wallet, bank account or recipient the router writes a
    reference to has just been read. The one reference written without its
    target having been read is [merchant_id] in [payMerchant], and it is
    checked.
  - [select ... limit 1] without an order returns the first matching row of
    the list; the keys the router selects on are unique in the schema.
  - A procedure is a computation in a state-and-exception monad over the
    store; [db.transaction] commits the body's writes or restores the store.
  - [setTimeout] callbacks are kept as data ([Timer]) in the process state
    and run by [runTimer].
  - What the router obtains from outside (bcrypt, the clock, random bytes,
    the payment gateway's answers, [parseInt]) is a parameter.
  - The resolvers are modelled from the point where tRPC has authenticated
    the caller and the rate limiter has let the request through; the zod
    input schema is the first step of each procedure.
  - Free-form columns that no balance computation reads (description,
    metadata, currency, device info) are left out of the rows. *)

From Stdlib Require Import ZArith List Bool String Ascii Lia DecimalString.
From Stdlib Require Import Floats.SpecFloat.
From Stdlib Require DecimalZ.
Import ListNotations.

Local Open Scope string_scope.
Local Open Scope list_scope.
Local Open Scope Z_scope.

(** ** JavaScript numbers *)

Module JS.

Definition prec : Z := 53.
Definition emax : Z := 1024.

(** A JavaScript number: an IEEE-754 binary64 value. *)
Definition Number : Type := spec_float.

(** The number an integer literal or an integer-valued variable denotes. *)
Definition of_int (z : Z) : Number := binary_normalize prec emax z 0 false.

Definition mul : Number -> Number -> Number := SFmul prec emax.
Definition div : Number -> Number -> Number := SFdiv prec emax.

(** The literals [0.005] and [0.015]: the binary64 values nearest to them,
    [0x1.47ae147ae147bp-8] and [0x1.eb851eb851eb8p-7]. *)
Definition lit_0_005 : Number := S754_finite false 5764607523034235 (-60).
Definition lit_0_015 : Number := S754_finite false 8646911284551352 (-59).

(** [Math.round]: the integer closest to the argument, ties towards
    +infinity, that is [floor (x + 1/2)] on the exact value of [x].
    NaN and the infinities are not integers; they are sent to 0 here and
    cannot arise from the products below when the operands are finite and
    small. *)
Definition Math_round (x : Number) : Z :=
  match x with
  | S754_finite s m e =>
      let v := if s then Z.neg m else Z.pos m in
      if 0 <=? e then v * 2 ^ e
      else (2 * v + 2 ^ (- e)) / 2 ^ (1 - e)
  | _ => 0
  end.

(** [parseFloat] of a [decimal(5,2)] column, given in hundredths: the
    binary64 value nearest to [h / 100]. *)
Definition parseFloat_hundredths (h : Z) : Number := div (of_int h) (of_int 100).

End JS.

(** ** Tables of [db/schema-wallet] *)

Module users.
Record row := mk
  { id : Z; name : string; email : string; phone : option string }.
End users.

Module wallets.
Record row := mk
  { id : Z;
    userId : Z;
    balance : Z;
    availableBalance : Z;
    walletPinHash : option string;
    walletPinSalt : option string;
    dailyLimit : Z;
    monthlyLimit : Z;
    isActive : bool;
    isVerified : bool;
    lastTransactionAt : option Z }.

Definition set_balance (b : Z) (w : row) : row :=
  mk (id w) (userId w) b (availableBalance w) (walletPinHash w)
     (walletPinSalt w) (dailyLimit w) (monthlyLimit w) (isActive w)
     (isVerified w) (lastTransactionAt w).
Definition set_availableBalance (a : Z) (w : row) : row :=
  mk (id w) (userId w) (balance w) a (walletPinHash w)
     (walletPinSalt w) (dailyLimit w) (monthlyLimit w) (isActive w)
     (isVerified w) (lastTransactionAt w).
Definition set_lastTransactionAt (t : Z) (w : row) : row :=
  mk (id w) (userId w) (balance w) (availableBalance w) (walletPinHash w)
     (walletPinSalt w) (dailyLimit w) (monthlyLimit w) (isActive w)
     (isVerified w) (Some t).
End wallets.

Module walletTransactions.
Record row := mk
  { walletId : Z;
    reference : string;
    type : string;
    subType : option string;
    amount : Z;
    fee : Z;
    netAmount : Z;
    balanceBefore : Z;
    balanceAfter : Z;
    senderId : option Z;
    receiverId : option Z;
    merchantId : option Z;
    status : string;
    paymentMethod : option string;
    paymentReference : option string;
    completedAt : option Z;
    failureReason : option string;
    createdAt : Z }.

Definition set_status (s : string) (t : row) : row :=
  mk (walletId t) (reference t) (type t) (subType t) (amount t) (fee t)
     (netAmount t) (balanceBefore t) (balanceAfter t) (senderId t)
     (receiverId t) (merchantId t) s (paymentMethod t)
     (paymentReference t) (completedAt t) (failureReason t) (createdAt t).
Definition set_balanceBefore (b : Z) (t : row) : row :=
  mk (walletId t) (reference t) (type t) (subType t) (amount t) (fee t)
     (netAmount t) b (balanceAfter t) (senderId t)
     (receiverId t) (merchantId t) (status t) (paymentMethod t)
     (paymentReference t) (completedAt t) (failureReason t) (createdAt t).
Definition set_balanceAfter (b : Z) (t : row) : row :=
  mk (walletId t) (reference t) (type t) (subType t) (amount t) (fee t)
     (netAmount t) (balanceBefore t) b (senderId t)
     (receiverId t) (merchantId t) (status t) (paymentMethod t)
     (paymentReference t) (completedAt t) (failureReason t) (createdAt t).
Definition set_completedAt (c : Z) (t : row) : row :=
  mk (walletId t) (reference t) (type t) (subType t) (amount t) (fee t)
     (netAmount t) (balanceBefore t) (balanceAfter t) (senderId t)
     (receiverId t) (merchantId t) (status t) (paymentMethod t)
     (paymentReference t) (Some c) (failureReason t) (createdAt t).
Definition set_failureReason (r : string) (t : row) : row :=
  mk (walletId t) (reference t) (type t) (subType t) (amount t) (fee t)
     (netAmount t) (balanceBefore t) (balanceAfter t) (senderId t)
     (receiverId t) (merchantId t) (status t) (paymentMethod t)
     (paymentReference t) (completedAt t) (Some r) (createdAt t).
End walletTransactions.

Module walletHolds.
Record row := mk
  { walletId : Z;
    amount : Z;
    reason : string;
    reference : string;
    expiresAt : option Z;
    releasedAt : option Z }.

Definition set_releasedAt (t : Z) (h : row) : row :=
  mk (walletId h) (amount h) (reason h) (reference h) (expiresAt h) (Some t).
End walletHolds.

Module walletBanks.
Record row := mk
  { id : Z;
    userId : Z;
    bankName : string;
    accountNumber : string;
    isVerified : bool }.
End walletBanks.

Module walletMerchants.
(** [transactionFeePercentage] is a nullable [decimal(5,2)]; it is kept in
    hundredths of a percent point ("1.00" is [Some 100]). *)
Record row := mk
  { id : Z;
    userId : Z;
    businessName : string;
    transactionFeePercentage : option Z;
    monthlyVolume : Z;
    totalTransactions : Z }.
End walletMerchants.

Module walletBills.
Record row := mk
  { id : Z;
    userId : Z;
    billType : string;
    provider : string;
    accountNumber : string;
    amount : Z;
    fee : Z;
    billReference : string;
    status : string;
    completedAt : option Z }.

Definition set_status (s : string) (b : row) : row :=
  mk (id b) (userId b) (billType b) (provider b) (accountNumber b)
     (amount b) (fee b) (billReference b) s (completedAt b).
Definition set_completedAt (c : Z) (b : row) : row :=
  mk (id b) (userId b) (billType b) (provider b) (accountNumber b)
     (amount b) (fee b) (billReference b) (status b) (Some c).
End walletBills.

Module walletRecipients.
Record row := mk
  { userId : Z;
    recipientType : string;
    recipientId : option Z;
    recipientName : string;
    recipientIdentifier : string;
    lastTransactionAt : option Z;
    totalTransactions : Z;
    totalAmount : Z }.

(** The unique indexes the table is declared with, by column names: the
    primary key [serial('id').primaryKey()] and no other. *)
Definition uniqueIndexes : list (list string) := [["id"]].
End walletRecipients.

(** ** The store and the process state *)

Record Db := mkDb
  { tbl_users : list users.row;
    tbl_wallets : list wallets.row;
    tbl_walletTransactions : list walletTransactions.row;
    tbl_walletHolds : list walletHolds.row;
    tbl_walletBanks : list walletBanks.row;
    tbl_walletMerchants : list walletMerchants.row;
    tbl_walletBills : list walletBills.row;
    tbl_walletRecipients : list walletRecipients.row }.

(** A callback handed to [setTimeout], with the values it closes over. *)
Inductive Timer :=
| BillCompletion (billId : Z) (reference : string)
| WithdrawalCompletion (wallet : wallets.row) (totalAmount : Z) (reference : string).

(** A request sent to the payment gateway ([paystack.post] of
    [/transaction/initialize], [paystack.get] of [/transaction/verify/:ref]). *)
Inductive PaystackRequest :=
| Initialize (email : string) (amount : Z) (reference : string) (channels : list string)
| Verify (reference : string).

(** The store, the pending timers of the process, and the requests that have
    gone out to the gateway so far. *)
Record World := mkWorld
  { db : Db;
    timers : list Timer;
    paystackLog : list PaystackRequest }.

(** ** Exceptions and the procedure monad *)

(** What a procedure can throw: an error of the router, an error of the
    store (a duplicate in a unique column, a number outside the range of
    its column, a reference to a row that does not exist, an upsert the
    store does not accept), or a failed call to the gateway. tRPC reports
    all but the first to the caller as INTERNAL_SERVER_ERROR. *)
Inductive Exn :=
| TRPCError (code : string) (message : string)
| UniqueViolation (column : string)
| IntegerOutOfRange (column : string)
| ForeignKeyViolation (column : string)
| UpsertFailure
| HttpFailure.

Inductive Outcome (A : Type) :=
| Return (a : A)
| Throw (e : Exn).
Arguments Return {A} a.
Arguments Throw {A} e.

Definition M (A : Type) : Type := World -> World * Outcome A.

Definition ret {A} (a : A) : M A := fun w => (w, Return a).
Definition throw {A} (e : Exn) : M A := fun w => (w, Throw e).
Definition bind {A B} (m : M A) (k : A -> M B) : M B :=
  fun w => match m w with
           | (w', Return a) => k a w'
           | (w', Throw e) => (w', Throw e)
           end.

Declare Scope proc_scope.
Delimit Scope proc_scope with proc.
Notation "x <- m ;; k" := (bind m (fun x => k))
  (at level 61, m at next level, right associativity) : proc_scope.
Notation "m ;; k" := (bind m (fun _ => k))
  (at level 61, right associativity) : proc_scope.
Local Open Scope proc_scope.

Definition getDb : M Db := fun w => (w, Return (db w)).
Definition modifyDb (f : Db -> Db) : M unit :=
  fun w => (mkWorld (f (db w)) (timers w) (paystackLog w), Return tt).
Definition setTimeout (t : Timer) : M unit :=
  fun w => (mkWorld (db w) (timers w ++ [t]) (paystackLog w), Return tt).

(** [if (c) throw e]. *)
Definition throwIf (c : bool) (e : Exn) : M unit :=
  if c then throw e else ret tt.

(** The range of an [integer] column. *)
Definition int4 (z : Z) : bool := (-2147483648 <=? z) && (z <=? 2147483647).

(** The store refuses to write [z] into the integer column [column] when it
    lies outside the range. *)
Definition checkInt4 (column : string) (z : Z) : M unit :=
  throwIf (negb (int4 z)) (IntegerOutOfRange column).

(** [db.transaction(async (tx) => body)]: the writes of [body] are kept when
    it returns and undone when it throws; the exception is passed on. *)
Definition db_transaction {A} (body : M A) : M A :=
  fun w => match body w with
           | (w', Return a) => (w', Return a)
           | (w', Throw e) => (mkWorld (db w) (timers w') (paystackLog w'), Throw e)
           end.

(** [try { body } catch (error) { console.error(...) }]. *)
Definition try_catch (body : M unit) : M unit :=
  fun w => match body w with
           | (w', Return _) => (w', Return tt)
           | (w', Throw _) => (w', Return tt)
           end.

(** ** Queries *)

Definition first_where {A} (p : A -> bool) (rows : list A) : option A := find p rows.

Definition update_where {A} (p : A -> bool) (set : A -> A) (rows : list A) : list A :=
  map (fun r => if p r then set r else r) rows.

Definition sum_amounts (rows : list walletTransactions.row) : Z :=
  fold_right (fun r acc => walletTransactions.amount r + acc) 0 rows.

Definition next_serial (ids : list Z) : Z := 1 + fold_right Z.max 0 ids.

Definition with_wallets (f : list wallets.row -> list wallets.row) (d : Db) : Db :=
  mkDb (tbl_users d) (f (tbl_wallets d)) (tbl_walletTransactions d)
       (tbl_walletHolds d) (tbl_walletBanks d) (tbl_walletMerchants d)
       (tbl_walletBills d) (tbl_walletRecipients d).
Definition with_walletTransactions
  (f : list walletTransactions.row -> list walletTransactions.row) (d : Db) : Db :=
  mkDb (tbl_users d) (tbl_wallets d) (f (tbl_walletTransactions d))
       (tbl_walletHolds d) (tbl_walletBanks d) (tbl_walletMerchants d)
       (tbl_walletBills d) (tbl_walletRecipients d).
Definition with_walletHolds (f : list walletHolds.row -> list walletHolds.row) (d : Db) : Db :=
  mkDb (tbl_users d) (tbl_wallets d) (tbl_walletTransactions d)
       (f (tbl_walletHolds d)) (tbl_walletBanks d) (tbl_walletMerchants d)
       (tbl_walletBills d) (tbl_walletRecipients d).
Definition with_walletMerchants
  (f : list walletMerchants.row -> list walletMerchants.row) (d : Db) : Db :=
  mkDb (tbl_users d) (tbl_wallets d) (tbl_walletTransactions d)
       (tbl_walletHolds d) (tbl_walletBanks d) (f (tbl_walletMerchants d))
       (tbl_walletBills d) (tbl_walletRecipients d).
Definition with_walletBills (f : list walletBills.row -> list walletBills.row) (d : Db) : Db :=
  mkDb (tbl_users d) (tbl_wallets d) (tbl_walletTransactions d)
       (tbl_walletHolds d) (tbl_walletBanks d) (tbl_walletMerchants d)
       (f (tbl_walletBills d)) (tbl_walletRecipients d).
Definition with_walletRecipients
  (f : list walletRecipients.row -> list walletRecipients.row) (d : Db) : Db :=
  mkDb (tbl_users d) (tbl_wallets d) (tbl_walletTransactions d)
       (tbl_walletHolds d) (tbl_walletBanks d) (tbl_walletMerchants d)
       (tbl_walletBills d) (f (tbl_walletRecipients d)).

(** [select().from(wallets).where(eq(wallets.userId, uid)).limit(1)] *)
Definition walletOfUser (uid : Z) (d : Db) : option wallets.row :=
  first_where (fun w => wallets.userId w =? uid) (tbl_wallets d).

(** [select().from(wallets).where(eq(wallets.id, wid)).limit(1)] *)
Definition walletById (wid : Z) (d : Db) : option wallets.row :=
  first_where (fun w => wallets.id w =? wid) (tbl_wallets d).

(** [select().from(walletTransactions).where(eq(reference, r)).limit(1)] *)
Definition transactionByReference (r : string) (d : Db) : option walletTransactions.row :=
  first_where (fun t => String.eqb (walletTransactions.reference t) r)
              (tbl_walletTransactions d).

Definition holdByReference (r : string) (d : Db) : option walletHolds.row :=
  first_where (fun h => String.eqb (walletHolds.reference h) r) (tbl_walletHolds d).

(** [update(wallets).set(...).where(eq(wallets.id, wid))] *)
Definition updateWallet (wid : Z) (set : wallets.row -> wallets.row) : M unit :=
  modifyDb (with_wallets (update_where (fun w => wallets.id w =? wid) set)).

(** [update(walletTransactions).set(...).where(eq(reference, r))] *)
Definition updateTransaction (r : string)
  (set : walletTransactions.row -> walletTransactions.row) : M unit :=
  modifyDb (with_walletTransactions
              (update_where (fun t => String.eqb (walletTransactions.reference t) r) set)).

(** [insert(walletTransactions).values(row)]; [reference] is [unique()]. *)
Definition insertTransaction (row : walletTransactions.row) : M unit :=
  d <- getDb ;;
  match transactionByReference (walletTransactions.reference row) d with
  | Some _ => throw (UniqueViolation "wallet_transactions.reference")
  | None => modifyDb (with_walletTransactions (fun rows => rows ++ [row]))
  end.

(** [insert(walletHolds).values(row)]; [reference] is [unique()]. *)
Definition insertHold (row : walletHolds.row) : M unit :=
  d <- getDb ;;
  match holdByReference (walletHolds.reference row) d with
  | Some _ => throw (UniqueViolation "wallet_holds.reference")
  | None => modifyDb (with_walletHolds (fun rows => rows ++ [row]))
  end.

(** A column that references [users.id]: the store refuses a value that
    is the id of no user. *)
Definition checkUserReference (column : string) (id : Z) : M unit :=
  d <- getDb ;;
  throwIf (negb (existsb (fun u => users.id u =? id) (tbl_users d)))
          (ForeignKeyViolation column).

(** ** The payment gateway *)

Record InitializeResponse := mkInitializeResponse
  { init_status : bool;
    init_authorization_url : string;
    init_reference : string }.

Record VerifyResponse := mkVerifyResponse
  { verify_status : bool;
    verify_message : option string;
    verify_data_status : string }.

(** A gateway call: the request goes out (it is logged), and the answer is
    whatever the gateway gives ([None] when axios throws). *)
Definition paystack {R} (req : PaystackRequest) (answer : option R) : M R :=
  fun w =>
    let w' := mkWorld (db w) (timers w) (paystackLog w ++ [req]) in
    match answer with
    | Some r => (w', Return r)
    | None => (w', Throw HttpFailure)
    end.

(** ** Input schemas (zod) *)

Definition is_digit (c : ascii) : bool :=
  let n := nat_of_ascii c in (48 <=? n)%nat && (n <=? 57)%nat.

Fixpoint all_digits (s : string) : bool :=
  match s with
  | EmptyString => true
  | String c r => is_digit c && all_digits r
  end.

(** [z.string().length(4).regex(/^\d+$/)] *)
Definition pin_ok (pin : string) : bool :=
  (String.length pin =? 4)%nat && all_digits pin.

Definition opt_ok {A} (p : A -> bool) (o : option A) : bool :=
  match o with None => true | Some a => p a end.

Definition one_of (choices : list string) (s : string) : bool :=
  existsb (String.eqb s) choices.

Record FundWalletInput := mkFundWalletInput
  { fund_amount : Z;
    fund_paymentMethod : string;
    fund_cardId : option Z;
    fund_bankId : option Z }.

Definition fundWalletSchema (i : FundWalletInput) : bool :=
  (100 <=? fund_amount i) && (fund_amount i <=? 10000000)
  && one_of ["card"; "bank_transfer"; "ussd"] (fund_paymentMethod i)
  && opt_ok (fun n => 0 <? n) (fund_cardId i)
  && opt_ok (fun n => 0 <? n) (fund_bankId i).

Record TransferInput := mkTransferInput
  { transfer_recipientIdentifier : string;
    transfer_amount : Z;
    transfer_pin : string;
    transfer_description : option string }.

Definition transferSchema (i : TransferInput) : bool :=
  (1 <=? String.length (transfer_recipientIdentifier i))%nat
  && (10 <=? transfer_amount i) && (transfer_amount i <=? 500000)
  && pin_ok (transfer_pin i)
  && opt_ok (fun s => (String.length s <=? 100)%nat) (transfer_description i).

Record PayMerchantInput := mkPayMerchantInput
  { merchant_merchantId : Z;
    merchant_amount : Z;
    merchant_pin : string;
    merchant_description : option string }.

Definition payMerchantSchema (i : PayMerchantInput) : bool :=
  (0 <? merchant_merchantId i)
  && (10 <=? merchant_amount i)
  && pin_ok (merchant_pin i)
  && opt_ok (fun s => (String.length s <=? 100)%nat) (merchant_description i).

Record BillPaymentInput := mkBillPaymentInput
  { bill_billType : string;
    bill_provider : string;
    bill_accountNumber : string;
    bill_amount : Z;
    bill_phone : option string;
    bill_meterNumber : option string;
    bill_pin : string }.

Definition billPaymentSchema (i : BillPaymentInput) : bool :=
  one_of ["electricity"; "water"; "dstv"; "gotv"; "startimes"; "airtime"; "data"]
         (bill_billType i)
  && (1 <=? String.length (bill_provider i))%nat
  && (1 <=? String.length (bill_accountNumber i))%nat
  && (50 <=? bill_amount i)
  && pin_ok (bill_pin i).

Record WithdrawInput := mkWithdrawInput
  { withdraw_bankId : Z;
    withdraw_amount : Z;
    withdraw_pin : string }.

Definition withdrawSchema (i : WithdrawInput) : bool :=
  (0 <? withdraw_bankId i)
  && (100 <=? withdraw_amount i) && (withdraw_amount i <=? 500000)
  && pin_ok (withdraw_pin i).

(** [.input(schema)]: tRPC answers BAD_REQUEST when the input does not parse. *)
Definition parseInput (ok : bool) : M unit :=
  throwIf (negb ok) (TRPCError "BAD_REQUEST" "Input validation failed").

(** ** The wallet router *)

Record Ctx := mkCtx { user : users.row }.

(** What one request reads from the clock and from [crypto.randomBytes]:
    [now] is [Date.now()], [nonce] the time-and-random part of the reference
    the procedure builds. *)
Record Env := mkEnv { now : Z; nonce : string }.

Record FundWalletResult := mkFundWalletResult
  { fr_authorizationUrl : string; fr_reference : string; fr_amount : Z }.

Record VerifyFundingResult := mkVerifyFundingResult
  { vr_success : bool; vr_amount : Z; vr_newBalance : Z }.

Record TransferResult := mkTransferResult
  { tr_success : bool;
    tr_reference : string;
    tr_amount : Z;
    tr_fee : Z;
    tr_recipient : string;
    tr_newBalance : Z }.

Record PayMerchantResult := mkPayMerchantResult
  { mr_success : bool;
    mr_reference : string;
    mr_amount : Z;
    mr_fee : Z;
    mr_merchantAmount : Z;
    mr_merchant : string;
    mr_newBalance : Z }.

Record PayBillResult := mkPayBillResult
  { br_success : bool;
    br_reference : string;
    br_amount : Z;
    br_fee : Z;
    br_totalAmount : Z;
    br_status : string;
    br_newBalance : Z }.

Record WithdrawResult := mkWithdrawResult
  { wr_success : bool;
    wr_reference : string;
    wr_amount : Z;
    wr_fee : Z;
    wr_totalAmount : Z;
    wr_status : string;
    wr_newAvailableBalance : Z }.

(** [(cents / 100).toFixed(2)] for a non-negative integer [cents]. *)
Definition digitString (d : Z) : string :=
  String (ascii_of_nat (48 + Z.to_nat d)) EmptyString.

Definition toFixed2 (cents : Z) : string :=
  String.append (NilZero.string_of_int (Z.to_int (cents / 100)))
    (String.append "."
       (String.append (digitString ((cents mod 100) / 10))
                      (digitString (cents mod 10)))).

(** [`Insufficient balance (includes R${(fee / 100).toFixed(2)} fee)`] *)
Definition insufficientWithFee (fee : Z) : string :=
  String.append "Insufficient balance (includes R"
                (String.append (toFixed2 fee) " fee)").

(** Fee rules, as the procedures compute them. *)

(** [Math.round(input.amount * 0.015)] *)
Definition fundingFee (amount : Z) : Z :=
  JS.Math_round (JS.mul (JS.of_int amount) JS.lit_0_015).

(** [Math.max(100, Math.round(amount * 0.005))] *)
Definition transferFee (amount : Z) : Z :=
  Z.max 100 (JS.Math_round (JS.mul (JS.of_int amount) JS.lit_0_005)).

(** [Math.round(amount * (feePercentage / 100))] with
    [feePercentage = parseFloat(merchant.transactionFeePercentage || '1.00')] *)
Definition merchantFee (amount : Z) (transactionFeePercentage : option Z) : Z :=
  let feePercentage :=
    JS.parseFloat_hundredths
      (match transactionFeePercentage with Some h => h | None => 100 end) in
  JS.Math_round (JS.mul (JS.of_int amount) (JS.div feePercentage (JS.of_int 100))).

(** [Math.max(200, Math.round(amount * 0.015))] *)
Definition billFee (amount : Z) : Z :=
  Z.max 200 (JS.Math_round (JS.mul (JS.of_int amount) JS.lit_0_015)).

(** [const fee = 1500] *)
Definition withdrawalFee : Z := 1500.

Section Router.

(** [bcrypt.hash(pin, salt)] and [bcrypt.compare(pin, hash)]. *)
Variable bcrypt_hash : string -> string -> string.
Variable bcrypt_compare : string -> string -> bool.

(** [parseInt(s)]; [None] is NaN. *)
Variable parseInt : string -> option Z.

(** Local midnight and the first of the month of the instant [now]. *)
Variable startOfDay : Z -> Z.
Variable startOfMonth : Z -> Z.

(** [bcrypt.compare(pin, wallet.walletPinHash || '')] *)
Definition pinValid (pin : string) (w : wallets.row) : bool :=
  bcrypt_compare pin (match wallets.walletPinHash w with Some h => h | None => "" end).

(** *** initialize *)
Definition initialize (ctx : Ctx) (pin salt : string) : M wallets.row :=
  parseInput (pin_ok pin) ;;
  d <- getDb ;;
  match walletOfUser (users.id (user ctx)) d with
  | Some _ => throw (TRPCError "CONFLICT" "Wallet already exists")
  | None =>
      let wallet :=
        wallets.mk (next_serial (map wallets.id (tbl_wallets d)))
                   (users.id (user ctx)) 0 0
                   (Some (bcrypt_hash pin salt)) (Some salt)
                   500000 2000000 true true None in
      modifyDb (with_wallets (fun rows => rows ++ [wallet])) ;;
      ret wallet
  end.

(** *** fundWallet *)
Definition fundingChannels (paymentMethod : string) : list string :=
  if String.eqb paymentMethod "card" then ["card"]
  else if String.eqb paymentMethod "bank_transfer" then ["bank_transfer"]
  else ["ussd"; "bank"; "card"].

Definition fundWallet (ctx : Ctx) (input : FundWalletInput) (env : Env)
  (gateway : option InitializeResponse) : M FundWalletResult :=
  parseInput (fundWalletSchema input) ;;
  d <- getDb ;;
  match walletOfUser (users.id (user ctx)) d with
  | None => throw (TRPCError "NOT_FOUND" "Wallet not found")
  | Some wallet =>
      throwIf (fund_amount input >? 10000000)
              (TRPCError "BAD_REQUEST" "Amount exceeds maximum limit") ;;
      let reference := String.append "VH_" (nonce env) in
      response <- paystack (Initialize (users.email (user ctx)) (fund_amount input)
                                       reference
                                       (fundingChannels (fund_paymentMethod input)))
                           gateway ;;
      throwIf (negb (init_status response))
              (TRPCError "INTERNAL_SERVER_ERROR" "Failed to initialize payment") ;;
      insertTransaction
        (walletTransactions.mk
           (wallets.id wallet) reference "deposit" (Some (fund_paymentMethod input))
           (fund_amount input)
           (fundingFee (fund_amount input))
           (fund_amount input - fundingFee (fund_amount input))
           (wallets.balance wallet) (wallets.balance wallet)
           None None None "pending"
           (Some (fund_paymentMethod input)) (Some (init_reference response))
           None None (now env)) ;;
      ret (mkFundWalletResult (init_authorization_url response)
                              (init_reference response) (fund_amount input))
  end.

(** *** verifyFunding *)

(** [response.data.message || 'Payment failed'] *)
Definition failureMessage (m : option string) : string :=
  match m with
  | Some s => if String.eqb s "" then "Payment failed" else s
  | None => "Payment failed"
  end.

Definition verifyFunding (ctx : Ctx) (reference : string) (env : Env)
  (gateway : option VerifyResponse) : M VerifyFundingResult :=
  d <- getDb ;;
  match transactionByReference reference d with
  | None => throw (TRPCError "NOT_FOUND" "Transaction not found")
  | Some transaction =>
      response <- paystack (Verify reference) gateway ;;
      if negb (verify_status response)
         || negb (String.eqb (verify_data_status response) "success")
      then
        updateTransaction reference
          (fun t => walletTransactions.set_completedAt (now env)
                      (walletTransactions.set_failureReason
                         (failureMessage (verify_message response))
                         (walletTransactions.set_status "failed" t))) ;;
        throw (TRPCError "BAD_REQUEST" "Payment verification failed")
      else
        d' <- getDb ;;
        match walletById (walletTransactions.walletId transaction) d' with
        | None => throw (TRPCError "NOT_FOUND" "Wallet not found")
        | Some wallet =>
            let newBalance :=
              wallets.balance wallet + walletTransactions.netAmount transaction in
            let newAvailableBalance :=
              wallets.availableBalance wallet
              + walletTransactions.netAmount transaction in
            db_transaction
              (checkInt4 "wallets.balance" newBalance ;;
               checkInt4 "wallets.available_balance" newAvailableBalance ;;
               updateWallet (wallets.id wallet)
                 (fun w => wallets.set_lastTransactionAt (now env)
                             (wallets.set_availableBalance newAvailableBalance
                                (wallets.set_balance newBalance w))) ;;
               updateTransaction reference
                 (fun t => walletTransactions.set_completedAt (now env)
                             (walletTransactions.set_balanceAfter newBalance
                                (walletTransactions.set_balanceBefore
                                   (wallets.balance wallet)
                                   (walletTransactions.set_status "completed" t))))) ;;
            ret (mkVerifyFundingResult true
                   (walletTransactions.amount transaction) newBalance)
        end
  end.

(** *** transfer *)

(** [sum(walletTransactions.amount)] over the rows of the wallet created at or
    after [since] with status 'completed' and type 'transfer';
    [Number(total || 0)] is 0 when there is no such row. *)
Definition transferTotalSince (walletId since : Z) (d : Db) : Z :=
  sum_amounts
    (filter (fun t => (walletTransactions.walletId t =? walletId)
                      && (since <=? walletTransactions.createdAt t)
                      && String.eqb (walletTransactions.status t) "completed"
                      && String.eqb (walletTransactions.type t) "transfer")
            (tbl_walletTransactions d)).

(** The user, joined with a wallet, whose email, phone or id is the
    identifier ([parseInt(recipientIdentifier) || 0] for the id). *)
Definition findRecipient (recipientIdentifier : string) (d : Db) : option users.row :=
  first_where
    (fun u => (String.eqb (users.email u) recipientIdentifier
               || match users.phone u with
                  | Some p => String.eqb p recipientIdentifier
                  | None => false
                  end
               || (users.id u =? match parseInt recipientIdentifier with
                                 | Some n => n
                                 | None => 0
                                 end))
              && existsb (fun w => wallets.userId w =? users.id u) (tbl_wallets d))
    (tbl_users d).

(** [recipient.email || recipient.phone || recipient.id.toString()] *)
Definition recipientIdentifierOf (u : users.row) : string :=
  let idString := NilZero.string_of_int (Z.to_int (users.id u)) in
  if negb (String.eqb (users.email u) "") then users.email u
  else match users.phone u with
       | Some p => if negb (String.eqb p "") then p else idString
       | None => idString
       end.

(** [ON CONFLICT (target)] needs a unique index on exactly the columns of
    the target; the store refuses the statement otherwise, whatever the
    rows are. *)
Definition sameColumns (a b : list string) : bool :=
  forallb (fun c => existsb (String.eqb c) b) a
  && forallb (fun c => existsb (String.eqb c) a) b.

Definition conflictTargetIndexed (indexes : list (list string))
  (target : list string) : bool :=
  existsb (sameColumns target) indexes.

(** [target: [walletRecipients.userId, walletRecipients.recipientId]] *)
Definition recipientConflictTarget : list string := ["user_id"; "recipient_id"].

(** What the store of [db/schema-wallet] answers to the cache statement of
    [transfer]: [wallet_recipients] has no unique index on (user_id,
    recipient_id), so the statement is refused. *)
Definition schemaAcceptsRecipientUpsert : bool :=
  conflictTargetIndexed walletRecipients.uniqueIndexes recipientConflictTarget.

(** [insert(walletRecipients).values(...).onConflictDoUpdate(...)]: the store
    either carries the statement out or rejects it ([accepted = false]);
    [accepted] is whether the table has the unique index the conflict target
    names, [schemaAcceptsRecipientUpsert] for the schema as it is. *)
Definition upsertRecipient (accepted : bool) (row : walletRecipients.row)
  (amount : Z) : M unit :=
  if accepted then
    modifyDb (with_walletRecipients (fun rows =>
      let same r :=
        (walletRecipients.userId r =? walletRecipients.userId row)
        && match walletRecipients.recipientId r, walletRecipients.recipientId row with
           | Some a, Some b => a =? b
           | _, _ => false
           end in
      if existsb same rows then
        update_where same
          (fun r => walletRecipients.mk
                      (walletRecipients.userId r) (walletRecipients.recipientType r)
                      (walletRecipients.recipientId r) (walletRecipients.recipientName r)
                      (walletRecipients.recipientIdentifier r)
                      (walletRecipients.lastTransactionAt row)
                      (walletRecipients.totalTransactions r + 1)
                      (walletRecipients.totalAmount r + amount))
          rows
      else rows ++ [row]))
  else throw UpsertFailure.

(** The unit of work of [transfer] up to the cache statement: the two
    balance updates and the three rows of the ledger. It answers the
    sender's new balance. *)
Definition transferLegs (ctx : Ctx) (env : Env) (amount fee : Z) (reference : string)
  (senderWallet recipientWallet : wallets.row) (recipient : users.row) : M Z :=
  let netAmount := amount - fee in
  let senderNewBalance := wallets.balance senderWallet - amount in
  let senderNewAvailableBalance :=
    wallets.availableBalance senderWallet - amount in
  updateWallet (wallets.id senderWallet)
    (fun w => wallets.set_lastTransactionAt (now env)
                (wallets.set_availableBalance senderNewAvailableBalance
                   (wallets.set_balance senderNewBalance w))) ;;
  let recipientNewBalance := wallets.balance recipientWallet + netAmount in
  let recipientNewAvailableBalance :=
    wallets.availableBalance recipientWallet + netAmount in
  checkInt4 "wallets.balance" recipientNewBalance ;;
  checkInt4 "wallets.available_balance" recipientNewAvailableBalance ;;
  updateWallet (wallets.id recipientWallet)
    (fun w => wallets.set_lastTransactionAt (now env)
                (wallets.set_availableBalance recipientNewAvailableBalance
                   (wallets.set_balance recipientNewBalance w))) ;;
  insertTransaction
    (walletTransactions.mk
       (wallets.id senderWallet) (String.append reference "_S")
       "transfer" (Some "p2p_send")
       (- amount) fee (- amount)
       (wallets.balance senderWallet) senderNewBalance
       None (Some (users.id recipient)) None
       "completed" (Some "wallet") None (Some (now env)) None
       (now env)) ;;
  insertTransaction
    (walletTransactions.mk
       (wallets.id recipientWallet) (String.append reference "_R")
       "transfer" (Some "p2p_receive")
       netAmount 0 netAmount
       (wallets.balance recipientWallet) recipientNewBalance
       (Some (users.id (user ctx))) None None
       "completed" (Some "wallet") None (Some (now env)) None
       (now env)) ;;
  insertTransaction
    (walletTransactions.mk
       (wallets.id senderWallet) (String.append reference "_F")
       "fee" None
       (- fee) 0 (- fee)
       senderNewBalance senderNewBalance
       None None None
       "completed" None None (Some (now env)) None
       (now env)) ;;
  ret senderNewBalance.

Definition transfer (ctx : Ctx) (input : TransferInput) (env : Env)
  (recipientCacheAccepted : bool) : M TransferResult :=
  parseInput (transferSchema input) ;;
  let amount := transfer_amount input in
  d <- getDb ;;
  match walletOfUser (users.id (user ctx)) d with
  | None => throw (TRPCError "NOT_FOUND" "Wallet not found")
  | Some senderWallet =>
      throwIf (negb (pinValid (transfer_pin input) senderWallet))
              (TRPCError "UNAUTHORIZED" "Invalid PIN") ;;
      throwIf (amount >? wallets.availableBalance senderWallet)
              (TRPCError "BAD_REQUEST" "Insufficient balance") ;;
      let dailySpent :=
        transferTotalSince (wallets.id senderWallet) (startOfDay (now env)) d in
      let monthlySpent :=
        transferTotalSince (wallets.id senderWallet) (startOfMonth (now env)) d in
      throwIf (dailySpent + amount >? wallets.dailyLimit senderWallet)
              (TRPCError "BAD_REQUEST" "Daily transfer limit exceeded") ;;
      throwIf (monthlySpent + amount >? wallets.monthlyLimit senderWallet)
              (TRPCError "BAD_REQUEST" "Monthly transfer limit exceeded") ;;
      match findRecipient (transfer_recipientIdentifier input) d with
      | None => throw (TRPCError "NOT_FOUND"
                         "Recipient not found or does not have a wallet")
      | Some recipient =>
          throwIf (users.id recipient =? users.id (user ctx))
                  (TRPCError "BAD_REQUEST" "Cannot transfer to yourself") ;;
          match walletOfUser (users.id recipient) d with
          | None => throw (TRPCError "NOT_FOUND" "Recipient wallet not found")
          | Some recipientWallet =>
              let fee := transferFee amount in
              let reference := String.append "TRF_" (nonce env) in
              db_transaction
                (senderNewBalance <-
                   transferLegs ctx env amount fee reference
                                senderWallet recipientWallet recipient ;;
                 upsertRecipient recipientCacheAccepted
                   (walletRecipients.mk
                      (users.id (user ctx)) "user" (Some (users.id recipient))
                      (users.name recipient) (recipientIdentifierOf recipient)
                      (Some (now env)) 1 amount)
                   amount ;;
                 ret (mkTransferResult true reference amount fee
                                       (users.name recipient) senderNewBalance))
          end
      end
  end.

(** *** payMerchant *)
Definition merchantById (mid : Z) (d : Db) : option walletMerchants.row :=
  first_where (fun m => walletMerchants.id m =? mid) (tbl_walletMerchants d).

Definition payMerchant (ctx : Ctx) (input : PayMerchantInput) (env : Env)
  : M PayMerchantResult :=
  parseInput (payMerchantSchema input) ;;
  let amount := merchant_amount input in
  d <- getDb ;;
  match walletOfUser (users.id (user ctx)) d with
  | None => throw (TRPCError "NOT_FOUND" "Wallet not found")
  | Some senderWallet =>
      throwIf (negb (pinValid (merchant_pin input) senderWallet))
              (TRPCError "UNAUTHORIZED" "Invalid PIN") ;;
      throwIf (amount >? wallets.availableBalance senderWallet)
              (TRPCError "BAD_REQUEST" "Insufficient balance") ;;
      match merchantById (merchant_merchantId input) d with
      | None => throw (TRPCError "NOT_FOUND" "Merchant not found")
      | Some merchant =>
          match walletOfUser (walletMerchants.userId merchant) d with
          | None => throw (TRPCError "NOT_FOUND" "Merchant wallet not found")
          | Some merchantWallet =>
              let fee :=
                merchantFee amount (walletMerchants.transactionFeePercentage merchant) in
              let merchantAmount := amount - fee in
              let reference := String.append "MERCH_" (nonce env) in
              db_transaction
                (let senderNewBalance := wallets.balance senderWallet - amount in
                 let senderNewAvailableBalance :=
                   wallets.availableBalance senderWallet - amount in
                 updateWallet (wallets.id senderWallet)
                   (fun w => wallets.set_lastTransactionAt (now env)
                               (wallets.set_availableBalance senderNewAvailableBalance
                                  (wallets.set_balance senderNewBalance w))) ;;
                 let merchantNewBalance :=
                   wallets.balance merchantWallet + merchantAmount in
                 let merchantNewAvailableBalance :=
                   wallets.availableBalance merchantWallet + merchantAmount in
                 checkInt4 "wallets.balance" merchantNewBalance ;;
                 checkInt4 "wallets.available_balance" merchantNewAvailableBalance ;;
                 updateWallet (wallets.id merchantWallet)
                   (fun w => wallets.set_lastTransactionAt (now env)
                               (wallets.set_availableBalance merchantNewAvailableBalance
                                  (wallets.set_balance merchantNewBalance w))) ;;
                 insertTransaction
                   (walletTransactions.mk
                      (wallets.id senderWallet) (String.append reference "_S")
                      "payment" (Some "merchant")
                      (- amount) 0 (- amount)
                      (wallets.balance senderWallet) senderNewBalance
                      None None (Some (walletMerchants.id merchant))
                      "completed" (Some "wallet") None (Some (now env)) None
                      (now env)) ;;
                 checkUserReference "wallet_transactions.merchant_id"
                                    (walletMerchants.id merchant) ;;
                 insertTransaction
                   (walletTransactions.mk
                      (wallets.id merchantWallet) (String.append reference "_M")
                      "payment" (Some "merchant_receive")
                      merchantAmount fee merchantAmount
                      (wallets.balance merchantWallet) merchantNewBalance
                      (Some (users.id (user ctx))) None
                      (Some (walletMerchants.id merchant))
                      "completed" (Some "wallet") None (Some (now env)) None
                      (now env)) ;;
                 (if fee >? 0 then
                    insertTransaction
                      (walletTransactions.mk
                         (wallets.id merchantWallet) (String.append reference "_F")
                         "fee" None
                         (- fee) 0 (- fee)
                         merchantNewBalance merchantNewBalance
                         None None None
                         "completed" None None (Some (now env)) None
                         (now env))
                  else ret tt) ;;
                 checkInt4 "wallet_merchants.monthly_volume"
                           (walletMerchants.monthlyVolume merchant + amount) ;;
                 checkInt4 "wallet_merchants.total_transactions"
                           (walletMerchants.totalTransactions merchant + 1) ;;
                 modifyDb (with_walletMerchants
                   (update_where
                      (fun m => walletMerchants.id m =? walletMerchants.id merchant)
                      (fun m => walletMerchants.mk
                                  (walletMerchants.id m) (walletMerchants.userId m)
                                  (walletMerchants.businessName m)
                                  (walletMerchants.transactionFeePercentage m)
                                  (walletMerchants.monthlyVolume m + amount)
                                  (walletMerchants.totalTransactions m + 1)))) ;;
                 ret (mkPayMerchantResult true reference amount fee merchantAmount
                        (walletMerchants.businessName merchant) senderNewBalance))
          end
      end
  end.

(** *** payBill *)

(** Whether the values of an insert into [walletBills] fit their columns:
    provider, account number and meter number are varchar(100) and the
    schema puts no upper bound on them. *)
Definition billColumnsFit (i : BillPaymentInput) : bool :=
  (String.length (bill_provider i) <=? 100)%nat
  && (String.length (bill_accountNumber i) <=? 100)%nat
  && opt_ok (fun s => (String.length s <=? 100)%nat) (bill_meterNumber i).

Definition payBill (ctx : Ctx) (input : BillPaymentInput) (env : Env)
  (isSuccess : bool) : M PayBillResult :=
  parseInput (billPaymentSchema input) ;;
  let amount := bill_amount input in
  d <- getDb ;;
  match walletOfUser (users.id (user ctx)) d with
  | None => throw (TRPCError "NOT_FOUND" "Wallet not found")
  | Some wallet =>
      throwIf (negb (pinValid (bill_pin input) wallet))
              (TRPCError "UNAUTHORIZED" "Invalid PIN") ;;
      throwIf (amount >? wallets.availableBalance wallet)
              (TRPCError "BAD_REQUEST" "Insufficient balance") ;;
      let fee := billFee amount in
      let totalAmount := amount + fee in
      throwIf (totalAmount >? wallets.availableBalance wallet)
              (TRPCError "BAD_REQUEST" (insufficientWithFee fee)) ;;
      let reference := String.append "BILL_" (nonce env) in
      db_transaction
        (let newBalance := wallets.balance wallet - totalAmount in
         let newAvailableBalance := wallets.availableBalance wallet - totalAmount in
         updateWallet (wallets.id wallet)
           (fun w => wallets.set_lastTransactionAt (now env)
                       (wallets.set_availableBalance newAvailableBalance
                          (wallets.set_balance newBalance w))) ;;
         throwIf (negb (billColumnsFit input))
                 (TRPCError "INTERNAL_SERVER_ERROR"
                            "value too long for type character varying") ;;
         d1 <- getDb ;;
         let bill :=
           walletBills.mk (next_serial (map walletBills.id (tbl_walletBills d1)))
                          (users.id (user ctx)) (bill_billType input)
                          (bill_provider input) (bill_accountNumber input)
                          amount fee reference
                          (if isSuccess then "processing" else "failed") None in
         modifyDb (with_walletBills (fun rows => rows ++ [bill])) ;;
         let transactionStatus := if isSuccess then "processing" else "failed" in
         insertTransaction
           (walletTransactions.mk
              (wallets.id wallet) reference "bill_payment" (Some (bill_billType input))
              (- totalAmount) fee (- totalAmount)
              (wallets.balance wallet) newBalance
              None None None
              transactionStatus (Some "wallet") None
              (if isSuccess then None else Some (now env)) None
              (now env)) ;;
         (if negb isSuccess then
            modifyDb (with_walletBills
              (update_where (fun b => walletBills.id b =? walletBills.id bill)
                            (walletBills.set_status "failed"))) ;;
            throw (TRPCError "INTERNAL_SERVER_ERROR"
                     "Bill payment failed. Please try again.")
          else ret tt) ;;
         setTimeout (BillCompletion (walletBills.id bill) reference) ;;
         ret (mkPayBillResult true reference amount fee totalAmount
                              "processing" newBalance))
  end.

(** *** withdraw *)
Definition bankOfUser (bankId uid : Z) (d : Db) : option walletBanks.row :=
  first_where (fun b => (walletBanks.id b =? bankId) && (walletBanks.userId b =? uid))
              (tbl_walletBanks d).

Definition withdraw (ctx : Ctx) (input : WithdrawInput) (env : Env)
  : M WithdrawResult :=
  parseInput (withdrawSchema input) ;;
  let amount := withdraw_amount input in
  d <- getDb ;;
  match walletOfUser (users.id (user ctx)) d with
  | None => throw (TRPCError "NOT_FOUND" "Wallet not found")
  | Some wallet =>
      throwIf (negb (pinValid (withdraw_pin input) wallet))
              (TRPCError "UNAUTHORIZED" "Invalid PIN") ;;
      throwIf (amount >? wallets.availableBalance wallet)
              (TRPCError "BAD_REQUEST" "Insufficient balance") ;;
      match bankOfUser (withdraw_bankId input) (users.id (user ctx)) d with
      | None => throw (TRPCError "NOT_FOUND" "Bank account not found")
      | Some bank =>
          throwIf (negb (walletBanks.isVerified bank))
                  (TRPCError "BAD_REQUEST" "Bank account not verified") ;;
          let fee := withdrawalFee in
          let totalAmount := amount + fee in
          throwIf (totalAmount >? wallets.availableBalance wallet)
                  (TRPCError "BAD_REQUEST" (insufficientWithFee fee)) ;;
          let reference := String.append "WDL_" (nonce env) in
          insertHold
            (walletHolds.mk (wallets.id wallet) totalAmount "withdrawal" reference
                            (Some (now env + 24 * 60 * 60 * 1000)) None) ;;
          let newAvailableBalance := wallets.availableBalance wallet - totalAmount in
          updateWallet (wallets.id wallet)
                       (wallets.set_availableBalance newAvailableBalance) ;;
          insertTransaction
            (walletTransactions.mk
               (wallets.id wallet) reference "withdrawal" (Some "bank_transfer")
               (- totalAmount) fee (- totalAmount)
               (wallets.balance wallet) (wallets.balance wallet)
               None None None
               "processing" (Some "bank_transfer") None None None
               (now env)) ;;
          setTimeout (WithdrawalCompletion wallet totalAmount reference) ;;
          ret (mkWithdrawResult true reference amount fee totalAmount
                                "processing" newAvailableBalance)
      end
  end.

(** *** The [setTimeout] callbacks

    [runTimer now t] is the body of the callback [t], run at instant [now]. *)
Definition runTimer (now : Z) (t : Timer) : M unit :=
  match t with
  | BillCompletion billId reference =>
      try_catch
        (db_transaction
           (modifyDb (with_walletBills
              (update_where (fun b => walletBills.id b =? billId)
                 (fun b => walletBills.set_completedAt now
                             (walletBills.set_status "completed" b)))) ;;
            updateTransaction reference
              (fun t => walletTransactions.set_completedAt now
                          (walletTransactions.set_status "completed" t))))
  | WithdrawalCompletion wallet totalAmount reference =>
      try_catch
        (db_transaction
           (modifyDb (with_walletHolds
              (update_where (fun h => String.eqb (walletHolds.reference h) reference)
                            (walletHolds.set_releasedAt now))) ;;
            let newBalance := wallets.balance wallet - totalAmount in
            updateWallet (wallets.id wallet)
              (fun w => wallets.set_lastTransactionAt now
                          (wallets.set_balance newBalance w)) ;;
            updateTransaction reference
              (fun t => walletTransactions.set_completedAt now
                          (walletTransactions.set_balanceAfter newBalance
                             (walletTransactions.set_status "completed" t)))))
  end.

(** The next pending callback fires: it leaves the timer queue and runs. *)
Definition fireTimer (now : Z) : M unit :=
  fun w =>
    match timers w with
    | [] => (w, Return tt)
    | t :: rest => runTimer now t (mkWorld (db w) rest (paystackLog w))
    end.

End Router.

(** ** A concrete environment for the scenarios

    bcrypt is replaced by salt-prefixing, the clock by UTC days inside
    January 1970, [parseInt] by decimal parsing. The theorems below hold for
    every environment; the scenarios run in this one. *)

Module Fixture.

Definition bcrypt_hash (pin salt : string) : string := String.append salt pin.

Definition bcrypt_compare (pin hash : string) : bool :=
  String.eqb (substring (String.length hash - 4) 4 hash) pin.

Definition parseInt (s : string) : option Z :=
  option_map Z.of_int (NilZero.int_of_string s).

Definition startOfDay (now : Z) : Z := now - now mod 86400000.

Definition startOfMonth (now : Z) : Z := 0.

Definition alice : users.row := users.mk 1 "Alice" "alice@campus.test" None.
Definition bob : users.row := users.mk 2 "Bob" "bob@campus.test" None.
Definition shop : users.row := users.mk 3 "Shop" "shop@campus.test" None.

Definition emptyDb : Db :=
  mkDb [alice; bob; shop] [] [] []
       [walletBanks.mk 1 1 "Absa Bank" "4070112233" true]
       [walletMerchants.mk 1 3 "Campus Shop" (Some 100) 0 0]
       [] [].

Definition world0 : World := mkWorld emptyDb [] [].

End Fixture.

(** The world a computation leaves, and its outcome. *)
Definition exec {A} (m : M A) (w : World) : World := fst (m w).
Definition outcome {A} (m : M A) (w : World) : Outcome A := snd (m w).

(** ** Scenarios

    Three users open wallets; Alice funds hers with 10000 and the gateway
    confirms the charge. *)

Module Scenario.
Import Fixture.

Definition env (t : Z) (n : string) : Env := mkEnv t n.

Definition initialize (c : Ctx) : M wallets.row :=
  initialize bcrypt_hash c "1234" "salt".
Definition transfer := transfer bcrypt_compare parseInt startOfDay startOfMonth.
Definition payMerchant := payMerchant bcrypt_compare.
Definition payBill := payBill bcrypt_compare.
Definition withdraw := withdraw bcrypt_compare.

Definition gatewayInit (ref : string) : option InitializeResponse :=
  Some (mkInitializeResponse true "https://checkout.test/pay" ref).
Definition gatewaySuccess : option VerifyResponse :=
  Some (mkVerifyResponse true None "success").

Definition opened : World :=
  exec (initialize (mkCtx shop))
    (exec (initialize (mkCtx bob))
       (exec (initialize (mkCtx alice)) world0)).

(** Alice asks to fund 10000 (fee 150, net 9850). *)
Definition fundingPending : World :=
  exec (fundWallet (mkCtx alice) (mkFundWalletInput 10000 "card" None None)
                   (env 1000 "1000_1_a1b2c3d4") (gatewayInit "VH_1000_1_a1b2c3d4"))
       opened.

(** First verification: the charge succeeded. *)
Definition fundingVerified : World :=
  exec (verifyFunding (mkCtx alice) "VH_1000_1_a1b2c3d4" (env 2000 "") gatewaySuccess)
       fundingPending.

(** The same verification, called once more. *)
Definition fundingVerifiedAgain : World :=
  exec (verifyFunding (mkCtx alice) "VH_1000_1_a1b2c3d4" (env 3000 "") gatewaySuccess)
       fundingVerified.

(** A world with explicit balances for Alice and Bob. *)
Definition withBalances (a_balance a_available b_balance : Z) : World :=
  mkWorld
    (mkDb [alice; bob; shop]
          [wallets.mk 1 1 a_balance a_available (Some "salt1234") (Some "salt")
                      500000 2000000 true true None;
           wallets.mk 2 2 b_balance b_balance (Some "salt1234") (Some "salt")
                      500000 2000000 true true None;
           wallets.mk 3 3 0 0 (Some "salt1234") (Some "salt")
                      500000 2000000 true true None]
          [] []
          [walletBanks.mk 1 1 "Absa Bank" "4070112233" true]
          [walletMerchants.mk 1 3 "Campus Shop" (Some 100) 0 0]
          [] [])
    [] [].

(** Alice (balance 10000, all of it available) sends 5000 to Bob, who has
    700. [afterTransfer] is the world the transfer would leave on a store
    that accepted the cache statement. *)
Definition beforeTransfer : World := withBalances 10000 10000 700.
Definition transfer5000 : TransferInput :=
  mkTransferInput "bob@campus.test" 5000 "1234" None.
Definition afterTransfer : World :=
  exec (transfer (mkCtx alice) transfer5000 (env 4000 "4000_0a0b0c0d") true)
       beforeTransfer.
Definition aliceBefore : wallets.row :=
  wallets.mk 1 1 10000 10000 (Some "salt1234") (Some "salt") 500000 2000000 true true None.
Definition bobBefore : wallets.row :=
  wallets.mk 2 2 700 700 (Some "salt1234") (Some "salt") 500000 2000000 true true None.

(** Alice funds 1000000 (net 985000), pays the campus shop 400000, then sends
    Bob 200000, all on the same day. *)
Definition fundedLarge : World :=
  exec (verifyFunding (mkCtx alice) "VH_1000_1_a1b2c3d4" (env 2000 "") gatewaySuccess)
       (exec (fundWallet (mkCtx alice) (mkFundWalletInput 1000000 "card" None None)
                         (env 1000 "1000_1_a1b2c3d4") (gatewayInit "VH_1000_1_a1b2c3d4"))
             opened).
Definition pay400000 : PayMerchantInput := mkPayMerchantInput 1 400000 "1234" None.
Definition afterPayment : World :=
  exec (payMerchant (mkCtx alice) pay400000 (env 3000 "3000_11111111")) fundedLarge.
Definition transfer200000 : TransferInput :=
  mkTransferInput "bob@campus.test" 200000 "1234" None.

(** Alice, funded as above, sends Bob 300000 twice on the same day, on a
    store that accepted the cache statement. *)
Definition transfer300000 : TransferInput :=
  mkTransferInput "bob@campus.test" 300000 "1234" None.
Definition afterFirst300000 : World :=
  exec (transfer (mkCtx alice) transfer300000 (env 3000 "3000_22222222") true)
       fundedLarge.
Definition afterSecond300000 : World :=
  exec (transfer (mkCtx alice) transfer300000 (env 4000 "4000_33333333") true)
       afterFirst300000.

(** Alice (balance 10000) buys airtime for 1000: fee 200, total 1200. *)
Definition beforeBill : World := withBalances 10000 10000 0.
Definition airtime1000 : BillPaymentInput :=
  mkBillPaymentInput "airtime" "mtn" "0820000000" 1000 (Some "0820000000") None "1234".
Definition afterBill : World :=
  exec (payBill (mkCtx alice) airtime1000 (env 5000 "5000_44444444") true) beforeBill.

(** Alice has 3000, all of it available, and asks to withdraw. *)
Definition beforeWithdrawal : World := withBalances 3000 3000 0.
Definition withdraw2000 : WithdrawInput := mkWithdrawInput 1 2000 "1234".

(** After her first funding (balance 9850) Alice asks to withdraw 7000
    (total 8500); while the withdrawal is pending she funds another 10000 and
    the gateway confirms; the withdrawal completes three seconds after the
    request; then she pays an electricity bill of 5000 (total 5200). *)
Definition withdraw7000 : WithdrawInput := mkWithdrawInput 1 7000 "1234".
Definition aliceAtRequest : wallets.row :=
  wallets.mk 1 1 9850 9850 (Some "salt1234") (Some "salt") 500000 2000000 true true
             (Some 2000).
Definition withdrawalRequested : World :=
  exec (withdraw (mkCtx alice) withdraw7000 (env 6000 "6000_0000aaaa"))
       fundingVerified.
Definition secondFundingPending : World :=
  exec (fundWallet (mkCtx alice) (mkFundWalletInput 10000 "card" None None)
                   (env 7000 "7000_1_b1b2c3d4") (gatewayInit "VH_7000_1_b1b2c3d4"))
       withdrawalRequested.
Definition fundedMeanwhile : World :=
  exec (verifyFunding (mkCtx alice) "VH_7000_1_b1b2c3d4" (env 8000 "") gatewaySuccess)
       secondFundingPending.
Definition withdrawalCompleted : World := exec (fireTimer 9000) fundedMeanwhile.
Definition electricity5000 : BillPaymentInput :=
  mkBillPaymentInput "electricity" "eskom" "04123456789" 5000 None
                     (Some "04123456789") "1234".
Definition afterLateBill : World :=
  exec (payBill (mkCtx alice) electricity5000 (env 10000 "10000_0000bbbb") true)
       withdrawalCompleted.

End Scenario.

(** * The rest of the router

    The procedures of the wallet router besides the ones that move money:
    the wallet view, bank accounts and QR codes; then the checks of
    [WalletSecurity] and the guards of [_core/trpc] in front of the
    procedures. *)

(** ** getWallet *)

Record WalletStats := mkWalletStats
  { dailySpent : Z;
    monthlySpent : Z;
    dailyLimitRemaining : Z;
    monthlyLimitRemaining : Z }.

(** What [getWallet] returns: the columns it selects, as far as the model
    of [wallets] carries them (the PIN hash and salt are not selected), and
    the statistics. *)
Record WalletView := mkWalletView
  { view_id : Z;
    view_balance : Z;
    view_availableBalance : Z;
    view_dailyLimit : Z;
    view_monthlyLimit : Z;
    view_isActive : bool;
    view_isVerified : bool;
    view_lastTransactionAt : option Z;
    view_stats : WalletStats }.

(** [or(eq(type, 'transfer'), eq(type, 'payment'), eq(type, 'withdrawal'))] *)
Definition spendKind (t : walletTransactions.row) : bool :=
  String.eqb (walletTransactions.type t) "transfer"
  || String.eqb (walletTransactions.type t) "payment"
  || String.eqb (walletTransactions.type t) "withdrawal".

(** [walletTransactions.innerJoin(wallets, eq(walletId, wallets.id))] with
    [eq(wallets.userId, uid)]: a transaction occurs once for every wallet of
    the user that carries its wallet id. *)
Definition joinedWithWalletsOf (uid : Z) (d : Db)
  (rows : list walletTransactions.row) : list walletTransactions.row :=
  flat_map
    (fun t => map (fun _ => t)
                  (filter (fun w => (walletTransactions.walletId t =? wallets.id w)
                                    && (wallets.userId w =? uid))
                          (tbl_wallets d)))
    rows.

(** [sum(walletTransactions.amount)] over the completed transfer, payment
    and withdrawal rows of the user created at or after [since]. *)
Definition spendTotalSince (uid since : Z) (d : Db) : Z :=
  sum_amounts
    (joinedWithWalletsOf uid d
       (filter (fun t => (since <=? walletTransactions.createdAt t)
                         && String.eqb (walletTransactions.status t) "completed"
                         && spendKind t)
               (tbl_walletTransactions d))).

(** ** Bank accounts *)

Record AddBankInput := mkAddBankInput
  { bank_bankCode : string;
    bank_accountNumber : string;
    bank_accountName : string;
    bank_accountType : option string }.

Definition addBankSchema (i : AddBankInput) : bool :=
  (1 <=? String.length (bank_bankCode i))%nat
  && (9 <=? String.length (bank_accountNumber i))%nat
  && (String.length (bank_accountNumber i) <=? 20)%nat
  && (1 <=? String.length (bank_accountName i))%nat
  && opt_ok (one_of ["savings"; "current"; "credit"]) (bank_accountType i).

(** Whether the values of an insert into [walletBanks] fit their columns. *)
Definition bankColumnsFit (bankName : string) (i : AddBankInput) : bool :=
  (String.length bankName <=? 100)%nat
  && (String.length (bank_bankCode i) <=? 20)%nat
  && (String.length (bank_accountName i) <=? 255)%nat.

(** The answer of [paystack.post('/bank/validate', ...)]. *)
Record ValidateResponse := mkValidateResponse { validate_status : bool }.

(** The call to [/bank/validate]; [None] when axios throws. The log of the
    world keeps the two transaction endpoints only. *)
Definition paystackValidate (answer : option ValidateResponse) : M ValidateResponse :=
  match answer with
  | Some r => ret r
  | None => throw HttpFailure
  end.

(** [try { body } catch (error) { handler }] *)
Definition try_catch_with {A} (body : M A) (handler : Exn -> M A) : M A :=
  fun w => match body w with
           | (w', Return a) => (w', Return a)
           | (w', Throw e) => handler e w'
           end.

(** ** QR codes *)

Module walletQRCodes.
Record row := mk
  { id : Z;
    userId : Z;
    type : string;
    qrData : string;
    amount : option Z;
    description : option string;
    reference : string;
    isActive : bool;
    expiresAt : option Z;
    scanCount : Z }.

Definition set_scanCount (n : Z) (q : row) : row :=
  mk (id q) (userId q) (type q) (qrData q) (amount q) (description q)
     (reference q) (isActive q) (expiresAt q) n.
End walletQRCodes.

(** The ledger together with the table of QR codes. *)
Record QRWorld := mkQRWorld
  { ledger : World;
    tbl_walletQRCodes : list walletQRCodes.row }.

(** The object a QR code encodes, as [generateQRCode] writes it:
    [JSON.stringify] leaves out the members [amount] and [description] when
    they are undefined. *)
Record QRPayload := mkQRPayload
  { qr_type : string;
    qr_userId : Z;
    qr_walletId : Z;
    qr_reference : string;
    qr_amount : option Z;
    qr_description : option string;
    qr_timestamp : Z }.

Record GenerateQRInput := mkGenerateQRInput
  { gen_amount : option Z;
    gen_description : option string }.

Definition generateQRSchema (i : GenerateQRInput) : bool :=
  opt_ok (fun n => 0 <? n) (gen_amount i)
  && opt_ok (fun s => (String.length s <=? 100)%nat) (gen_description i).

Record ScanQRInput := mkScanQRInput
  { scan_qrData : string;
    scan_pin : string }.

Record ScanQRResult := mkScanQRResult
  { sr_success : bool;
    sr_amount : Z;
    sr_recipient : Z;
    sr_description : string }.

Definition qrByReference (r : string) (qw : QRWorld) : option walletQRCodes.row :=
  first_where (fun q => String.eqb (walletQRCodes.reference q) r)
              (tbl_walletQRCodes qw).

(** [x || y] on two optional integers: 0 is falsy. *)
Definition orElse (x y : option Z) : option Z :=
  match x with
  | Some n => if n =? 0 then y else Some n
  | None => y
  end.

(** [s || dflt] on an optional string: the empty string is falsy. *)
Definition orDefault (s : option string) (dflt : string) : string :=
  match s with
  | Some v => if String.eqb v "" then dflt else v
  | None => dflt
  end.

(** ** WalletSecurity.validatePIN *)

(** [/(\d)\1{3}/.test(pin)]: a digit followed by itself three times,
    anywhere in the string. *)
Definition three_more (a : ascii) (r : string) : bool :=
  match r with
  | String b (String c (String d _)) => Ascii.eqb a b && Ascii.eqb a c && Ascii.eqb a d
  | _ => false
  end.

Fixpoint four_repeated (s : string) : bool :=
  match s with
  | EmptyString => false
  | String a r => (is_digit a && three_more a r) || four_repeated r
  end.

(** [/^\d+$/.test(pin)] *)
Definition digits_only (s : string) : bool :=
  (1 <=? String.length s)%nat && all_digits s.

Definition commonPINs : list string :=
  ["1234"; "4321"; "0000"; "1111"; "2222"; "3333"; "4444"; "5555"; "6666";
   "7777"; "8888"; "9999"].

Record PINVerdict := mkPINVerdict { valid : bool; verdict_message : option string }.

Definition validatePIN (pin : string) : PINVerdict :=
  if negb (String.length pin =? 4)%nat then
    mkPINVerdict false (Some "PIN must be 4 digits")
  else if negb (digits_only pin) then
    mkPINVerdict false (Some "PIN must contain only numbers")
  else if four_repeated pin then
    mkPINVerdict false (Some "PIN cannot be all the same digit")
  else if existsb (String.eqb pin) commonPINs then
    mkPINVerdict false (Some "PIN is too common")
  else mkPINVerdict true None.

(** ** WalletSecurity.checkDuplicateTransaction

    [recipientId ? eq(receiverId, recipientId) : undefined]: a recipient
    that is missing or 0 adds no condition. [withinMinutes] defaults to 5
    at the call. *)
Definition checkDuplicateTransaction (walletId amount : Z) (recipientId : option Z)
  (withinMinutes : Z) (now : Z) (d : Db) : bool :=
  let timeWindow := now - withinMinutes * 60 * 1000 in
  match
    first_where
      (fun t => (walletTransactions.walletId t =? walletId)
                && (walletTransactions.amount t =? amount)
                && String.eqb (walletTransactions.status t) "completed"
                && (timeWindow <=? walletTransactions.createdAt t)
                && match recipientId with
                   | Some r =>
                       if r =? 0 then true
                       else match walletTransactions.receiverId t with
                            | Some x => x =? r
                            | None => false
                            end
                   | None => true
                   end)
      (tbl_walletTransactions d)
  with
  | Some _ => true
  | None => false
  end.

(** ** The guards of [_core/auth] and [_core/trpc] *)

Record UserSession := mkUserSession
  { session_id : Z;
    session_openId : string;
    session_email : string;
    session_name : option string;
    session_role : string;
    session_campus : option string;
    session_isOnboarded : bool;
    session_isSellerSubscribed : bool }.

(** [ctx.user] is [null] for a caller without a valid token; [req_ip] is
    [ctx.req?.ip], [None] when it is nullish. *)
Record AuthContext := mkAuthContext
  { auth_user : option UserSession;
    req_ip : option string }.

Definition isAuthenticated (ctx : AuthContext) : Outcome UserSession :=
  match auth_user ctx with
  | None => Throw (TRPCError "UNAUTHORIZED"
                     "You must be logged in to access this resource")
  | Some user => Return user
  end.

Definition isAdmin (ctx : AuthContext) : Outcome UserSession :=
  match isAuthenticated ctx with
  | Throw e => Throw e
  | Return user =>
      if negb (String.eqb (session_role user) "admin") then
        Throw (TRPCError "FORBIDDEN" "Admin access required")
      else Return user
  end.

Definition isSeller (ctx : AuthContext) : Outcome UserSession :=
  match isAuthenticated ctx with
  | Throw e => Throw e
  | Return user =>
      if negb (session_isSellerSubscribed user)
         && negb (String.eqb (session_role user) "admin")
      then Throw (TRPCError "FORBIDDEN" "Seller subscription required")
      else Return user
  end.

Definition isOnboarded (ctx : AuthContext) : Outcome UserSession :=
  match isAuthenticated ctx with
  | Throw e => Throw e
  | Return user =>
      if negb (session_isOnboarded user) then
        Throw (TRPCError "FORBIDDEN" "Complete onboarding first")
      else Return user
  end.

(** A procedure builder: the context handed to the resolver, or the error
    of the middleware. *)
Definition withUser (guard : AuthContext -> Outcome UserSession) (ctx : AuthContext)
  : Outcome AuthContext :=
  match guard ctx with
  | Throw e => Throw e
  | Return user => Return (mkAuthContext (Some user) (req_ip ctx))
  end.

Definition protectedProcedure : AuthContext -> Outcome AuthContext := withUser isAuthenticated.
Definition onboardedProcedure : AuthContext -> Outcome AuthContext := withUser isOnboarded.
Definition sellerProcedure : AuthContext -> Outcome AuthContext := withUser isSeller.
Definition adminProcedure : AuthContext -> Outcome AuthContext := withUser isAdmin.

(** [ctx.user?.id.toString() ?? ctx.req?.ip ?? 'anonymous'] *)
Definition rateLimitIdentifier (ctx : AuthContext) : string :=
  match auth_user ctx with
  | Some user => NilZero.string_of_int (Z.to_int (session_id user))
  | None => match req_ip ctx with
            | Some ip => ip
            | None => "anonymous"
            end
  end.

(** [rateLimitedProcedure]: [success] is the verdict of the sliding-window
    limiter for the identifier; the middleware calls [next()] with the
    context as it is. *)
Definition rateLimitedProcedure (success : bool) (ctx : AuthContext)
  : Outcome AuthContext :=
  if negb success then
    Throw (TRPCError "TOO_MANY_REQUESTS" "Rate limit exceeded. Please try again later.")
  else Return ctx.

Section RouterRest.

Variable bcrypt_compare : string -> string -> bool.
Variable startOfDay : Z -> Z.
Variable startOfMonth : Z -> Z.

(** The helper [getBankName] of the router, a lookup in an object literal. *)
Variable getBankName : string -> string.

(** [JSON.stringify] of the object [generateQRCode] builds, and
    [JSON.parse] of a scanned string: [None] when it throws, and otherwise
    an object with the members of a payload (the strings that parse to
    anything else are outside the domain of the model). *)
Variable JSON_stringify : QRPayload -> string.
Variable JSON_parse : string -> option QRPayload.

(** *** getWallet *)
Definition getWallet (ctx : Ctx) (env : Env) : M WalletView :=
  d <- getDb ;;
  match walletOfUser (users.id (user ctx)) d with
  | None => throw (TRPCError "NOT_FOUND"
                     "Wallet not found. Please initialize your wallet first.")
  | Some wallet =>
      let dailyTotal := spendTotalSince (users.id (user ctx)) (startOfDay (now env)) d in
      let monthlyTotal :=
        spendTotalSince (users.id (user ctx)) (startOfMonth (now env)) d in
      ret (mkWalletView
             (wallets.id wallet) (wallets.balance wallet)
             (wallets.availableBalance wallet)
             (wallets.dailyLimit wallet) (wallets.monthlyLimit wallet)
             (wallets.isActive wallet) (wallets.isVerified wallet)
             (wallets.lastTransactionAt wallet)
             (mkWalletStats dailyTotal monthlyTotal
                            (wallets.dailyLimit wallet - dailyTotal)
                            (wallets.monthlyLimit wallet - monthlyTotal)))
  end.

(** *** addBank

    [production] is [env.NODE_ENV === 'production']. The insert fails when
    a value is wider than its varchar column (bank_name 100, bank_code 20,
    account_name 255; the schema keeps the account number within 20 of
    50), which tRPC reports as an internal error. *)
Definition addBank (ctx : Ctx) (input : AddBankInput) (production : bool)
  (gateway : option ValidateResponse) : M walletBanks.row :=
  parseInput (addBankSchema input) ;;
  try_catch_with
    (response <- paystackValidate gateway ;;
     throwIf (negb (validate_status response))
             (TRPCError "BAD_REQUEST" "Bank account verification failed"))
    (fun _ =>
       throwIf production
               (TRPCError "BAD_REQUEST" "Failed to verify bank account")) ;;
  throwIf (negb (bankColumnsFit (getBankName (bank_bankCode input)) input))
          (TRPCError "INTERNAL_SERVER_ERROR"
                     "value too long for type character varying") ;;
  d <- getDb ;;
  let bank :=
    walletBanks.mk (next_serial (map walletBanks.id (tbl_walletBanks d)))
                   (users.id (user ctx))
                   (getBankName (bank_bankCode input))
                   (bank_accountNumber input)
                   true in
  modifyDb (fun d0 =>
    mkDb (tbl_users d0) (tbl_wallets d0) (tbl_walletTransactions d0)
         (tbl_walletHolds d0) (tbl_walletBanks d0 ++ [bank])
         (tbl_walletMerchants d0) (tbl_walletBills d0)
         (tbl_walletRecipients d0)) ;;
  ret bank.

(** *** generateQRCode *)
Definition generateQRCode (ctx : Ctx) (input : GenerateQRInput) (env : Env)
  (qw : QRWorld) : QRWorld * Outcome walletQRCodes.row :=
  if negb (generateQRSchema input) then
    (qw, Throw (TRPCError "BAD_REQUEST" "Input validation failed"))
  else
    match walletOfUser (users.id (user ctx)) (db (ledger qw)) with
    | None => (qw, Throw (TRPCError "NOT_FOUND" "Wallet not found"))
    | Some wallet =>
        let reference := String.append "QR_" (nonce env) in
        let qrData :=
          JSON_stringify
            (mkQRPayload "varsityhub_payment" (users.id (user ctx))
                         (wallets.id wallet) reference
                         (gen_amount input) (gen_description input)
                         (now env)) in
        match qrByReference reference qw with
        | Some _ => (qw, Throw (UniqueViolation "wallet_qr_codes.reference"))
        | None =>
            let qrCode :=
              walletQRCodes.mk
                (next_serial (map walletQRCodes.id (tbl_walletQRCodes qw)))
                (users.id (user ctx))
                (match gen_amount input with
                 | Some _ => "dynamic"
                 | None => "static"
                 end)
                qrData (gen_amount input) (gen_description input) reference
                true None 0 in
            (mkQRWorld (ledger qw) (tbl_walletQRCodes qw ++ [qrCode]),
             Return qrCode)
        end
    end.

(** *** scanQRCode

    The transfer itself is left out in the source ("Similar transfer logic
    as above"): past the checks the procedure counts the scan and answers. *)
Definition scanQRCode (ctx : Ctx) (input : ScanQRInput) (env : Env)
  (qw : QRWorld) : QRWorld * Outcome ScanQRResult :=
  if negb (pin_ok (scan_pin input)) then
    (qw, Throw (TRPCError "BAD_REQUEST" "Input validation failed"))
  else
    match JSON_parse (scan_qrData input) with
    | None => (qw, Throw (TRPCError "BAD_REQUEST" "Invalid QR code"))
    | Some qrData =>
        if negb (String.eqb (qr_type qrData) "varsityhub_payment")
        then (qw, Throw (TRPCError "BAD_REQUEST" "Invalid QR code type"))
        else
          match qrByReference (qr_reference qrData) qw with
          | None => (qw, Throw (TRPCError "BAD_REQUEST" "QR code expired or invalid"))
          | Some qrCode =>
              if negb (walletQRCodes.isActive qrCode) then
                (qw, Throw (TRPCError "BAD_REQUEST" "QR code expired or invalid"))
              else if match walletQRCodes.expiresAt qrCode with
                      | Some t => t <? now env
                      | None => false
                      end
              then (qw, Throw (TRPCError "BAD_REQUEST" "QR code expired"))
              else
                match walletOfUser (users.id (user ctx)) (db (ledger qw)) with
                | None => (qw, Throw (TRPCError "NOT_FOUND" "Wallet not found"))
                | Some senderWallet =>
                    if negb (pinValid bcrypt_compare (scan_pin input) senderWallet)
                    then (qw, Throw (TRPCError "UNAUTHORIZED" "Invalid PIN"))
                    else
                      match walletById (qr_walletId qrData) (db (ledger qw)) with
                      | None => (qw, Throw (TRPCError "NOT_FOUND"
                                              "Recipient wallet not found"))
                      | Some recipientWallet =>
                          if wallets.userId recipientWallet =? users.id (user ctx)
                          then (qw, Throw (TRPCError "BAD_REQUEST" "Cannot pay yourself"))
                          else
                            match orElse (walletQRCodes.amount qrCode)
                                         (qr_amount qrData) with
                            | None => (qw, Throw (TRPCError "BAD_REQUEST"
                                                    "Amount not specified in QR code"))
                            | Some amount =>
                                if amount <=? 0 then
                                  (qw, Throw (TRPCError "BAD_REQUEST"
                                                "Amount not specified in QR code"))
                                else if amount >? wallets.availableBalance senderWallet
                                then (qw, Throw (TRPCError "BAD_REQUEST"
                                                   "Insufficient balance"))
                                else
                                  let description :=
                                    orDefault (walletQRCodes.description qrCode)
                                              "QR code payment" in
                                  (mkQRWorld
                                     (ledger qw)
                                     (update_where
                                        (fun q => walletQRCodes.id q
                                                  =? walletQRCodes.id qrCode)
                                        (fun q => walletQRCodes.set_scanCount
                                                    (walletQRCodes.scanCount q + 1) q)
                                        (tbl_walletQRCodes qw)),
                                   Return (mkScanQRResult true amount
                                             (qr_userId qrData) description))
                            end
                      end
                end
          end
    end.

End RouterRest.

(** ** Scenarios for the rest of the router *)

Module RestScenario.
Import Fixture.

(** The table of the helper [getBankName]. *)
Definition bankNames : list (string * string) :=
  [("632005", "Absa Bank"); ("470010", "First National Bank");
   ("198765", "Standard Bank"); ("250655", "Nedbank");
   ("580105", "Capitec Bank"); ("460005", "Investec Bank");
   ("678910", "African Bank"); ("432100", "Bidvest Bank");
   ("876543", "Discovery Bank"); ("123456", "Tyme Bank")].

Definition getBankName (bankCode : string) : string :=
  match find (fun entry => String.eqb (fst entry) bankCode) bankNames with
  | Some entry => snd entry
  | None => "Unknown Bank"
  end.

Definition getWallet := getWallet startOfDay startOfMonth.
Definition addBank := addBank getBankName.

(** Alice adds her Capitec account. *)
Definition capitec : AddBankInput :=
  mkAddBankInput "580105" "1234567890" "Alice A" (Some "savings").

(** The shop, paid 400000 by Alice (it keeps 396000), pays its own
    merchant account 1000. *)
Definition shopPays1000 : PayMerchantInput := mkPayMerchantInput 1 1000 "1234" None.
Definition afterSelfPayment : World :=
  exec (Scenario.payMerchant (mkCtx shop) shopPays1000 (Scenario.env 5000 "5000_66666666"))
       Scenario.afterPayment.

(** Bob, who has received 300000 twice today, wants to send 10. *)
Definition bobSends10 : TransferInput :=
  mkTransferInput "alice@campus.test" 10 "1234" None.

(** Alice's balance is close to the top of the integer range when she asks
    to fund 10000. *)
Definition nearTheTop : World :=
  exec (fundWallet (mkCtx alice) (mkFundWalletInput 10000 "card" None None)
                   (Scenario.env 1000 "1000_1_a1b2c3d4")
                   (Scenario.gatewayInit "VH_1000_1_a1b2c3d4"))
       (Scenario.withBalances 2147480000 2147480000 0).

(** A second merchant, Bob's, whose id 4 is the id of no user. *)
Definition bobsStall : walletMerchants.row :=
  walletMerchants.mk 4 2 "Bob's Stall" None 0 0.
Definition withBobsStall : World :=
  mkWorld (with_walletMerchants (fun rows => rows ++ [bobsStall])
                                (db Scenario.fundedLarge))
          [] (paystackLog Scenario.fundedLarge).
Definition payStall1000 : PayMerchantInput := mkPayMerchantInput 4 1000 "1234" None.

(** A [JSON.stringify] for payloads, and a [JSON.parse] that reads back the
    codes of the scenario and throws on every other string. *)
Definition showZ (z : Z) : string := NilZero.string_of_int (Z.to_int z).

Definition member (name value : string) : string :=
  String.append name (String.append ":" value).

Definition quoted (s : string) : string :=
  String.append "'" (String.append s "'").

Definition JSON_stringify (p : QRPayload) : string :=
  String.concat ","
    ([member "type" (quoted (qr_type p));
      member "userId" (showZ (qr_userId p));
      member "walletId" (showZ (qr_walletId p));
      member "reference" (quoted (qr_reference p))]
     ++ match qr_amount p with Some a => [member "amount" (showZ a)] | None => [] end
     ++ match qr_description p with
        | Some s => [member "description" (quoted s)]
        | None => []
        end
     ++ [member "timestamp" (showZ (qr_timestamp p))]).

(** Bob's code for 2500. *)
Definition bobsPayload : QRPayload :=
  mkQRPayload "varsityhub_payment" 2 2 "QR_7000_aabbccdd" (Some 2500) None 7000.

Definition JSON_parse (s : string) : option QRPayload :=
  find (fun p => String.eqb (JSON_stringify p) s) [bobsPayload].

Definition generateQRCode := generateQRCode JSON_stringify.
Definition scanQRCode := scanQRCode bcrypt_compare JSON_parse.

Definition noCodes : QRWorld := mkQRWorld Scenario.beforeTransfer [].
Definition codeFor2500 : GenerateQRInput := mkGenerateQRInput (Some 2500) None.
Definition codeGenerated : QRWorld :=
  fst (generateQRCode (mkCtx bob) codeFor2500 (Scenario.env 7000 "7000_aabbccdd") noCodes).
Definition bobsCode : walletQRCodes.row :=
  walletQRCodes.mk 1 2 "dynamic" (JSON_stringify bobsPayload) (Some 2500) None
                   "QR_7000_aabbccdd" true None 0.

(** An administrator without a seller subscription, and a caller who is not
    signed in. *)
Definition admin : UserSession :=
  mkUserSession 9 "open-9" "admin@campus.test" None "admin" None true false.
Definition adminContext : AuthContext := mkAuthContext (Some admin) None.
Definition anonymous : AuthContext := mkAuthContext None None.

End RestScenario.

(** ** Predicates the properties are stated with *)

(** [balanceAfter == balanceBefore + netAmount] *)
Definition ledgerEquation (t : walletTransactions.row) : Prop :=
  walletTransactions.balanceAfter t
  = walletTransactions.balanceBefore t + walletTransactions.netAmount t.

(** What holds of a row at the moment a procedure that charges the fee
    [charged] inserts it: when its status is 'completed', a row other than a
    fee row satisfies the ledger equation, and a fee row carries the same
    balance before and after and the negated fee as its net amount. *)
Definition insertedRowOk (charged : Z) (t : walletTransactions.row) : Prop :=
  walletTransactions.status t = "completed" ->
  (walletTransactions.type t <> "fee" -> ledgerEquation t)
  /\ (walletTransactions.type t = "fee" ->
      walletTransactions.balanceAfter t = walletTransactions.balanceBefore t
      /\ walletTransactions.netAmount t = - charged).

(** The primary key of [wallets]: no two rows share an id. *)
Fixpoint distinct (l : list Z) : bool :=
  match l with
  | [] => true
  | x :: rest => negb (existsb (Z.eqb x) rest) && distinct rest
  end.

Definition wallets_primary_key (d : Db) : bool :=
  distinct (map wallets.id (tbl_wallets d)).

(** The spent total as the specification words it: the sum of the
    magnitudes of the completed debits of kind transfer, payment or
    withdrawal of the wallet, created at or after [since]. *)
Definition spentInWindow_spec (walletId since : Z) (d : Db) : Z :=
  fold_right
    (fun t acc => - walletTransactions.amount t + acc) 0
    (filter (fun t => (walletTransactions.walletId t =? walletId)
                      && (since <=? walletTransactions.createdAt t)
                      && String.eqb (walletTransactions.status t) "completed"
                      && (walletTransactions.amount t <? 0)
                      && one_of ["transfer"; "payment"; "withdrawal"]
                                (walletTransactions.type t))
            (tbl_walletTransactions d)).

(** The unique index on [wallets.userId] that [initialize] maintains. *)
Definition wallets_one_per_user (d : Db) : bool :=
  distinct (map wallets.userId (tbl_wallets d)).

(** A ledger without a row of type 'transfer'. *)
Definition noTransferRows (d : Db) : bool :=
  forallb (fun t => negb (String.eqb (walletTransactions.type t) "transfer"))
          (tbl_walletTransactions d).

(** The money the wallets hold between them. *)
Definition totalBalance (d : Db) : Z :=
  fold_right (fun w acc => wallets.balance w + acc) 0 (tbl_wallets d).

(** * Properties *)

(** ** Lists and tables *)

Lemma find_update_where {A} (p q : A -> bool) (set : A -> A) (rows : list A) :
  (forall r, p (set r) = p r) ->
  find p (update_where q set rows)
  = option_map (fun r => if q r then set r else r) (find p rows).
Proof.
  intros Hp. induction rows as [|r rows IH]; simpl; [reflexivity|].
  destruct (q r) eqn:Hq.
  - rewrite Hp. destruct (p r); simpl; [now rewrite Hq | exact IH].
  - destruct (p r); simpl; [now rewrite Hq | exact IH].
Qed.

Lemma NoDup_map_inj {A B} (f : A -> B) (l : list A) (a b : A) :
  NoDup (map f l) -> In a l -> In b l -> f a = f b -> a = b.
Proof.
  induction l as [|x l IH]; simpl; [tauto|].
  intros Hnd Ha Hb Hf. inversion Hnd as [|? ? Hnotin Hnd']; subst.
  destruct Ha as [->|Ha], Hb as [->|Hb]; trivial.
  - exfalso. apply Hnotin. rewrite Hf. now apply in_map.
  - exfalso. apply Hnotin. rewrite <- Hf. now apply in_map.
  - now apply IH.
Qed.

(** ** Binary64 rounding, as far as the fee rules need it *)

Lemma digits2_pos_bounds (p : positive) :
  2 ^ (Zpos (digits2_pos p) - 1) <= Zpos p < 2 ^ Zpos (digits2_pos p).
Proof.
  induction p as [p IH|p IH|]; cbn [digits2_pos].
  - rewrite Pos2Z.inj_succ.
    replace (Z.succ (Zpos (digits2_pos p)) - 1) with (Z.succ (Zpos (digits2_pos p) - 1)) by lia.
    rewrite !Z.pow_succ_r by lia. lia.
  - rewrite Pos2Z.inj_succ.
    replace (Z.succ (Zpos (digits2_pos p)) - 1) with (Z.succ (Zpos (digits2_pos p) - 1)) by lia.
    rewrite !Z.pow_succ_r by lia. lia.
  - cbn. lia.
Qed.

Lemma digits2_pos_unique (p : positive) (d : Z) :
  2 ^ (d - 1) <= Zpos p < 2 ^ d -> Zpos (digits2_pos p) = d.
Proof.
  intros [Hlo Hhi]. pose proof (digits2_pos_bounds p) as [Blo Bhi].
  assert (0 < d) as Hd.
  { destruct (Z.ltb_spec 0 d) as [|Hneg]; [assumption|].
    exfalso. destruct (Z.eq_dec d 0) as [->|].
    - cbn in Hhi. lia.
    - rewrite Z.pow_neg_r in Hhi by lia. lia. }
  destruct (Z.lt_trichotomy (Zpos (digits2_pos p)) d) as [Hlt|[Heq|Hgt]]; [|assumption|].
  - exfalso. assert (2 ^ Zpos (digits2_pos p) <= 2 ^ (d - 1))
      by (apply Z.pow_le_mono_r; lia). lia.
  - exfalso. assert (2 ^ d <= 2 ^ (Zpos (digits2_pos p) - 1))
      by (apply Z.pow_le_mono_r; lia). lia.
Qed.

Lemma iter_xO_mul (p k : positive) : Zpos (Pos.iter xO p k) = Zpos p * 2 ^ Zpos k.
Proof.
  induction k as [|k IH] using Pos.peano_ind.
  - cbn. lia.
  - rewrite Pos.iter_succ, Pos2Z.inj_xO, IH, Pos2Z.inj_succ, Z.pow_succ_r by lia. lia.
Qed.

Lemma shr_1_half (x : shr_record) :
  0 <= shr_m x -> 0 <= shr_m (shr_1 x) /\ shr_m (shr_1 x) = shr_m x / 2.
Proof.
  destruct x as [m r s]. cbn [shr_m shr_1].
  destruct m as [|[p|p|]|p]; cbn [shr_m]; intros H; try lia.
  all: split; [lia|].
  - reflexivity.
  - rewrite Pos2Z.inj_xI. apply (Z.div_unique _ 2 _ 1); lia.
  - rewrite Pos2Z.inj_xO. apply (Z.div_unique _ 2 _ 0); lia.
  - reflexivity.
Qed.

Lemma pow2_xO (n : positive) : 2 ^ Zpos n~0 = 2 ^ Zpos n * 2 ^ Zpos n.
Proof. rewrite Pos2Z.inj_xO, <- Z.pow_add_r by lia. f_equal. lia. Qed.

Lemma pow2_xI (n : positive) : 2 ^ Zpos n~1 = 2 * (2 ^ Zpos n * 2 ^ Zpos n).
Proof.
  rewrite Pos2Z.inj_xI. replace (2 * Zpos n + 1) with (Z.succ (Zpos n + Zpos n)) by lia.
  rewrite Z.pow_succ_r, Z.pow_add_r by lia. reflexivity.
Qed.

Lemma iter_shr_1_div (n : positive) :
  forall x, 0 <= shr_m x ->
       0 <= shr_m (iter_pos shr_1 n x)
       /\ shr_m (iter_pos shr_1 n x) = shr_m x / 2 ^ Zpos n.
Proof.
  induction n as [n IH|n IH|]; intros x Hx; cbn [iter_pos].
  - destruct (shr_1_half x Hx) as [H1 E1].
    destruct (IH _ H1) as [H2 E2]. destruct (IH _ H2) as [H3 E3].
    split; [assumption|]. rewrite E3, E2, E1.
    rewrite !Z.div_div by lia. now rewrite pow2_xI.
  - destruct (IH _ Hx) as [H2 E2]. destruct (IH _ H2) as [H3 E3].
    split; [assumption|]. rewrite E3, E2.
    rewrite !Z.div_div by lia. now rewrite pow2_xO.
  - destruct (shr_1_half x Hx) as [H1 E1]. split; [assumption|].
    rewrite E1. reflexivity.
Qed.

Lemma round_nearest_even_cases (m : Z) (l : location) :
  round_nearest_even m l = m \/ round_nearest_even m l = m + 1.
Proof.
  destruct l as [|[| |]]; cbn [round_nearest_even]; auto.
  destruct (Z.even m); auto.
Qed.

Lemma fexp_normal (x : Z) : -1074 <= x - 53 -> fexp 53 1024 x = x - 53.
Proof. intros H. unfold fexp, emin. lia. Qed.

(** An integer below 2^53 converts exactly: its mantissa is the integer
    shifted up to 53 digits. *)
Lemma of_int_canonical (p : positive) :
  Zpos (digits2_pos p) < 53 ->
  JS.of_int (Zpos p)
  = S754_finite false (Pos.iter xO p (Z.to_pos (53 - Zpos (digits2_pos p))))
                (Zpos (digits2_pos p) - 53).
Proof.
  intros Hd. set (d := Zpos (digits2_pos p)) in *.
  assert (0 < d) as Hd0 by (subst d; lia).
  unfold JS.of_int, JS.prec, JS.emax, binary_normalize, binary_round, shl_align.
  fold d. rewrite fexp_normal by lia.
  destruct (d + 0 - 53 - 0) as [|k|k] eqn:Ek; try lia.
  assert (Z.to_pos (53 - d) = k) as -> by lia.
  set (mz := Pos.iter xO p k).
  assert (Zpos (digits2_pos mz) = 53) as Hmz.
  { apply digits2_pos_unique. subst mz. rewrite iter_xO_mul.
    pose proof (digits2_pos_bounds p) as [Blo Bhi]. fold d in Blo, Bhi.
    assert (Zpos k = 53 - d) as -> by lia.
    assert (2 ^ (53 - 1) = 2 ^ (d - 1) * 2 ^ (53 - d)) as ->
        by (rewrite <- Z.pow_add_r by lia; f_equal; lia).
    assert (2 ^ 53 = 2 ^ d * 2 ^ (53 - d)) as ->
        by (rewrite <- Z.pow_add_r by lia; f_equal; lia).
    assert (0 < 2 ^ (53 - d)) by (apply Z.pow_pos_nonneg; lia).
    split; [apply Z.mul_le_mono_nonneg_r; lia | apply Z.mul_lt_mono_pos_r; lia]. }
  unfold binary_round_aux, shr_fexp. cbn [Zdigits2]. rewrite Hmz.
  rewrite fexp_normal by lia.
  replace (53 + (d + 0 - 53) - 53 - (d + 0 - 53)) with 0 by lia.
  cbn [shr shr_record_of_loc shr_m loc_of_shr_record round_nearest_even Zdigits2].
  rewrite Hmz. rewrite fexp_normal by lia.
  replace (53 + (d + 0 - 53) - 53 - (d + 0 - 53)) with 0 by lia.
  cbn [shr shr_record_of_loc shr_m].
  replace (d + 0 - 53 <=? 1024 - 53) with true by (symmetry; apply Z.leb_le; lia).
  reflexivity.
Qed.

(** Rounding a mantissa of more than 53 digits to binary64 and then to the
    nearest integer: the mantissa is cut to 53 digits, moved up by one unit
    in the last place or not, and [Math.round] is applied to that value. *)
Lemma Math_round_binary_round_aux (pm : positive) (e : Z) :
  let D := Zpos (digits2_pos pm) in
  let n := D - 53 in
  let q := Zpos pm / 2 ^ n in
  0 < n ->
  -1074 <= e + n ->
  e + n + 1 < 0 ->
  exists M1,
    (M1 = q \/ M1 = q + 1)
    /\ JS.Math_round (binary_round_aux 53 1024 false (Zpos pm) e loc_Exact)
       = (2 * M1 + 2 ^ (- (e + n))) / 2 ^ (1 - (e + n)).
Proof.
  intros D n q Hn Hlo Hhi.
  pose proof (digits2_pos_bounds pm) as [Blo Bhi]. fold D in Blo, Bhi.
  assert (0 < 2 ^ n) as Hpow by (apply Z.pow_pos_nonneg; lia).
  assert (2 ^ (D - 1) = 2 ^ n * 2 ^ 52) as E52
      by (rewrite <- Z.pow_add_r by lia; f_equal; lia).
  assert (2 ^ D = 2 ^ n * 2 ^ 53) as E53
      by (rewrite <- Z.pow_add_r by lia; f_equal; lia).
  assert (2 ^ 52 <= q < 2 ^ 53) as [Hq52 Hq53].
  { subst q. split.
    - apply Z.div_le_lower_bound; lia.
    - apply Z.div_lt_upper_bound; lia. }
  unfold binary_round_aux, shr_fexp. cbn [Zdigits2]. fold D.
  rewrite fexp_normal by lia.
  replace (D + e - 53 - e) with n by lia.
  destruct n as [|np|np] eqn:En; try lia.
  cbn [shr shr_record_of_loc].
  destruct (iter_shr_1_div np (Build_shr_record (Zpos pm) false false))
    as [_ Em]; [cbn; lia|]. cbn [shr_m] in Em. fold q in Em.
  set (r1 := iter_pos shr_1 np (Build_shr_record (Zpos pm) false false)) in *.
  set (M1 := round_nearest_even (shr_m r1) (loc_of_shr_record r1)).
  assert (M1 = q \/ M1 = q + 1) as HM1
      by (subst M1; rewrite <- Em; apply round_nearest_even_cases).
  exists M1. split; [exact HM1|].
  clearbody M1. clear Em r1.
  set (E' := e + Zpos np) in *.
  assert (0 < 2 ^ 52) by (apply Z.pow_pos_nonneg; lia).
  destruct (Z.ltb_spec M1 (2 ^ 53)) as [Hlt|Hge].
  - destruct M1 as [|pM|pM]; try lia.
    cbn [Zdigits2].
    rewrite (digits2_pos_unique pM 53) by (change (53 - 1) with 52; lia).
    rewrite fexp_normal by lia.
    replace (53 + E' - 53 - E') with 0 by lia.
    cbn [shr shr_m].
    replace (E' <=? 1024 - 53) with true by (symmetry; apply Z.leb_le; lia).
    cbn [JS.Math_round].
    replace (0 <=? E') with false by (symmetry; apply Z.leb_gt; lia).
    reflexivity.
  - assert (M1 = 2 ^ 53) as -> by lia.
    change (Zdigits2 (2 ^ 53)) with 54.
    rewrite fexp_normal by lia.
    replace (54 + E' - 53 - E') with 1 by lia.
    cbn [shr iter_pos]. change (shr_m (shr_1 {| shr_m := 2 ^ 53; shr_r := false; shr_s := false |}))
      with (2 ^ 52).
    change (2 ^ 52) with (Zpos (Z.to_pos (2 ^ 52))) at 1.
    cbv iota beta.
    replace (E' + 1 <=? 1024 - 53) with true by (symmetry; apply Z.leb_le; lia).
    cbn [JS.Math_round].
    replace (0 <=? E' + 1) with false by (symmetry; apply Z.leb_gt; lia).
    change (Zpos (Z.to_pos (2 ^ 52))) with (2 ^ 52).
    assert (exists t, 0 <= t /\ - (E' + 1) = t /\ 1 - (E' + 1) = Z.succ t
                      /\ - E' = Z.succ t /\ 1 - E' = Z.succ (Z.succ t))
      as (t & Ht & -> & -> & -> & ->)
        by (exists (- E' - 1); lia).
    rewrite !Z.pow_succ_r by lia.
    assert (0 < 2 ^ t) by (apply Z.pow_pos_nonneg; lia).
    replace (2 * 2 ^ 53 + 2 * 2 ^ t) with (2 * (2 * 2 ^ 52 + 2 ^ t))
      by (change (2 ^ 53) with (2 * 2 ^ 52); lia).
    rewrite Z.div_mul_cancel_l by lia. reflexivity.
Qed.

(** The arithmetic behind the rule: [x = a * C / N], cut or moved one unit
    up, is within one unit of [a * T / 200] scaled, and [T] is so large that
    rounding [M1 / T] to the nearest integer gives [a / 200] rounded half up. *)
Lemma half_up_from_scaled (a C N H M1 : Z) :
  0 <= a <= 500000 ->
  0 < N -> 0 < H ->
  N * (2 * H) <= 200 * C ->
  1000000 * (200 * C - N * (2 * H)) + 400 * N < 2 * (N * (2 * H)) ->
  M1 = a * C / N \/ M1 = a * C / N + 1 ->
  (2 * M1 + 2 * H) / (2 * (2 * H)) = (a + 100) / 200.
Proof.
  intros Ha HN HH Hlow Hup HM1.
  pose proof (Z.mul_div_le (a * C) N HN) as Hq1.
  pose proof (Z.mul_succ_div_gt (a * C) N HN) as Hq2.
  set (q := a * C / N) in *.
  pose proof (Z.mul_div_le (a + 100) 200 ltac:(lia)) as HK1.
  pose proof (Z.mul_succ_div_gt (a + 100) 200 ltac:(lia)) as HK2.
  set (K := (a + 100) / 200) in *.
  assert (0 <= K) as HK0 by (subst K; apply Z.div_pos; lia).
  set (NT := N * (2 * H)) in *.
  assert (0 < NT) as HNT by (subst NT; nia).
  assert (a * NT <= 200 * (a * C)) as Hac1 by nia.
  assert (200 * (a * C) <= a * NT + 500000 * (200 * C - NT)) as Hac2 by nia.
  assert ((200 * K - 100) * NT <= a * NT) as HaK1 by nia.
  assert (a * NT <= (200 * K + 99) * NT) as HaK2 by nia.
  symmetry. apply (Z.div_unique _ _ K (2 * M1 + 2 * H - 2 * (2 * H) * K)); [left|ring].
  assert (q <= M1 <= q + 1) as HM by lia.
  split.
  - (* 2 M1 >= (2K-1) * 2H *)
    destruct (Z.le_gt_cases ((2 * K - 1) * H) M1) as [|Hcontra]; [lia|].
    exfalso.
    assert (N * (q + 1) <= N * ((2 * K - 1) * H)) as Hmul
        by (apply Z.mul_le_mono_nonneg_l; lia).
    assert (200 * (N * ((2 * K - 1) * H)) = (200 * K - 100) * NT) as Hid
        by (subst NT; ring).
    lia.
  - (* 2 M1 < (2K+1) * 2H *)
    assert (N * (M1 - 1) <= N * q) as Hmul
        by (apply Z.mul_le_mono_nonneg_l; lia).
    assert (400 * (N * M1) < (400 * K + 200) * NT) as Hfin by lia.
    assert (N * (2 * M1) < N * ((2 * K + 1) * (2 * H))) as Hfin2.
    { replace (N * ((2 * K + 1) * (2 * H))) with ((2 * K + 1) * NT) by (subst NT; ring).
      lia. }
    apply Z.mul_lt_mono_pos_l in Hfin2; lia.
Qed.

Ltac eval_pow2 :=
  repeat match goal with
         | |- context [2 ^ ?k] =>
             let v := eval vm_compute in (2 ^ k) in change (2 ^ k) with v
         | H : context [2 ^ ?k] |- _ =>
             let v := eval vm_compute in (2 ^ k) in change (2 ^ k) with v in H
         end.

(** On the amounts [transferSchema] lets through, the binary64 product
    with 0.005 rounds to the same integer as the exact quotient by 200,
    halves rounded up. *)
Lemma Math_round_half_percent (a : Z) :
  10 <= a <= 500000 ->
  JS.Math_round (JS.mul (JS.of_int a) JS.lit_0_005) = (a + 100) / 200.
Proof.
  intros Ha. destruct a as [|p|p]; try lia.
  pose proof (digits2_pos_bounds p) as Bp.
  remember (Zpos (digits2_pos p)) as d eqn:Ed.
  assert (4 <= d <= 19) as Hd.
  { split.
    - destruct (Z.le_gt_cases 4 d) as [|Hsmall]; [assumption|].
      exfalso. assert (2 ^ d <= 2 ^ 3) by (apply Z.pow_le_mono_r; lia).
      change (2 ^ 3) with 8 in *. lia.
    - destruct (Z.le_gt_cases d 19) as [|Hbig]; [assumption|].
      exfalso. assert (2 ^ 19 <= 2 ^ (d - 1)) by (apply Z.pow_le_mono_r; lia).
      change (2 ^ 19) with 524288 in *. lia. }
  rewrite of_int_canonical by lia. rewrite <- Ed.
  unfold JS.mul, SFmul, JS.lit_0_005, JS.prec, JS.emax. cbn [xorb].
  set (ma := Pos.iter xO p (Z.to_pos (53 - d))).
  assert (Zpos ma = Zpos p * 2 ^ (53 - d)) as Ema.
  { subst ma. rewrite iter_xO_mul. f_equal. f_equal. lia. }
  set (pm := (ma * 5764607523034235)%positive).
  assert (Zpos pm = Zpos p * (2 ^ (53 - d) * 5764607523034235)) as Epm
      by (subst pm; rewrite Pos2Z.inj_mul, Ema; ring).
  clearbody pm ma.
  assert (d = 4 \/ d = 5 \/ d = 6 \/ d = 7 \/ d = 8 \/ d = 9 \/ d = 10 \/ d = 11
          \/ d = 12 \/ d = 13 \/ d = 14 \/ d = 15 \/ d = 16 \/ d = 17 \/ d = 18
          \/ d = 19) as Hcases by lia.
  clear Ed Hd Ema.
  repeat (destruct Hcases as [->|Hcases]); [..|subst d].
  all: assert (Zpos (digits2_pos pm) = 105 \/ Zpos (digits2_pos pm) = 106) as ED
      by (destruct (Z.lt_ge_cases (Zpos pm) (2 ^ 105)) as [Hc|Hc]; [left|right];
          apply digits2_pos_unique; eval_pow2; lia).
  all: destruct ED as [ED|ED].
  all: match goal with
       | |- context [binary_round_aux 53 1024 false (Zpos ?m) ?e loc_Exact] =>
           pose proof (Math_round_binary_round_aux m e) as HR
       end; cbv zeta in HR; rewrite ED in HR;
       destruct HR as (M1 & HM1 & ->); [lia|lia|lia|].
  all: rewrite Epm in HM1; clear ED Epm Bp pm.
  all: match goal with
       | HM : ?M = ?x * ?C / ?N \/ _ |- (2 * ?M + ?T) / ?T2 = _ =>
           let Hv := eval vm_compute in (T / 2) in
           change T with (2 * Hv); change T2 with (2 * (2 * Hv));
           apply (half_up_from_scaled x C N Hv M); [| | | | |exact HM]
       end.
  all: try lia; vm_compute; easy.
Qed.

(** X30. The transfer fee in integers. For every amount [transferSchema]
    lets through, [Math.max(100, Math.round(amount * 0.005))] evaluated in
    binary64 is the larger of 100 and the amount divided by 200 with halves
    rounded up: the flat 100 for every amount up to 20099. The fee is larger
    than the amount for the amounts below 100, which the schema lets
    through from 10 on: the net amount of such a transfer is negative. *)
Theorem transferFee_integer_rule (amount : Z) :
  10 <= amount <= 500000 ->
  transferFee amount = Z.max 100 ((amount + 100) / 200)
  /\ (amount <= 20099 -> transferFee amount = 100)
  /\ (amount < 100 -> amount - transferFee amount < 0).
Proof.
  intros H. unfold transferFee. rewrite Math_round_half_percent by exact H.
  split; [reflexivity|].
  assert (amount <= 20099 -> Z.max 100 ((amount + 100) / 200) = 100) as Hflat.
  { intros Hsmall. apply Z.max_l.
    assert ((amount + 100) / 200 < 101) by (apply Z.div_lt_upper_bound; lia). lia. }
  split; [exact Hflat|].
  intros Hbelow. rewrite Hflat by lia. lia.
Qed.

(** ** Symbolic execution of procedures *)

Ltac proc_cbv :=
  cbv [bind ret throw throwIf parseInput getDb modifyDb setTimeout
       db_transaction try_catch insertTransaction insertHold updateWallet
       updateTransaction paystack upsertRecipient transferLegs checkInt4
       checkUserReference exec outcome fst snd negb
       db timers paystackLog
       with_wallets with_walletTransactions with_walletHolds
       with_walletMerchants with_walletBills with_walletRecipients
       tbl_users tbl_wallets tbl_walletTransactions tbl_walletHolds
       tbl_walletBanks tbl_walletMerchants tbl_walletBills tbl_walletRecipients].

Ltac proc_cbv_in H :=
  cbv [bind ret throw throwIf parseInput getDb modifyDb setTimeout
       db_transaction try_catch insertTransaction insertHold updateWallet
       updateTransaction paystack upsertRecipient transferLegs checkInt4
       checkUserReference exec outcome fst snd negb
       db timers paystackLog
       with_wallets with_walletTransactions with_walletHolds
       with_walletMerchants with_walletBills with_walletRecipients
       tbl_users tbl_wallets tbl_walletTransactions tbl_walletHolds
       tbl_walletBanks tbl_walletMerchants tbl_walletBills tbl_walletRecipients] in H.

(** Case analysis on the innermost scrutinee the computation is stuck on. *)
Ltac branch_in H :=
  match type of H with
  | context [match ?x with _ => _ end] =>
      lazymatch x with
      | context [match _ with _ => _ end] => fail
      | _ => destruct x eqn:?
      end
  end.

Ltac branch_goal :=
  match goal with
  | |- context [match ?x with _ => _ end] =>
      lazymatch x with
      | context [match _ with _ => _ end] => fail
      | _ => destruct x eqn:?
      end
  end.

Ltac run_in H :=
  proc_cbv_in H; repeat (branch_in H; proc_cbv_in H; try discriminate H).

Ltac run_goal := proc_cbv; repeat (branch_goal; proc_cbv).

Ltac open_world w :=
  let us := fresh "users_" in
  let ws := fresh "wallets_" in
  let txs := fresh "transactions_" in
  let hs := fresh "holds_" in
  let bs := fresh "banks_" in
  let ms := fresh "merchants_" in
  let bills := fresh "bills_" in
  let rcp := fresh "recipients_" in
  let ts := fresh "timers_" in
  let lg := fresh "log_" in
  destruct w as [[us ws txs hs bs ms bills rcp] ts lg].

(** ** Funding *)

(** C10. [fundWallet] answers BAD_REQUEST to an amount below 100 or above
    10,000,000 and leaves the world as it was: no request has gone to the
    gateway and no row was written. When it returns, the one row it has
    appended is a pending deposit whose amount lies in [100, 10000000]. *)
Theorem fundWallet_amount_range ctx input env gateway w :
  ((fund_amount input < 100 \/ 10000000 < fund_amount input) ->
   exists msg,
     fundWallet ctx input env gateway w = (w, Throw (TRPCError "BAD_REQUEST" msg)))
  /\
  (forall w' r,
     fundWallet ctx input env gateway w = (w', Return r) ->
     exists t,
       tbl_walletTransactions (db w') = tbl_walletTransactions (db w) ++ [t]
       /\ walletTransactions.status t = "pending"
       /\ walletTransactions.type t = "deposit"
       /\ walletTransactions.amount t = fund_amount input
       /\ 100 <= walletTransactions.amount t <= 10000000).
Proof.
  split.
  - intros Hrange. unfold fundWallet, parseInput, fundWalletSchema.
    replace ((100 <=? fund_amount input) && (fund_amount input <=? 10000000))
      with false
      by (symmetry; apply andb_false_iff; rewrite !Z.leb_gt; lia).
    eexists; reflexivity.
  - intros w' r H. open_world w. unfold fundWallet in H. run_in H.
    injection H as <- <-. proc_cbv.
    unfold fundWalletSchema in Heqb.
    rewrite !andb_true_iff, !Z.leb_le in Heqb.
    eexists; repeat split; try reflexivity; cbn [walletTransactions.amount]; lia.
Qed.

(** A request for 50 is refused in the scenario with three open wallets. *)
Lemma fundWallet_amount_range_witness :
  (Z.lt 50 100 \/ Z.lt 10000000 50)
  /\ exists msg,
       fundWallet (mkCtx Fixture.alice) (mkFundWalletInput 50 "card" None None)
                  (mkEnv 1000 "n") (Scenario.gatewayInit "VH_n") Scenario.opened
       = (Scenario.opened, Throw (TRPCError "BAD_REQUEST" msg)).
Proof.
  split; [left; lia|].
  apply (proj1 (fundWallet_amount_range (mkCtx Fixture.alice)
                  (mkFundWalletInput 50 "card" None None)
                  (mkEnv 1000 "n") (Scenario.gatewayInit "VH_n") Scenario.opened)).
  left; simpl; lia.
Defined.

(** C1, as the router behaves. [verifyFunding] does not look at the stored
    status: whenever the gateway reports success it credits [netAmount] to
    [balance] and [availableBalance] of the transaction's wallet and returns
    the new balance, also when the transaction is already completed. The
    credited balances have to fit the integer columns: the store refuses the
    update otherwise. *)
Theorem verifyFunding_credits_on_each_success ctx reference env response w t wallet :
  transactionByReference reference (db w) = Some t ->
  walletTransactions.status t = "completed" ->
  walletById (walletTransactions.walletId t) (db w) = Some wallet ->
  verify_status response = true ->
  verify_data_status response = "success" ->
  int4 (wallets.balance wallet + walletTransactions.netAmount t) = true ->
  int4 (wallets.availableBalance wallet + walletTransactions.netAmount t) = true ->
  exists w',
    verifyFunding ctx reference env (Some response) w
    = (w', Return (mkVerifyFundingResult true (walletTransactions.amount t)
                     (wallets.balance wallet + walletTransactions.netAmount t)))
    /\ walletById (walletTransactions.walletId t) (db w')
       = Some (wallets.set_lastTransactionAt (now env)
                 (wallets.set_availableBalance
                    (wallets.availableBalance wallet + walletTransactions.netAmount t)
                    (wallets.set_balance
                       (wallets.balance wallet + walletTransactions.netAmount t)
                       wallet))).
Proof.
  intros Ht _ Hw Hs Hd Hbalance Havailable. open_world w.
  unfold verifyFunding. proc_cbv. proc_cbv_in Ht. proc_cbv_in Hw.
  rewrite Ht. proc_cbv. rewrite Hs, Hd. cbn [orb String.eqb Ascii.eqb Bool.eqb]. proc_cbv.
  rewrite Hw. proc_cbv. rewrite Hbalance, Havailable.
  eexists; split; [reflexivity|].
  unfold walletById, first_where in *. proc_cbv. proc_cbv_in Hw.
  rewrite find_update_where by reflexivity.
  rewrite Hw. cbn [option_map]. now rewrite Z.eqb_refl.
Qed.

(** The hypotheses of the theorem hold in the scenario after the first
    verification, and the second call credits 9850 once more. *)
Lemma verifyFunding_credits_on_each_success_witness :
  exists w',
    verifyFunding (mkCtx Fixture.alice) "VH_1000_1_a1b2c3d4" (mkEnv 3000 "")
                  Scenario.gatewaySuccess Scenario.fundingVerified
    = (w', Return (mkVerifyFundingResult true 10000 19700))
    /\ option_map wallets.balance (walletById 1 (db w')) = Some 19700.
Proof.
  destruct (verifyFunding_credits_on_each_success
              (mkCtx Fixture.alice) "VH_1000_1_a1b2c3d4" (mkEnv 3000 "")
              (mkVerifyResponse true None "success") Scenario.fundingVerified
              (walletTransactions.mk 1 "VH_1000_1_a1b2c3d4" "deposit" (Some "card")
                 10000 150 9850 0 9850 None None None "completed" (Some "card")
                 (Some "VH_1000_1_a1b2c3d4") (Some 2000) None 1000)
              (wallets.mk 1 1 9850 9850 (Some "salt1234") (Some "salt")
                 500000 2000000 true true (Some 2000)))
    as (w' & Hrun & Hwallet); try (vm_compute; reflexivity).
  exists w'. split; [exact Hrun|].
  cbn [walletTransactions.walletId] in Hwallet. rewrite Hwallet. reflexivity.
Defined.

(** C1, as stated, fails: after the first verification has completed the
    transaction (balance 9850), the second call with the same reference
    raises balance and availableBalance to 19700. *)
Lemma verifyFunding_twice_double_credit :
  option_map walletTransactions.status
    (transactionByReference "VH_1000_1_a1b2c3d4" (db Scenario.fundingVerified))
  = Some "completed"
  /\ option_map wallets.balance (walletById 1 (db Scenario.fundingVerified)) = Some 9850
  /\ outcome (verifyFunding (mkCtx Fixture.alice) "VH_1000_1_a1b2c3d4" (mkEnv 3000 "")
                Scenario.gatewaySuccess) Scenario.fundingVerified
     = Return (mkVerifyFundingResult true 10000 19700)
  /\ option_map wallets.balance (walletById 1 (db Scenario.fundingVerifiedAgain))
     = Some 19700
  /\ option_map wallets.availableBalance
       (walletById 1 (db Scenario.fundingVerifiedAgain))
     = Some 19700.
Proof. vm_compute. repeat split. Qed.


Lemma distinct_NoDup (l : list Z) : distinct l = true -> NoDup l.
Proof.
  induction l as [|x l IH]; simpl; intros H; constructor.
  - apply andb_true_iff in H. destruct H as [H _].
    apply negb_true_iff in H. intros Hin.
    assert (existsb (Z.eqb x) l = true) as E
        by (apply existsb_exists; exists x; split; [exact Hin | apply Z.eqb_refl]).
    congruence.
  - apply andb_true_iff in H. now apply IH.
Qed.

(** Under the primary key, the wallets of two different users have
    different ids. *)
Lemma wallets_of_distinct_users d u1 u2 w1 w2 :
  wallets_primary_key d = true ->
  walletOfUser u1 d = Some w1 ->
  walletOfUser u2 d = Some w2 ->
  u1 <> u2 ->
  (wallets.id w1 =? wallets.id w2) = false.
Proof.
  unfold wallets_primary_key, walletOfUser, first_where.
  intros Hpk H1 H2 Hne. apply distinct_NoDup in Hpk.
  apply find_some in H1, H2. destruct H1 as [In1 E1], H2 as [In2 E2].
  apply Z.eqb_eq in E1, E2. apply Z.eqb_neq. intros Hid.
  apply Hne. rewrite <- E1, <- E2. f_equal.
  exact (NoDup_map_inj wallets.id _ w1 w2 Hpk In1 In2 Hid).
Qed.

(** ** Tables, continued *)

Lemma map_update_where {A B} (f : A -> B) (p : A -> bool) (set : A -> A) (rows : list A) :
  (forall r, f (set r) = f r) ->
  map f (update_where p set rows) = map f rows.
Proof.
  intros Hf. unfold update_where. rewrite map_map. apply map_ext.
  intros r. destruct (p r); [apply Hf | reflexivity].
Qed.

Lemma find_app_fresh {A} (p : A -> bool) (rows : list A) (x : A) :
  find p rows = None -> find p (rows ++ [x]) = if p x then Some x else None.
Proof.
  induction rows as [|r rows IH]; simpl; [reflexivity|].
  destruct (p r); [discriminate | exact IH].
Qed.

Lemma find_app_found {A} (p : A -> bool) (rows more : list A) (r : A) :
  find p rows = Some r -> find p (rows ++ more) = Some r.
Proof.
  induction rows as [|x rows IH]; simpl; [discriminate|].
  destruct (p x); [trivial | exact IH].
Qed.

Lemma next_serial_above (ids : list Z) (x : Z) : In x ids -> x < next_serial ids.
Proof.
  unfold next_serial. induction ids as [|y ids IH]; cbn [fold_right In]; [tauto|].
  intros [->|Hin]; [lia|]. specialize (IH Hin). lia.
Qed.

Lemma next_serial_fresh (ids : list Z) : existsb (Z.eqb (next_serial ids)) ids = false.
Proof.
  destruct (existsb (Z.eqb (next_serial ids)) ids) eqn:E; [|reflexivity].
  apply existsb_exists in E. destruct E as (x & Hin & Hx).
  apply Z.eqb_eq in Hx. apply next_serial_above in Hin. lia.
Qed.

Lemma distinct_app_fresh (l : list Z) (x : Z) :
  distinct l = true -> existsb (Z.eqb x) l = false -> distinct (l ++ [x]) = true.
Proof.
  induction l as [|y l IH]; simpl; [reflexivity|].
  rewrite !andb_true_iff, !negb_true_iff, orb_false_iff.
  intros [Hy Hl] [Hxy Hx]. split; [|now apply IH].
  rewrite existsb_app. simpl. rewrite Hy, orb_false_r. simpl.
  now rewrite Z.eqb_sym.
Qed.

Lemma find_none_existsb {A} (f : A -> Z) (k : Z) (rows : list A) :
  find (fun r => f r =? k) rows = None -> existsb (Z.eqb k) (map f rows) = false.
Proof.
  induction rows as [|r rows IH]; simpl; [reflexivity|].
  rewrite (Z.eqb_sym k). destruct (f r =? k); [discriminate | exact IH].
Qed.

(** ** Symbolic execution, for the rest of the router *)

Ltac rest_cbv :=
  cbv [bind ret throw throwIf parseInput getDb modifyDb setTimeout
       db_transaction try_catch try_catch_with paystackValidate
       insertTransaction insertHold updateWallet
       updateTransaction paystack upsertRecipient transferLegs checkInt4
       checkUserReference exec outcome fst snd negb
       db timers paystackLog
       with_wallets with_walletTransactions with_walletHolds
       with_walletMerchants with_walletBills with_walletRecipients
       tbl_users tbl_wallets tbl_walletTransactions tbl_walletHolds
       tbl_walletBanks tbl_walletMerchants tbl_walletBills tbl_walletRecipients].

Ltac rest_cbv_in H :=
  cbv [bind ret throw throwIf parseInput getDb modifyDb setTimeout
       db_transaction try_catch try_catch_with paystackValidate
       insertTransaction insertHold updateWallet
       updateTransaction paystack upsertRecipient transferLegs checkInt4
       checkUserReference exec outcome fst snd negb
       db timers paystackLog
       with_wallets with_walletTransactions with_walletHolds
       with_walletMerchants with_walletBills with_walletRecipients
       tbl_users tbl_wallets tbl_walletTransactions tbl_walletHolds
       tbl_walletBanks tbl_walletMerchants tbl_walletBills tbl_walletRecipients] in H.

Ltac rest_run_in H :=
  rest_cbv_in H; repeat (branch_in H; rest_cbv_in H; try discriminate H).

(** The key columns of [wallets] after a run of updates. *)
Ltac wallet_keys :=
  unfold wallets_primary_key, wallets_one_per_user in *; proc_cbv;
  rewrite ?map_update_where by reflexivity;
  auto.


Lemma update_where_none {A} (p : A -> bool) (set : A -> A) (rows : list A) :
  (forall r, In r rows -> p r = false) -> update_where p set rows = rows.
Proof.
  intros H. unfold update_where. rewrite <- (map_id rows) at 2.
  apply map_ext_in. intros r Hin. now rewrite (H r Hin).
Qed.

(** Under the primary key, the wallet found for a user is the one its id
    names. *)
Lemma walletById_of_user d u w :
  wallets_primary_key d = true ->
  walletOfUser u d = Some w ->
  walletById (wallets.id w) d = Some w.
Proof.
  unfold wallets_primary_key, walletOfUser, walletById, first_where.
  intros Hpk Hw. apply distinct_NoDup in Hpk.
  apply find_some in Hw. destruct Hw as [Hin _].
  destruct (find (fun x => wallets.id x =? wallets.id w) (tbl_wallets d)) as [x|] eqn:E.
  - apply find_some in E. destruct E as [Hin' Hid]. apply Z.eqb_eq in Hid.
    f_equal. exact (NoDup_map_inj wallets.id _ x w Hpk Hin' Hin Hid).
  - apply (find_none _ _ E) in Hin. now rewrite Z.eqb_refl in Hin.
Qed.

(** Rewriting the one row an id names changes the total by the change of
    that row. *)
Lemma total_update_where (rows : list wallets.row) (k : Z)
  (set : wallets.row -> wallets.row) (r : wallets.row) :
  NoDup (map wallets.id rows) ->
  find (fun w => wallets.id w =? k) rows = Some r ->
  fold_right (fun w acc => wallets.balance w + acc) 0
    (update_where (fun w => wallets.id w =? k) set rows)
  = fold_right (fun w acc => wallets.balance w + acc) 0 rows
    - wallets.balance r + wallets.balance (set r).
Proof.
  induction rows as [|x rows IH]; cbn [map find fold_right update_where];
    [discriminate|].
  intros Hnd Hfind. inversion Hnd as [|? ? Hx Hrest]; subst.
  fold (update_where (fun w => wallets.id w =? k) set rows).
  destruct (wallets.id x =? k) eqn:E.
  - injection Hfind as <-. apply Z.eqb_eq in E.
    rewrite update_where_none; [lia|].
    intros y Hy. apply Z.eqb_neq. intros Hk. apply Hx.
    rewrite E, <- Hk. now apply in_map.
  - rewrite (IH Hrest Hfind). lia.
Qed.

Lemma sum_amounts_app (l m : list walletTransactions.row) :
  sum_amounts (l ++ m) = sum_amounts l + sum_amounts m.
Proof.
  unfold sum_amounts. induction l as [|x l IH]; cbn [app fold_right]; lia.
Qed.

Lemma update_where_app {A} (p : A -> bool) (set : A -> A) (l m : list A) :
  update_where p set (l ++ m) = update_where p set l ++ update_where p set m.
Proof. apply map_app. Qed.

(** No row carries the serial the next insertion will get. *)
Lemma update_where_serial {A} (f : A -> Z) (set : A -> A) (rows : list A) :
  update_where (fun r => f r =? next_serial (map f rows)) set rows = rows.
Proof.
  apply update_where_none. intros r Hr. apply Z.eqb_neq.
  pose proof (next_serial_above _ _ (in_map f _ _ Hr)). lia.
Qed.

(** Under the primary key, joining on a wallet's id picks that wallet or
    nothing. *)
Lemma filter_by_id (rows : list wallets.row) (r : wallets.row)
  (q : wallets.row -> bool) :
  NoDup (map wallets.id rows) ->
  In r rows ->
  filter (fun w => (wallets.id r =? wallets.id w) && q w) rows
  = if q r then [r] else [].
Proof.
  induction rows as [|x rows IH]; cbn [map In filter]; [tauto|].
  intros Hnd Hin. inversion Hnd as [|? ? Hx Hrest]; subst.
  destruct Hin as [->|Hin].
  - rewrite Z.eqb_refl. cbn [andb].
    assert (filter (fun w => (wallets.id r =? wallets.id w) && q w) rows = []) as ->.
    { clear IH. induction rows as [|y rows IH]; [reflexivity|]. cbn [filter].
      destruct (wallets.id r =? wallets.id y) eqn:E.
      - apply Z.eqb_eq in E. exfalso. apply Hx. rewrite E. now left.
      - cbn [andb]. apply IH.
        + inversion Hnd as [|? ? Hx' Hrest']; subst. inversion Hrest'; subst.
          constructor; [|assumption]. intros Hr. apply Hx. now right.
        + intros Hr. apply Hx. now right.
        + now inversion Hrest. }
    destruct (q r); reflexivity.
  - assert ((wallets.id r =? wallets.id x) = false) as ->.
    { apply Z.eqb_neq. intros E. apply Hx. rewrite <- E. now apply in_map. }
    cbn [andb]. now apply IH.
Qed.

(** The join of [getWallet] looks at the key columns of [wallets] only. *)
Lemma joined_same_keys (uid : Z) (d d' : Db) (rows : list walletTransactions.row) :
  map wallets.id (tbl_wallets d') = map wallets.id (tbl_wallets d) ->
  map wallets.userId (tbl_wallets d') = map wallets.userId (tbl_wallets d) ->
  joinedWithWalletsOf uid d' rows = joinedWithWalletsOf uid d rows.
Proof.
  intros Hid Huser. unfold joinedWithWalletsOf.
  apply flat_map_ext. intros t.
  generalize dependent (tbl_wallets d'). generalize (tbl_wallets d).
  induction l as [|x l IH]; intros [|y l'] Hid Huser; try discriminate; [reflexivity|].
  cbn [map] in Hid, Huser. injection Hid as Hy Hid. injection Huser as Hu Huser.
  cbn [filter]. rewrite Hy, Hu.
  destruct ((walletTransactions.walletId t =? wallets.id x) && (wallets.userId x =? uid));
    cbn [map]; [f_equal|]; now apply IH.
Qed.

Lemma joined_app (uid : Z) (d : Db) (l m : list walletTransactions.row) :
  joinedWithWalletsOf uid d (l ++ m)
  = joinedWithWalletsOf uid d l ++ joinedWithWalletsOf uid d m.
Proof. apply flat_map_app. Qed.

(** The spent total of [getWallet] after rows have been appended and
    wallets rewritten in place. *)
Lemma spendTotalSince_append (uid since : Z) (d d' : Db)
  (new : list walletTransactions.row) :
  map wallets.id (tbl_wallets d') = map wallets.id (tbl_wallets d) ->
  map wallets.userId (tbl_wallets d') = map wallets.userId (tbl_wallets d) ->
  tbl_walletTransactions d' = tbl_walletTransactions d ++ new ->
  spendTotalSince uid since d'
  = spendTotalSince uid since d
    + sum_amounts
        (joinedWithWalletsOf uid d
           (filter (fun t => (since <=? walletTransactions.createdAt t)
                             && String.eqb (walletTransactions.status t) "completed"
                             && spendKind t)
                   new)).
Proof.
  intros Hid Huser Hnew. unfold spendTotalSince.
  rewrite (joined_same_keys uid d d') by assumption.
  now rewrite Hnew, filter_app, joined_app, sum_amounts_app.
Qed.

(** One joined row: it is kept when its wallet belongs to the user. *)
Lemma joined_one (uid : Z) (d : Db) (t : walletTransactions.row) (r : wallets.row) :
  NoDup (map wallets.id (tbl_wallets d)) ->
  In r (tbl_wallets d) ->
  walletTransactions.walletId t = wallets.id r ->
  joinedWithWalletsOf uid d [t] = if wallets.userId r =? uid then [t] else [].
Proof.
  intros Hnd Hin Hid. unfold joinedWithWalletsOf. cbn [flat_map].
  rewrite Hid, (filter_by_id _ r (fun w => wallets.userId w =? uid)) by assumption.
  destruct (wallets.userId r =? uid); reflexivity.
Qed.

Lemma joined_cons (uid : Z) (d : Db) (t : walletTransactions.row)
  (l : list walletTransactions.row) :
  joinedWithWalletsOf uid d (t :: l)
  = joinedWithWalletsOf uid d [t] ++ joinedWithWalletsOf uid d l.
Proof. exact (joined_app uid d [t] l). Qed.

Lemma find_serial_none {A} (f : A -> Z) (q : A -> bool) (rows : list A) :
  find (fun r => (f r =? next_serial (map f rows)) && q r) rows = None.
Proof.
  destruct (find _ rows) as [r|] eqn:E; [|reflexivity].
  apply find_some in E. destruct E as [Hin Hr].
  apply andb_true_iff in Hr. destruct Hr as [Hr _]. apply Z.eqb_eq in Hr.
  pose proof (next_serial_above _ _ (in_map f _ _ Hin)). lia.
Qed.

Lemma forallb_update_where {A} (p q : A -> bool) (set : A -> A) (rows : list A) :
  (forall r, p (set r) = p r) ->
  forallb p (update_where q set rows) = forallb p rows.
Proof.
  intros Hp. induction rows as [|r rows IH]; cbn [update_where map forallb]; [reflexivity|].
  fold (update_where q set rows). rewrite IH.
  destruct (q r); [now rewrite Hp | reflexivity].
Qed.

Lemma sum_amounts_none (p : walletTransactions.row -> bool)
  (rows : list walletTransactions.row) :
  (forall t, In t rows -> p t = false) -> sum_amounts (filter p rows) = 0.
Proof.
  intros H. induction rows as [|t rows IH]; cbn [filter]; [reflexivity|].
  rewrite (H t (or_introl eq_refl)). apply IH. intros x Hx. apply H. now right.
Qed.

Lemma found_existsb {A} (p : A -> bool) (l : list A) :
  match find p l with Some _ => true | None => false end = existsb p l.
Proof.
  induction l as [|x l IH]; cbn [find existsb]; [reflexivity|].
  destruct (p x); [reflexivity | exact IH].
Qed.

Section RouterProperties.

Variable bcrypt_compare : string -> string -> bool.
Variable parseInt : string -> option Z.
Variable startOfDay : Z -> Z.
Variable startOfMonth : Z -> Z.

Local Abbreviation run_transfer := (transfer bcrypt_compare parseInt startOfDay startOfMonth).
Local Abbreviation run_payMerchant := (payMerchant bcrypt_compare).
Local Abbreviation run_payBill := (payBill bcrypt_compare).
Local Abbreviation run_withdraw := (withdraw bcrypt_compare).

(** Rewrite the scrutinees the computation is stuck on with what is known
    about them. *)
Ltac use_known :=
  proc_cbv;
  repeat (match goal with
          | H : ?x = _ |- context [match ?x with _ => _ end] => rewrite H
          end; proc_cbv).


(** C7, as the router behaves. The recipient cache is written with the
    transaction handle, inside [db.transaction]: in a situation where the
    transfer would go through, a rejected cache statement makes the transfer
    throw, and the sender debit, the recipient credit and the three rows are
    undone: the world is the one before the call. *)
Theorem transfer_fails_when_cache_update_fails ctx input env w w' r :
  run_transfer ctx input env true w = (w', Return r) ->
  run_transfer ctx input env false w = (w, Throw UpsertFailure).
Proof.
  intros H. open_world w. unfold transfer in *. run_in H.
  all: use_known; reflexivity.
Qed.

Ltac inserted_row_ok :=
  unfold insertedRowOk, ledgerEquation;
  cbn [walletTransactions.status walletTransactions.type
       walletTransactions.balanceAfter walletTransactions.balanceBefore
       walletTransactions.netAmount];
  let Hst := fresh in
  intros Hst; try discriminate Hst;
  split; let Hty := fresh in intros Hty;
  try discriminate Hty; try congruence; try reflexivity; try lia;
  try (split; reflexivity).

Ltac inserted_rows :=
  first
    [ exists []; split; [symmetry; apply app_nil_r | constructor]
    | rewrite <- ?app_assoc; cbn [app]; eexists; split;
      [ reflexivity | repeat (constructor; [inserted_row_ok|]); constructor ] ].

(** C3, as the router behaves. Whatever a procedure that inserts
    transactions does (fundWallet, transfer, payMerchant, payBill, withdraw),
    and whether it returns or throws, the rows it leaves appended to the
    table satisfy [insertedRowOk] for the fee the procedure charges: a row
    inserted as completed satisfies balanceAfter = balanceBefore + netAmount
    unless it is a fee row, and a fee row has balanceAfter = balanceBefore
    and netAmount = - fee. The same holds of the rows the unit of work of
    [transfer] has written when it reaches the cache statement. *)
Theorem inserted_rows_ledger_equation ctx env w w' :
  (forall input gateway out,
     fundWallet ctx input env gateway w = (w', out) ->
     exists new, tbl_walletTransactions (db w') = tbl_walletTransactions (db w) ++ new
                 /\ Forall (insertedRowOk (fundingFee (fund_amount input))) new)
  /\ (forall amount fee reference senderWallet recipientWallet recipient out,
        transferLegs ctx env amount fee reference senderWallet recipientWallet recipient w
        = (w', out) ->
        exists new, tbl_walletTransactions (db w') = tbl_walletTransactions (db w) ++ new
                    /\ Forall (insertedRowOk fee) new
                    /\ forall newBalance, out = Return newBalance ->
                         exists s rc f,
                           new = [s; rc; f] /\ walletTransactions.type f = "fee"
                           /\ walletTransactions.status f = "completed")
  /\ (forall input accepted out,
        run_transfer ctx input env accepted w = (w', out) ->
        exists new, tbl_walletTransactions (db w') = tbl_walletTransactions (db w) ++ new
                    /\ Forall (insertedRowOk (transferFee (transfer_amount input))) new)
  /\ (forall input out,
        run_payMerchant ctx input env w = (w', out) ->
        exists fee new,
          (forall r, out = Return r -> mr_fee r = fee)
          /\ tbl_walletTransactions (db w') = tbl_walletTransactions (db w) ++ new
          /\ Forall (insertedRowOk fee) new)
  /\ (forall input isSuccess out,
        run_payBill ctx input env isSuccess w = (w', out) ->
        exists new, tbl_walletTransactions (db w') = tbl_walletTransactions (db w) ++ new
                    /\ Forall (insertedRowOk (billFee (bill_amount input))) new)
  /\ (forall input out,
        run_withdraw ctx input env w = (w', out) ->
        exists new, tbl_walletTransactions (db w') = tbl_walletTransactions (db w) ++ new
                    /\ Forall (insertedRowOk withdrawalFee) new).
Proof.
  open_world w. repeat split; intros.
  - unfold fundWallet in H. run_in H.
    all: injection H as <- <-; proc_cbv; inserted_rows.
  - run_in H.
    all: injection H as <- <-; proc_cbv.
    all: rewrite <- ?app_assoc; cbn [app].
    all: eexists; split; [try reflexivity; symmetry; apply app_nil_r|].
    all: split; [repeat (constructor; [inserted_row_ok|]); constructor|].
    all: intros newBalance Hout; try discriminate Hout.
    do 3 eexists. repeat split.
  - unfold transfer in H. run_in H.
    all: injection H as <- <-; proc_cbv; inserted_rows.
  - unfold payMerchant in H. run_in H.
    all: injection H as <- <-; proc_cbv.
    all: try solve [exists 0, []; split; [intros res Hres; discriminate Hres|];
                    split; [symmetry; apply app_nil_r | constructor]].
    all: rewrite <- ?app_assoc; cbn [app]; do 2 eexists.
    all: (split; [intros res Hres; injection Hres as <-; reflexivity|]).
    all: split; [reflexivity|].
    all: repeat (constructor; [inserted_row_ok|]); constructor.
  - unfold payBill in H. run_in H.
    all: injection H as <- <-; proc_cbv; inserted_rows.
  - unfold withdraw in H. run_in H.
    all: injection H as <- <-; proc_cbv; inserted_rows.
Qed.

(** X15. The limit check as the router performs it: past the PIN and the balance
    check, the request is refused when the signed sum of today's completed
    rows of type 'transfer', plus the amount, exceeds the daily cap. *)
Lemma transfer_daily_limit_as_coded ctx input env accepted w senderWallet :
  transferSchema input = true ->
  walletOfUser (users.id (user ctx)) (db w) = Some senderWallet ->
  pinValid bcrypt_compare (transfer_pin input) senderWallet = true ->
  transfer_amount input <= wallets.availableBalance senderWallet ->
  wallets.dailyLimit senderWallet
  < transferTotalSince (wallets.id senderWallet) (startOfDay (now env)) (db w)
    + transfer_amount input ->
  run_transfer ctx input env accepted w
  = (w, Throw (TRPCError "BAD_REQUEST" "Daily transfer limit exceeded")).
Proof.
  intros Hschema Hwallet Hpin Hfunds Hlimit. open_world w.
  proc_cbv_in Hwallet. unfold transfer. proc_cbv.
  rewrite Hschema, Hwallet. proc_cbv. rewrite Hpin.
  replace (transfer_amount input >? wallets.availableBalance senderWallet)
    with false by (symmetry; rewrite Z.gtb_ltb; apply Z.ltb_ge; lia).
  proc_cbv_in Hlimit.
  match goal with
  | |- context [if ?c then _ else _] =>
      replace c with true by (symmetry; apply Z.gtb_lt; exact Hlimit)
  end.
  reflexivity.
Qed.

(** ** Bill payment *)

(** X25. When the simulated provider refuses, [payBill] throws and the
    whole unit of work is undone: the debit, the bill and the transaction it
    has marked failed are rolled back, and the world is the one before. *)
Lemma payBill_failure_rolls_back ctx input env w :
  exists e, run_payBill ctx input env false w = (w, Throw e).
Proof.
  open_world w. unfold payBill. run_goal.
  all: eexists; reflexivity.
Qed.


(** ** Withdrawal *)

End RouterProperties.

(** * The scenarios, run *)

(** Alice's payment of 400000 to the campus shop (fee 4000): the three rows
    it inserts satisfy [insertedRowOk] for that fee. *)
Lemma inserted_rows_ledger_equation_witness :
  exists fee new,
    (forall r,
       outcome (Scenario.payMerchant (mkCtx Fixture.alice) Scenario.pay400000
                  (Scenario.env 3000 "3000_11111111")) Scenario.fundedLarge
       = Return r ->
       mr_fee r = fee)
    /\ tbl_walletTransactions (db Scenario.afterPayment)
       = tbl_walletTransactions (db Scenario.fundedLarge) ++ new
    /\ Forall (insertedRowOk fee) new.
Proof.
  apply (proj1 (proj2 (proj2 (proj2 (inserted_rows_ledger_equation
                         Fixture.bcrypt_compare Fixture.parseInt
                         Fixture.startOfDay Fixture.startOfMonth
                         (mkCtx Fixture.alice) (Scenario.env 3000 "3000_11111111")
                         Scenario.fundedLarge Scenario.afterPayment))))
           Scenario.pay400000
           (outcome (Scenario.payMerchant (mkCtx Fixture.alice) Scenario.pay400000
                       (Scenario.env 3000 "3000_11111111"))
                    Scenario.fundedLarge)).
  vm_compute. reflexivity.
Defined.

(** C3, as stated, fails on a fee row: Alice's payment of 400000 to the
    campus shop returns, and the completed fee row it has inserted for the
    shop's wallet has balanceBefore = balanceAfter = 396000 and
    netAmount = -4000. *)
Lemma payMerchant_fee_row_breaks_ledger_equation :
  outcome (Scenario.payMerchant (mkCtx Fixture.alice) Scenario.pay400000
             (Scenario.env 3000 "3000_11111111")) Scenario.fundedLarge
  = Return (mkPayMerchantResult true "MERCH_3000_11111111" 400000 4000 396000
              "Campus Shop" 585000)
  /\ exists f,
       In f (tbl_walletTransactions (db Scenario.afterPayment))
       /\ walletTransactions.reference f = "MERCH_3000_11111111_F"
       /\ walletTransactions.type f = "fee"
       /\ walletTransactions.status f = "completed"
       /\ walletTransactions.balanceBefore f = 396000
       /\ walletTransactions.balanceAfter f = 396000
       /\ walletTransactions.netAmount f = -4000
       /\ ~ ledgerEquation f.
Proof.
  split; [vm_compute; reflexivity|].
  eexists. split.
  - vm_compute. do 3 right. left. reflexivity.
  - repeat split. unfold ledgerEquation. vm_compute. discriminate.
Qed.

(** C2 is violated by the router. The completion of a withdrawal writes the
    balance it computed when the withdrawal was requested. Alice has 9850;
    she asks to withdraw 7000 (total 8500, 1350 left available); a second
    funding of 10000 is confirmed before the completion (balance 19700,
    available 11200); the completion writes 9850 - 8500 = 1350 as her
    balance and loses the credit, while 11200 stay available; a bill of 5000
    (total 5200) is then accepted and her balance ends at -3850. *)
Theorem stale_completion_drives_balance_negative :
  option_map wallets.balance (walletOfUser 1 (db Scenario.fundingVerified)) = Some 9850
  /\ outcome (Scenario.withdraw (mkCtx Fixture.alice) Scenario.withdraw7000
                (Scenario.env 6000 "6000_0000aaaa")) Scenario.fundingVerified
     = Return (mkWithdrawResult true "WDL_6000_0000aaaa" 7000 1500 8500
                 "processing" 1350)
  /\ outcome (fundWallet (mkCtx Fixture.alice) (mkFundWalletInput 10000 "card" None None)
                (Scenario.env 7000 "7000_1_b1b2c3d4")
                (Scenario.gatewayInit "VH_7000_1_b1b2c3d4")) Scenario.withdrawalRequested
     = Return (mkFundWalletResult "https://checkout.test/pay" "VH_7000_1_b1b2c3d4" 10000)
  /\ outcome (verifyFunding (mkCtx Fixture.alice) "VH_7000_1_b1b2c3d4"
                (Scenario.env 8000 "") Scenario.gatewaySuccess)
             Scenario.secondFundingPending
     = Return (mkVerifyFundingResult true 10000 19700)
  /\ option_map wallets.availableBalance
       (walletOfUser 1 (db Scenario.fundedMeanwhile)) = Some 11200
  /\ timers Scenario.fundedMeanwhile
     = [WithdrawalCompletion Scenario.aliceAtRequest 8500 "WDL_6000_0000aaaa"]
  /\ option_map wallets.balance
       (walletOfUser 1 (db Scenario.withdrawalCompleted)) = Some 1350
  /\ option_map wallets.availableBalance
       (walletOfUser 1 (db Scenario.withdrawalCompleted)) = Some 11200
  /\ billPaymentSchema Scenario.electricity5000 = true
  /\ outcome (Scenario.payBill (mkCtx Fixture.alice) Scenario.electricity5000
                (Scenario.env 10000 "10000_0000bbbb") true) Scenario.withdrawalCompleted
     = Return (mkPayBillResult true "BILL_10000_0000bbbb" 5000 200 5200
                 "processing" (-3850))
  /\ option_map wallets.balance (walletOfUser 1 (db Scenario.afterLateBill))
     = Some (-3850)
  /\ option_map wallets.availableBalance (walletOfUser 1 (db Scenario.afterLateBill))
     = Some 6000.
Proof. vm_compute. repeat split. Qed.

(** C4 is violated by the router. The total the limit check uses is the
    signed sum of the completed rows of type 'transfer' only. With a
    completed payment of 400000 today and a daily cap of 500000, a transfer
    of 200000 is not refused for the limit: the payment is not counted, the
    total is 0, and the request goes on into the unit of work, where the
    cache statement stops it. Whatever the store answers to that statement,
    the outcome is not the limit error. *)
Theorem transfer_limit_check_misses_spending :
  outcome (Scenario.payMerchant (mkCtx Fixture.alice) Scenario.pay400000
             (Scenario.env 3000 "3000_11111111")) Scenario.fundedLarge
  = Return (mkPayMerchantResult true "MERCH_3000_11111111" 400000 4000 396000
              "Campus Shop" 585000)
  /\ option_map wallets.dailyLimit (walletOfUser 1 (db Scenario.afterPayment))
     = Some 500000
  /\ spentInWindow_spec 1 (Fixture.startOfDay 4000) (db Scenario.afterPayment) = 400000
  /\ 500000 < 400000 + transfer_amount Scenario.transfer200000
  /\ transferTotalSince 1 (Fixture.startOfDay 4000) (db Scenario.afterPayment) = 0
  /\ Scenario.transfer (mkCtx Fixture.alice) Scenario.transfer200000
                       (Scenario.env 4000 "4000_33333333")
                       schemaAcceptsRecipientUpsert Scenario.afterPayment
     = (Scenario.afterPayment, Throw UpsertFailure)
  /\ forall accepted,
       outcome (Scenario.transfer (mkCtx Fixture.alice) Scenario.transfer200000
                  (Scenario.env 4000 "4000_33333333") accepted) Scenario.afterPayment
       <> Throw (TRPCError "BAD_REQUEST" "Daily transfer limit exceeded").
Proof.
  do 6 (split; [vm_compute; reflexivity|]).
  intros [|]; vm_compute; discriminate.
Qed.




(** A transfer of 5000 that goes through when the cache statement is
    accepted fails, with nothing changed, when it is rejected. *)
Lemma transfer_fails_when_cache_update_fails_witness :
  Scenario.transfer (mkCtx Fixture.alice) Scenario.transfer5000
                    (Scenario.env 4000 "4000_0a0b0c0d") false Scenario.beforeTransfer
  = (Scenario.beforeTransfer, Throw UpsertFailure).
Proof.
  apply (transfer_fails_when_cache_update_fails
           Fixture.bcrypt_compare Fixture.parseInt
           Fixture.startOfDay Fixture.startOfMonth
           (mkCtx Fixture.alice) Scenario.transfer5000
           (Scenario.env 4000 "4000_0a0b0c0d")
           Scenario.beforeTransfer Scenario.afterTransfer
           (mkTransferResult true "TRF_4000_0a0b0c0d" 5000 100 "Bob" 5000)).
  vm_compute. reflexivity.
Defined.

(** C7, as stated, fails: with the cache statement rejected the transfer
    of 5000 throws, and the wallets and the transaction table are those
    before the call: no leg is left applied. *)
Lemma transfer_cache_failure_fails_transfer :
  outcome (Scenario.transfer (mkCtx Fixture.alice) Scenario.transfer5000
             (Scenario.env 4000 "4000_0a0b0c0d") false) Scenario.beforeTransfer
  = Throw UpsertFailure
  /\ tbl_wallets
       (db (exec (Scenario.transfer (mkCtx Fixture.alice) Scenario.transfer5000
                    (Scenario.env 4000 "4000_0a0b0c0d") false)
                 Scenario.beforeTransfer))
     = tbl_wallets (db Scenario.beforeTransfer)
  /\ tbl_walletTransactions
       (db (exec (Scenario.transfer (mkCtx Fixture.alice) Scenario.transfer5000
                    (Scenario.env 4000 "4000_0a0b0c0d") false)
                 Scenario.beforeTransfer))
     = [].
Proof. vm_compute. repeat split. Qed.


(** C9 is violated by the router. The fee rule is the one the claim states
    (100 for a transfer of 5000), and the unit of work debits Alice to 5000,
    credits Bob with 4900 and records a fee row of 100 under three different
    references; but [wallet_recipients] has no unique index on the conflict
    target of the cache statement, the store refuses the statement, and the
    unit of work is undone: the transfer throws, Alice still has 10000, Bob
    700, and no row is recorded. *)
Theorem transfer_of_5000_is_rolled_back :
  transferSchema Scenario.transfer5000 = true
  /\ transferFee 5000 = 100
  /\ walletOfUser 1 (db Scenario.beforeTransfer) = Some Scenario.aliceBefore
  /\ walletOfUser 2 (db Scenario.beforeTransfer) = Some Scenario.bobBefore
  /\ (let inside :=
        exec (transferLegs (mkCtx Fixture.alice) (Scenario.env 4000 "4000_0a0b0c0d")
                5000 (transferFee 5000) "TRF_4000_0a0b0c0d"
                Scenario.aliceBefore Scenario.bobBefore Fixture.bob)
             Scenario.beforeTransfer in
      option_map wallets.balance (walletOfUser 1 (db inside)) = Some 5000
      /\ option_map wallets.balance (walletOfUser 2 (db inside)) = Some (700 + 4900)
      /\ map (fun t => (walletTransactions.reference t, walletTransactions.type t,
                        walletTransactions.amount t))
             (tbl_walletTransactions (db inside))
         = [("TRF_4000_0a0b0c0d_S", "transfer", -5000);
            ("TRF_4000_0a0b0c0d_R", "transfer", 4900);
            ("TRF_4000_0a0b0c0d_F", "fee", -100)])
  /\ walletRecipients.uniqueIndexes = [["id"]]
  /\ schemaAcceptsRecipientUpsert = false
  /\ Scenario.transfer (mkCtx Fixture.alice) Scenario.transfer5000
                       (Scenario.env 4000 "4000_0a0b0c0d")
                       schemaAcceptsRecipientUpsert Scenario.beforeTransfer
     = (Scenario.beforeTransfer, Throw UpsertFailure).
Proof. vm_compute. repeat split. Qed.

(** ** Binary64 rounding to nearest *)

(** One shift keeps track of what is cut off: [2 * shr_m + shr_r] is the
    number in half units and [shr_s] tells whether anything lies below. *)
Lemma shr_1_exact (x : shr_record) (m2 j : Z) :
  0 <= j -> 0 <= shr_m x ->
  (exists rest, m2 = (2 * shr_m x + Z.b2z (shr_r x)) * 2 ^ j + rest
                /\ 0 <= rest < 2 ^ j
                /\ shr_s x = negb (rest =? 0)) ->
  0 <= shr_m (shr_1 x)
  /\ exists rest, m2 = (2 * shr_m (shr_1 x) + Z.b2z (shr_r (shr_1 x))) * 2 ^ (j + 1) + rest
                  /\ 0 <= rest < 2 ^ (j + 1)
                  /\ shr_s (shr_1 x) = negb (rest =? 0).
Proof.
  intros Hj Hm (rest & Em & Hrest & Es).
  assert (0 < 2 ^ j) as Hp by (apply Z.pow_pos_nonneg; lia).
  rewrite Z.pow_add_r by lia. change (2 ^ 1) with 2.
  destruct x as [m r s]. cbn [shr_m shr_r shr_s] in *.
  assert (forall m' b', m = 2 * m' + Z.b2z b' ->
            m2 = (2 * m' + Z.b2z b') * (2 ^ j * 2) + (Z.b2z r * 2 ^ j + rest)
            /\ 0 <= Z.b2z r * 2 ^ j + rest < 2 ^ j * 2
            /\ (r || s)%bool = negb (Z.b2z r * 2 ^ j + rest =? 0)) as Hgen.
  { intros m' b' E. split; [rewrite Em, E; ring|].
    split; [destruct r; cbn [Z.b2z]; lia|].
    rewrite Es. destruct r; cbn [Z.b2z orb].
    - symmetry. apply negb_true_iff, Z.eqb_neq. lia.
    - now rewrite Z.mul_0_l, Z.add_0_l. }
  destruct m as [|[p|p|]|p]; cbn [shr_1 shr_m shr_r shr_s]; try lia.
  - split; [lia|]. eexists. apply (Hgen 0 false). reflexivity.
  - split; [lia|]. eexists. apply (Hgen (Zpos p) true). now rewrite Pos2Z.inj_xI.
  - split; [lia|]. eexists. apply (Hgen (Zpos p) false).
    rewrite Pos2Z.inj_xO. cbn [Z.b2z]. lia.
  - split; [lia|]. eexists. apply (Hgen 0 true). reflexivity.
Qed.

Lemma iter_shr_1_exact (n : positive) :
  forall (x : shr_record) (m2 j : Z),
    0 <= j -> 0 <= shr_m x ->
    (exists rest, m2 = (2 * shr_m x + Z.b2z (shr_r x)) * 2 ^ j + rest
                  /\ 0 <= rest < 2 ^ j
                  /\ shr_s x = negb (rest =? 0)) ->
    0 <= shr_m (iter_pos shr_1 n x)
    /\ exists rest,
         m2 = (2 * shr_m (iter_pos shr_1 n x) + Z.b2z (shr_r (iter_pos shr_1 n x)))
              * 2 ^ (j + Zpos n) + rest
         /\ 0 <= rest < 2 ^ (j + Zpos n)
         /\ shr_s (iter_pos shr_1 n x) = negb (rest =? 0).
Proof.
  induction n as [n IH|n IH|]; intros x m2 j Hj Hm Hx; cbn [iter_pos].
  - destruct (shr_1_exact x m2 j Hj Hm Hx) as [H1 R1].
    destruct (IH _ m2 (j + 1) ltac:(lia) H1 R1) as [H2 R2].
    destruct (IH _ m2 (j + 1 + Zpos n) ltac:(lia) H2 R2) as [H3 R3].
    split; [exact H3|].
    replace (j + Zpos n~1) with (j + 1 + Zpos n + Zpos n) by lia. exact R3.
  - destruct (IH _ m2 j Hj Hm Hx) as [H2 R2].
    destruct (IH _ m2 (j + Zpos n) ltac:(lia) H2 R2) as [H3 R3].
    split; [exact H3|].
    replace (j + Zpos n~0) with (j + Zpos n + Zpos n) by lia. exact R3.
  - exact (shr_1_exact x m2 j Hj Hm Hx).
Qed.

(** Round to nearest, ties to even: the result is within half a unit. *)
Lemma round_nearest_even_half (P N : Z) (r1 : shr_record) :
  0 < N ->
  (exists rest, 2 * P = (2 * shr_m r1 + Z.b2z (shr_r r1)) * N + rest
                /\ 0 <= rest < N
                /\ shr_s r1 = negb (rest =? 0)) ->
  let M1 := round_nearest_even (shr_m r1) (loc_of_shr_record r1) in
  2 * (N * M1) - N <= 2 * P <= 2 * (N * M1) + N.
Proof.
  intros HN (rest & E & Hrest & Es) M1. subst M1.
  destruct r1 as [m r s]. cbn [shr_m shr_r shr_s] in *.
  destruct r, s; cbn [loc_of_shr_record round_nearest_even Z.b2z] in *.
  - symmetry in Es. apply negb_true_iff, Z.eqb_neq in Es. nia.
  - symmetry in Es. apply negb_false_iff, Z.eqb_eq in Es.
    destruct (Z.even m); nia.
  - nia.
  - nia.
Qed.

(** The value a rounded mantissa [M1] of 53 or 54 digits ends up as, seen
    through [Math.round]. *)
Lemma Math_round_renormalized (M1 E' : Z) :
  2 ^ 52 <= M1 <= 2 ^ 53 ->
  -1074 <= E' -> E' + 1 < 0 ->
  JS.Math_round
    (let '(mrs'', e'') :=
       shr {| shr_m := M1; shr_r := false; shr_s := false |} E'
           (fexp 53 1024 (Zdigits2 M1 + E') - E') in
     match shr_m mrs'' with
     | 0 => S754_zero false
     | Z.pos m =>
         if e'' <=? 1024 - 53 then S754_finite false m e'' else S754_infinity false
     | Z.neg _ => S754_nan
     end)
  = (2 * M1 + 2 ^ (- E')) / 2 ^ (1 - E').
Proof.
  intros [Hlo Hup] Hmin Hneg.
  assert (0 < 2 ^ 52) by (apply Z.pow_pos_nonneg; lia).
  destruct (Z.ltb_spec M1 (2 ^ 53)) as [Hlt|Hge].
  - destruct M1 as [|pM|pM]; try lia.
    cbn [Zdigits2].
    rewrite (digits2_pos_unique pM 53) by (change (53 - 1) with 52; lia).
    rewrite fexp_normal by lia.
    replace (53 + E' - 53 - E') with 0 by lia.
    cbn [shr shr_m].
    replace (E' <=? 1024 - 53) with true by (symmetry; apply Z.leb_le; lia).
    cbn [JS.Math_round].
    replace (0 <=? E') with false by (symmetry; apply Z.leb_gt; lia).
    reflexivity.
  - assert (M1 = 2 ^ 53) as -> by lia.
    change (Zdigits2 (2 ^ 53)) with 54.
    rewrite fexp_normal by lia.
    replace (54 + E' - 53 - E') with 1 by lia.
    cbn [shr iter_pos].
    change (shr_m (shr_1 {| shr_m := 2 ^ 53; shr_r := false; shr_s := false |}))
      with (2 ^ 52).
    change (2 ^ 52) with (Zpos (Z.to_pos (2 ^ 52))) at 1.
    cbv iota beta.
    replace (E' + 1 <=? 1024 - 53) with true by (symmetry; apply Z.leb_le; lia).
    cbn [JS.Math_round].
    replace (0 <=? E' + 1) with false by (symmetry; apply Z.leb_gt; lia).
    change (Zpos (Z.to_pos (2 ^ 52))) with (2 ^ 52).
    assert (exists t, 0 <= t /\ - (E' + 1) = t /\ 1 - (E' + 1) = Z.succ t
                      /\ - E' = Z.succ t /\ 1 - E' = Z.succ (Z.succ t))
      as (t & Ht & -> & -> & -> & ->)
        by (exists (- E' - 1); lia).
    rewrite !Z.pow_succ_r by lia.
    assert (0 < 2 ^ t) by (apply Z.pow_pos_nonneg; lia).
    replace (2 * 2 ^ 53 + 2 * 2 ^ t) with (2 * (2 * 2 ^ 52 + 2 ^ t))
      by (change (2 ^ 53) with (2 * 2 ^ 52); lia).
    rewrite Z.div_mul_cancel_l by lia. reflexivity.
Qed.

(** Rounding a mantissa of more than 53 digits to binary64 and then to the
    nearest integer, with the rounded mantissa within half a unit of the
    exact one. *)
Lemma Math_round_binary_round_aux_nearest (pm : positive) (e : Z) :
  let D := Zpos (digits2_pos pm) in
  let n := D - 53 in
  0 < n ->
  -1074 <= e + n ->
  e + n + 1 < 0 ->
  exists M1,
    2 * (2 ^ n * M1) - 2 ^ n <= 2 * Zpos pm <= 2 * (2 ^ n * M1) + 2 ^ n
    /\ JS.Math_round (binary_round_aux 53 1024 false (Zpos pm) e loc_Exact)
       = (2 * M1 + 2 ^ (- (e + n))) / 2 ^ (1 - (e + n)).
Proof.
  intros D n Hn Hlo Hhi.
  pose proof (digits2_pos_bounds pm) as [Blo Bhi]. fold D in Blo, Bhi.
  assert (0 < 2 ^ n) as Hpow by (apply Z.pow_pos_nonneg; lia).
  assert (2 ^ (D - 1) = 2 ^ n * 2 ^ 52) as E52
      by (rewrite <- Z.pow_add_r by lia; f_equal; lia).
  assert (2 ^ D = 2 ^ n * 2 ^ 53) as E53
      by (rewrite <- Z.pow_add_r by lia; f_equal; lia).
  set (q := Zpos pm / 2 ^ n).
  assert (2 ^ 52 <= q < 2 ^ 53) as [Hq52 Hq53].
  { subst q. split.
    - apply Z.div_le_lower_bound; lia.
    - apply Z.div_lt_upper_bound; lia. }
  unfold binary_round_aux, shr_fexp. cbn [Zdigits2]. fold D.
  rewrite fexp_normal by lia.
  replace (D + e - 53 - e) with n by lia.
  destruct n as [|np|np] eqn:En; try lia.
  cbn [shr shr_record_of_loc].
  destruct (iter_shr_1_div np (Build_shr_record (Zpos pm) false false))
    as [_ Em]; [cbn; lia|]. cbn [shr_m] in Em. fold q in Em.
  destruct (iter_shr_1_exact np (Build_shr_record (Zpos pm) false false)
              (2 * Zpos pm) 0) as [_ Hexact]; [lia | cbn; lia | |].
  { exists 0. cbn [shr_m shr_r shr_s Z.b2z]. change (2 ^ 0) with 1.
    split; [ring|]. split; [lia|reflexivity]. }
  rewrite Z.add_0_l in Hexact.
  set (r1 := iter_pos shr_1 np (Build_shr_record (Zpos pm) false false)) in *.
  pose proof (round_nearest_even_half (Zpos pm) (2 ^ Zpos np) r1 Hpow Hexact) as Hnear.
  cbv zeta in Hnear.
  set (M1 := round_nearest_even (shr_m r1) (loc_of_shr_record r1)) in *.
  assert (M1 = q \/ M1 = q + 1) as HM1
      by (subst M1; rewrite <- Em; apply round_nearest_even_cases).
  exists M1. split; [exact Hnear|].
  apply Math_round_renormalized; lia.
Qed.

(** The arithmetic behind the fee rules: [M1] is [a * C / N] rounded to
    nearest, [C / N] is close to [2 * H * num / (2 * hd)], and [2 * H] is so
    large that rounding [M1 / (2 * H)] to the nearest integer gives
    [a * num / (2 * hd)] rounded half up. *)
Lemma half_up_from_nearest (a C N H M1 num hd : Z) :
  0 <= a -> 0 < N -> 0 < H -> 0 < hd -> 0 <= num ->
  - (N * (2 * hd)) < 2 * (a * (2 * hd * C - N * (2 * H) * num)) ->
  2 * (a * (2 * hd * C - N * (2 * H) * num)) + N * (2 * hd) < 2 * (N * (2 * H)) ->
  2 * (N * M1) - N <= 2 * (a * C) <= 2 * (N * M1) + N ->
  (2 * M1 + 2 * H) / (2 * (2 * H)) = (num * a + hd) / (2 * hd).
Proof.
  intros Ha HN HH Hhd Hnum HL HU [Hn1 Hn2].
  pose proof (Z.mul_div_le (num * a + hd) (2 * hd) ltac:(lia)) as HK1.
  pose proof (Z.mul_succ_div_gt (num * a + hd) (2 * hd) ltac:(lia)) as HK2.
  set (K := (num * a + hd) / (2 * hd)) in *.
  set (X := N * H) in *.
  assert (0 < X) as HX by (subst X; nia).
  set (na := num * a) in *.
  assert (2 * hd * (a * C) = a * (2 * hd * C - N * (2 * H) * num) + 2 * (X * na)) as EC
      by (subst X na; ring).
  set (aD := a * (2 * hd * C - N * (2 * H) * num)) in *.
  set (aC := a * C) in *.
  assert (X * (hd * (2 * K - 1)) <= X * na) as Hlow
      by (apply Z.mul_le_mono_nonneg_l; lia).
  assert (X * na <= X * (hd * (2 * K + 1) - 1)) as Hupp
      by (apply Z.mul_le_mono_nonneg_l; lia).
  symmetry. apply (Z.div_unique _ _ K (2 * M1 + 2 * H - 2 * (2 * H) * K)); [left|ring].
  split.
  - destruct (Z.le_gt_cases ((2 * K - 1) * H) M1) as [|Hcontra]; [lia|].
    exfalso.
    assert (N * M1 <= N * ((2 * K - 1) * H - 1)) as Hmul
        by (apply Z.mul_le_mono_nonneg_l; lia).
    assert (N * ((2 * K - 1) * H - 1) = X * (2 * K - 1) - N) as Hid
        by (subst X; ring).
    assert (hd * (2 * (N * M1) + N) <= hd * (2 * (X * (2 * K - 1) - N) + N)) as Hh
        by (apply Z.mul_le_mono_nonneg_l; lia).
    assert (hd * (2 * aC) <= hd * (2 * (N * M1) + N)) as Hh2
        by (apply Z.mul_le_mono_nonneg_l; lia).
    nia.
  - destruct (Z.lt_ge_cases M1 ((2 * K + 1) * H)) as [|Hcontra]; [lia|].
    exfalso.
    assert (N * ((2 * K + 1) * H) <= N * M1) as Hmul
        by (apply Z.mul_le_mono_nonneg_l; lia).
    assert (N * ((2 * K + 1) * H) = X * (2 * K + 1)) as Hid
        by (subst X; ring).
    assert (hd * (2 * (X * (2 * K + 1)) - N) <= hd * (2 * (N * M1) - N)) as Hh
        by (apply Z.mul_le_mono_nonneg_l; lia).
    assert (hd * (2 * (N * M1) - N) <= hd * (2 * aC)) as Hh2
        by (apply Z.mul_le_mono_nonneg_l; lia).
    nia.
Qed.

(** Case analysis on an integer known to lie in a short range. *)
Ltac enum_from d lo n :=
  lazymatch n with
  | O => exfalso; lia
  | S ?n' =>
      destruct (Z.eq_dec d lo) as [->|?];
      [| let lo' := eval vm_compute in (lo + 1) in enum_from d lo' n']
  end.

(** The mantissa of the product has 105 or 106 digits; round it with
    [Math_round_binary_round_aux_nearest] and compare with the quotient
    [(num * a + hd) / (2 * hd)] by [half_up_from_nearest]. *)
Ltac round_one_binade pm Epm num hd :=
  let Hc := fresh "Hc" in
  let ED := fresh "ED" in
  let HR := fresh "HR" in
  let M1 := fresh "M" in
  let HM1 := fresh "HM" in
  (destruct (Z.lt_ge_cases (Zpos pm) (2 ^ 105)) as [Hc|Hc];
   [ assert (Zpos (digits2_pos pm) = 105) as ED
       by (apply digits2_pos_unique; eval_pow2; lia)
   | assert (Zpos (digits2_pos pm) = 106) as ED
       by (apply digits2_pos_unique; eval_pow2; lia) ]);
  (match goal with
   | |- context [binary_round_aux 53 1024 false (Zpos ?m) ?e loc_Exact] =>
       pose proof (Math_round_binary_round_aux_nearest m e) as HR
   end; cbv zeta in HR; rewrite ED in HR;
   destruct HR as (M1 & HM1 & ->); [lia|lia|lia|]);
  rewrite Epm in HM1, Hc; clear ED Epm pm;
  (match goal with
   | HM : _ <= 2 * (?x * ?C) <= 2 * (?N * ?M) + _ |- (2 * ?M + ?T) / ?T2 = _ =>
       let Hv := eval vm_compute in (T / 2) in
       change T with (2 * Hv); change T2 with (2 * (2 * Hv));
       apply (half_up_from_nearest x C N Hv M num hd); [| | | | | | |exact HM]
   end);
  eval_pow2; lia.

(** The product of an integer of at most [dmax] binary digits with a
    constant of 53 digits, rounded by [Math.round]: one case per binade of
    the integer and of the product. *)
Ltac round_product p dmax cases mc num hd :=
  let Bp := fresh "Bp" in
  let d := fresh "d" in
  let Ed := fresh "Ed" in
  let Hd := fresh "Hd" in
  let ma := fresh "ma" in
  let Ema := fresh "Ema" in
  let pm := fresh "pm" in
  let Epm := fresh "Epm" in
  pose proof (digits2_pos_bounds p) as Bp;
  remember (Zpos (digits2_pos p)) as d eqn:Ed;
  assert (1 <= d <= dmax) as Hd
    by (split; [lia|];
        destruct (Z.le_gt_cases d dmax); [assumption|];
        exfalso;
        assert (2 ^ dmax <= 2 ^ (d - 1)) by (apply Z.pow_le_mono_r; lia);
        lia);
  rewrite of_int_canonical by lia; rewrite <- Ed;
  unfold JS.mul, SFmul, JS.prec, JS.emax; cbn [xorb];
  set (ma := Pos.iter xO p (Z.to_pos (53 - d)));
  assert (Zpos ma = Zpos p * 2 ^ (53 - d)) as Ema
    by (subst ma; rewrite iter_xO_mul; f_equal; f_equal; lia);
  set (pm := (ma * mc)%positive);
  assert (Zpos pm = Zpos p * (2 ^ (53 - d) * Zpos mc)) as Epm
    by (subst pm; rewrite Pos2Z.inj_mul, Ema; ring);
  clearbody pm ma; clear Ed Ema;
  enum_from d 1 cases;
  round_one_binade pm Epm num hd.

(** On every amount below 2^31, the binary64 product with 0.015 rounds to
    the same integer as the exact quotient 3 * a / 200, halves rounded up. *)
Lemma Math_round_one_and_half_percent (a : Z) :
  1 <= a < 2 ^ 31 ->
  JS.Math_round (JS.mul (JS.of_int a) JS.lit_0_015) = (3 * a + 100) / 200.
Proof.
  intros Ha. destruct a as [|p|p]; try lia.
  unfold JS.lit_0_015.
  round_product p 31 31%nat 8646911284551352%positive 3 100.
Qed.

(** The quotient [1.00 / 100] the default merchant percentage gives
    is the binary64 value nearest to 0.01. *)
Lemma default_merchant_rate :
  JS.div (JS.parseFloat_hundredths 100) (JS.of_int 100)
  = S754_finite false 5764607523034235 (-59).
Proof. vm_compute. reflexivity. Qed.

(** On every amount below 2^31, the binary64 product with 0.01 rounds to
    the same integer as the exact quotient a / 100, halves rounded up. *)
Lemma Math_round_one_percent (a : Z) :
  1 <= a < 2 ^ 31 ->
  JS.Math_round (JS.mul (JS.of_int a) (S754_finite false 5764607523034235 (-59)))
  = (a + 50) / 100.
Proof.
  intros Ha. destruct a as [|p|p]; try lia.
  replace (Zpos p + 50) with (1 * Zpos p + 50) by lia.
  round_product p 31 31%nat 5764607523034235%positive 1 50.
Qed.

(** ** Fees *)

(** X3. The funding fee [Math.round(amount * 0.015)], evaluated in
    binary64, is the integer (3 * amount + 100) / 200: one and a half
    percent to the nearest minor unit, halves up. It stays below the amount,
    so the net amount of a deposit is positive. *)
Theorem fundingFee_integer_rule (amount : Z) :
  1 <= amount < 2 ^ 31 ->
  fundingFee amount = (3 * amount + 100) / 200
  /\ 0 <= fundingFee amount < amount.
Proof.
  intros H. unfold fundingFee. rewrite Math_round_one_and_half_percent by exact H.
  split; [reflexivity|].
  change (2 ^ 31) with 2147483648 in H.
  split; [apply Z.div_pos; lia | apply Z.div_lt_upper_bound; lia].
Qed.

(** X4. The bill fee [Math.max(200, Math.round(amount * 0.015))] is
    max(200, (3 * amount + 100) / 200): the flat 200 for every amount up to
    13366, and one and a half percent, halves up, above. *)
Theorem billFee_integer_rule (amount : Z) :
  1 <= amount < 2 ^ 31 ->
  billFee amount = Z.max 200 ((3 * amount + 100) / 200)
  /\ (amount <= 13366 -> billFee amount = 200)
  /\ (13366 < amount -> billFee amount = (3 * amount + 100) / 200).
Proof.
  intros H. unfold billFee. rewrite Math_round_one_and_half_percent by exact H.
  change (2 ^ 31) with 2147483648 in H.
  split; [reflexivity|]. split; intros Ha.
  - apply Z.max_l. apply Z.lt_succ_r. apply Z.div_lt_upper_bound; lia.
  - apply Z.max_r. apply Z.div_le_lower_bound; lia.
Qed.

Lemma digits2_pos_small (p : positive) :
  Zpos p < 2 ^ 31 -> Zpos (digits2_pos p) < 53.
Proof.
  intros Hp. pose proof (digits2_pos_bounds p) as B.
  destruct (Z.lt_ge_cases (Zpos (digits2_pos p)) 53) as [|Hd]; [assumption|].
  exfalso.
  assert (2 ^ 31 <= 2 ^ (Zpos (digits2_pos p) - 1)) by (apply Z.pow_le_mono_r; lia).
  lia.
Qed.

(** X5. The merchant fee [Math.round(amount * (feePercentage / 100))]: with
    no percentage stored, or with '1.00', it is (amount + 50) / 100, one
    percent with halves up; with the column default '0.00' it is 0. *)
Theorem merchantFee_integer_rule (amount : Z) :
  1 <= amount < 2 ^ 31 ->
  merchantFee amount None = (amount + 50) / 100
  /\ merchantFee amount (Some 100) = (amount + 50) / 100
  /\ merchantFee amount (Some 0) = 0.
Proof.
  intros H. unfold merchantFee.
  rewrite default_merchant_rate, Math_round_one_percent by exact H.
  repeat split.
  destruct amount as [|p|p]; try lia.
  rewrite of_int_canonical by (apply digits2_pos_small; lia).
  reflexivity.
Qed.

Section RestOfTheRouter.

Variable bcrypt_hash : string -> string -> string.
Variable bcrypt_compare : string -> string -> bool.
Variable parseInt : string -> option Z.
Variable startOfDay : Z -> Z.
Variable startOfMonth : Z -> Z.
Variable getBankName : string -> string.
Variable JSON_stringify : QRPayload -> string.
Variable JSON_parse : string -> option QRPayload.

Local Abbreviation run_initialize := (initialize bcrypt_hash).
Local Abbreviation run_transfer := (transfer bcrypt_compare parseInt startOfDay startOfMonth).
Local Abbreviation run_payMerchant := (payMerchant bcrypt_compare).
Local Abbreviation run_payBill := (payBill bcrypt_compare).
Local Abbreviation run_withdraw := (withdraw bcrypt_compare).
Local Abbreviation run_getWallet := (getWallet startOfDay startOfMonth).
Local Abbreviation run_addBank := (addBank getBankName).
Local Abbreviation run_generateQRCode := (generateQRCode JSON_stringify).
Local Abbreviation run_scanQRCode := (scanQRCode bcrypt_compare JSON_parse).

(** ** Opening a wallet *)

(** X1. [initialize], for a user without a wallet and a four-digit PIN,
    appends one wallet: balances 0, daily limit 500000, monthly limit
    2000000. The lookup by user then finds it, the wallets of the other
    users are found as before, the PIN it was opened with is accepted
    (when bcrypt accepts a PIN against its own hash), and a second
    [initialize] of the same user is refused with CONFLICT and changes
    nothing. *)
Theorem initialize_opens_wallet ctx pin salt w :
  pin_ok pin = true ->
  walletOfUser (users.id (user ctx)) (db w) = None ->
  exists w' wallet,
    run_initialize ctx pin salt w = (w', Return wallet)
    /\ tbl_wallets (db w') = tbl_wallets (db w) ++ [wallet]
    /\ wallets.userId wallet = users.id (user ctx)
    /\ wallets.balance wallet = 0
    /\ wallets.availableBalance wallet = 0
    /\ wallets.dailyLimit wallet = 500000
    /\ wallets.monthlyLimit wallet = 2000000
    /\ walletOfUser (users.id (user ctx)) (db w') = Some wallet
    /\ (forall u, u <> users.id (user ctx) ->
                  walletOfUser u (db w') = walletOfUser u (db w))
    /\ (bcrypt_compare pin (bcrypt_hash pin salt) = true ->
        pinValid bcrypt_compare pin wallet = true)
    /\ (forall pin' salt',
          pin_ok pin' = true ->
          run_initialize ctx pin' salt' w'
          = (w', Throw (TRPCError "CONFLICT" "Wallet already exists"))).
Proof.
  intros Hpin Hnone. open_world w. proc_cbv_in Hnone.
  unfold initialize. proc_cbv. rewrite Hpin, Hnone. proc_cbv.
  do 2 eexists. split; [reflexivity|].
  unfold walletOfUser, first_where in *. proc_cbv.
  repeat split.
  - rewrite find_app_fresh by exact Hnone.
    cbn [wallets.userId]. now rewrite Z.eqb_refl.
  - intros u Hu. destruct (find (fun w => wallets.userId w =? u) wallets_) eqn:E.
    + now apply find_app_found.
    + rewrite find_app_fresh by exact E. cbn [wallets.userId].
      now apply Z.eqb_neq in Hu; rewrite Z.eqb_sym, Hu.
  - intros Hok. exact Hok.
  - intros pin' salt' Hpin'. rewrite Hpin'.
    rewrite find_app_fresh by exact Hnone.
    cbn [wallets.userId]. now rewrite Z.eqb_refl.
Qed.

(** X2. The keys of the wallets table are an invariant of the router: when
    no two wallets share an id and no two belong to the same user, the same
    holds after [initialize], [fundWallet], [verifyFunding], [transfer],
    [payMerchant], [payBill], [withdraw] and after a completion callback,
    whether the procedure returns or throws. *)
Theorem wallet_keys_invariant ctx env w :
  wallets_primary_key (db w) = true ->
  wallets_one_per_user (db w) = true ->
  let kept (w' : World) :=
    wallets_primary_key (db w') = true /\ wallets_one_per_user (db w') = true in
  (forall pin salt, kept (exec (run_initialize ctx pin salt) w))
  /\ (forall input gateway, kept (exec (fundWallet ctx input env gateway) w))
  /\ (forall reference gateway, kept (exec (verifyFunding ctx reference env gateway) w))
  /\ (forall input accepted, kept (exec (run_transfer ctx input env accepted) w))
  /\ (forall input, kept (exec (run_payMerchant ctx input env) w))
  /\ (forall input isSuccess, kept (exec (run_payBill ctx input env isSuccess) w))
  /\ (forall input, kept (exec (run_withdraw ctx input env) w))
  /\ (forall later t, kept (exec (runTimer later t) w)).
Proof.
  intros Hpk Hone kept. subst kept. cbv beta. open_world w.
  repeat match goal with |- _ /\ _ => split end; intros.
  - unfold initialize. run_goal; try (wallet_keys; fail).
    unfold wallets_primary_key, wallets_one_per_user in *.
    proc_cbv_in Hpk. proc_cbv_in Hone. proc_cbv.
    rewrite !map_app. cbn [map wallets.id wallets.userId].
    unfold walletOfUser, first_where in Heqo. proc_cbv_in Heqo.
    split; apply distinct_app_fresh; auto using next_serial_fresh.
    now apply find_none_existsb.
  - unfold fundWallet. run_goal; wallet_keys.
  - unfold verifyFunding. run_goal; wallet_keys.
  - unfold transfer. run_goal; wallet_keys.
  - unfold payMerchant. run_goal; wallet_keys.
  - unfold payBill. run_goal; wallet_keys.
  - unfold withdraw. run_goal; wallet_keys.
  - destruct t; unfold runTimer; run_goal; wallet_keys.
Qed.

(** ** Funding, continued *)

(** X6. [fundWallet] never credits: in every outcome the wallets table is
    the one before the call. When it returns, exactly one request has gone
    to the gateway, and the row it has appended belongs to the caller's
    wallet, carries the reference built by the router, the fee
    (3 * amount + 100) / 200 and the net amount amount - fee, which is
    positive, and the caller's balance as both balanceBefore and
    balanceAfter. The reference handed back is the gateway's. *)
Theorem fundWallet_records_pending_deposit ctx input env gateway w w' out :
  fundWallet ctx input env gateway w = (w', out) ->
  tbl_wallets (db w') = tbl_wallets (db w)
  /\ timers w' = timers w
  /\ forall r, out = Return r ->
       exists wallet response t,
         walletOfUser (users.id (user ctx)) (db w) = Some wallet
         /\ gateway = Some response
         /\ paystackLog w'
            = paystackLog w
              ++ [Initialize (users.email (user ctx)) (fund_amount input)
                             (String.append "VH_" (nonce env))
                             (fundingChannels (fund_paymentMethod input))]
         /\ tbl_walletTransactions (db w') = tbl_walletTransactions (db w) ++ [t]
         /\ walletTransactions.walletId t = wallets.id wallet
         /\ walletTransactions.reference t = String.append "VH_" (nonce env)
         /\ walletTransactions.fee t = (3 * fund_amount input + 100) / 200
         /\ walletTransactions.netAmount t
            = fund_amount input - (3 * fund_amount input + 100) / 200
         /\ 0 < walletTransactions.netAmount t
         /\ walletTransactions.balanceBefore t = wallets.balance wallet
         /\ walletTransactions.balanceAfter t = wallets.balance wallet
         /\ fr_reference r = init_reference response.
Proof.
  intros H. open_world w. unfold fundWallet in H. run_in H.
  all: injection H as <- <-; proc_cbv.
  all: split; [reflexivity|]; split; [reflexivity|].
  all: intros res Hres; try discriminate Hres.
  injection Hres as <-.
  unfold fundWalletSchema in Heqb. rewrite !andb_true_iff, !Z.leb_le in Heqb.
  destruct (fundingFee_integer_rule (fund_amount input)) as [Hfee Hlt];
    [change (2 ^ 31) with 2147483648; lia|].
  do 3 eexists. split; [exact Heqo|]. split; [reflexivity|].
  cbn [walletTransactions.walletId walletTransactions.reference
       walletTransactions.fee walletTransactions.netAmount
       walletTransactions.balanceBefore walletTransactions.balanceAfter
       fr_reference].
  rewrite <- Hfee.
  repeat split. cbn [walletTransactions.netAmount]. lia.
Qed.

(** X7. When the gateway refuses a request that has passed the checks (the
    call fails, or the answer has no status), [fundWallet] throws after the
    request has gone out and writes no row: the store is unchanged. *)
Theorem fundWallet_gateway_refusal ctx input env gateway w wallet :
  fundWalletSchema input = true ->
  walletOfUser (users.id (user ctx)) (db w) = Some wallet ->
  match gateway with Some response => init_status response = false | None => True end ->
  fundWallet ctx input env gateway w
  = (mkWorld (db w) (timers w)
       (paystackLog w
        ++ [Initialize (users.email (user ctx)) (fund_amount input)
                       (String.append "VH_" (nonce env))
                       (fundingChannels (fund_paymentMethod input))]),
     Throw (match gateway with
            | Some _ => TRPCError "INTERNAL_SERVER_ERROR" "Failed to initialize payment"
            | None => HttpFailure
            end)).
Proof.
  intros Hschema Hwallet Hgw. open_world w. proc_cbv_in Hwallet.
  unfold fundWallet. proc_cbv. rewrite Hschema, Hwallet. proc_cbv.
  replace (fund_amount input >? 10000000) with false
    by (unfold fundWalletSchema in Hschema;
        rewrite !andb_true_iff, !Z.leb_le in Hschema;
        symmetry; rewrite Z.gtb_ltb; apply Z.ltb_ge; lia).
  destruct gateway as [response|]; [rewrite Hgw|]; reflexivity.
Qed.

(** X8. [verifyFunding] on a reference that names no transaction answers
    NOT_FOUND without asking the gateway. When the transaction exists and the
    gateway does not report success, the transaction is marked failed with
    the gateway's message (or 'Payment failed'), no wallet changes, and the
    call throws BAD_REQUEST; the stored status is not consulted, so this
    also overwrites a completed transaction. *)
Theorem verifyFunding_not_found_or_failed ctx reference env w :
  (transactionByReference reference (db w) = None ->
   forall gateway,
     verifyFunding ctx reference env gateway w
     = (w, Throw (TRPCError "NOT_FOUND" "Transaction not found")))
  /\
  (forall t response,
     transactionByReference reference (db w) = Some t ->
     verify_status response = false \/ verify_data_status response <> "success" ->
     exists w',
       verifyFunding ctx reference env (Some response) w
       = (w', Throw (TRPCError "BAD_REQUEST" "Payment verification failed"))
       /\ tbl_wallets (db w') = tbl_wallets (db w)
       /\ paystackLog w' = paystackLog w ++ [Verify reference]
       /\ transactionByReference reference (db w')
          = Some (walletTransactions.set_completedAt (now env)
                    (walletTransactions.set_failureReason
                       (failureMessage (verify_message response))
                       (walletTransactions.set_status "failed" t)))).
Proof.
  open_world w. split.
  - intros Hnone gateway. proc_cbv_in Hnone.
    unfold verifyFunding. proc_cbv. now rewrite Hnone.
  - intros t response Ht Hfail. proc_cbv_in Ht.
    unfold verifyFunding. proc_cbv. rewrite Ht. proc_cbv.
    assert ((if verify_status response then false else true)
            || (if String.eqb (verify_data_status response) "success"
                then false else true) = true) as ->.
    { destruct Hfail as [->|Hne]; [reflexivity|].
      apply String.eqb_neq in Hne. rewrite Hne. apply orb_true_r. }
    proc_cbv. eexists. split; [reflexivity|]. repeat split.
    unfold transactionByReference, first_where in *. proc_cbv. proc_cbv_in Ht.
    rewrite find_update_where by reflexivity.
    rewrite Ht. cbn [option_map].
    apply find_some in Ht. destruct Ht as [_ ->]. reflexivity.
Qed.

(** X9. Funding, end to end. A request that passes the schema, from a user
    with a wallet, with a fresh reference and a gateway that accepts it and
    echoes the reference, followed by a verification of the reference handed
    back that the gateway confirms, the credited balances fitting the
    integer columns: the wallet's balance and available balance have each
    gone up by the amount less the fee (3 * amount + 100) / 200, and the
    deposit is completed and satisfies
    balanceAfter = balanceBefore + netAmount. *)
Theorem fundWallet_then_verifyFunding ctx input env env' init verify w wallet :
  let uid := users.id (user ctx) in
  let amount := fund_amount input in
  let net := amount - (3 * amount + 100) / 200 in
  let reference := String.append "VH_" (nonce env) in
  wallets_primary_key (db w) = true ->
  fundWalletSchema input = true ->
  walletOfUser uid (db w) = Some wallet ->
  transactionByReference reference (db w) = None ->
  init_status init = true ->
  init_reference init = reference ->
  verify_status verify = true ->
  verify_data_status verify = "success" ->
  int4 (wallets.balance wallet + net) = true ->
  int4 (wallets.availableBalance wallet + net) = true ->
  exists w1 r w2 t,
    fundWallet ctx input env (Some init) w = (w1, Return r)
    /\ verifyFunding ctx (fr_reference r) env' (Some verify) w1
       = (w2, Return (mkVerifyFundingResult true amount (wallets.balance wallet + net)))
    /\ walletOfUser uid (db w2)
       = Some (wallets.set_lastTransactionAt (now env')
                 (wallets.set_availableBalance (wallets.availableBalance wallet + net)
                    (wallets.set_balance (wallets.balance wallet + net) wallet)))
    /\ transactionByReference reference (db w2) = Some t
    /\ walletTransactions.status t = "completed"
    /\ walletTransactions.netAmount t = net
    /\ ledgerEquation t.
Proof.
  intros uid amount net reference Hpk Hschema Hwallet Hfresh Hinit Hecho Hv Hvd
    Hbalance Havailable.
  subst uid amount net reference. open_world w.
  pose proof Hschema as Hrange.
  unfold fundWalletSchema in Hrange. rewrite !andb_true_iff, !Z.leb_le in Hrange.
  destruct (fundingFee_integer_rule (fund_amount input)) as [Hfee _];
    [change (2 ^ 31) with 2147483648; lia|].
  unfold transactionByReference, walletOfUser, first_where in *.
  proc_cbv_in Hwallet. proc_cbv_in Hfresh.
  assert (find (fun w => wallets.id w =? wallets.id wallet) wallets_ = Some wallet)
    as Hbyid.
  { destruct (find (fun w => wallets.id w =? wallets.id wallet) wallets_) as [x|] eqn:E.
    - apply find_some in E. destruct E as [Hin Hid]. apply Z.eqb_eq in Hid.
      apply find_some in Hwallet. destruct Hwallet as [Hin' _].
      f_equal. apply (NoDup_map_inj wallets.id wallets_); auto.
      apply distinct_NoDup. exact Hpk.
    - apply find_some in Hwallet. destruct Hwallet as [Hin' _].
      apply (find_none _ _ E) in Hin'. now rewrite Z.eqb_refl in Hin'. }
  unfold fundWallet, walletOfUser, transactionByReference, first_where.
  proc_cbv. rewrite Hschema, Hwallet. proc_cbv.
  replace (fund_amount input >? 10000000) with false
    by (symmetry; rewrite Z.gtb_ltb; apply Z.ltb_ge; lia).
  rewrite Hinit. cbn [walletTransactions.reference].
  unfold transactionByReference, first_where. proc_cbv. rewrite Hfresh.
  do 4 eexists. split; [reflexivity|].
  cbn [fr_reference]. rewrite Hecho.
  unfold verifyFunding, walletById, transactionByReference, first_where. proc_cbv.
  rewrite (find_app_fresh _ _ _ Hfresh).
  cbn [walletTransactions.reference]. rewrite String.eqb_refl. proc_cbv.
  rewrite Hv, Hvd. cbn [orb String.eqb Ascii.eqb Bool.eqb]. proc_cbv.
  cbn [walletTransactions.walletId]. rewrite Hbyid. proc_cbv.
  cbn [walletTransactions.netAmount walletTransactions.amount].
  rewrite Hfee, Hbalance, Havailable.
  split; [reflexivity|].
  unfold walletOfUser, transactionByReference, first_where. proc_cbv.
  rewrite !find_update_where by reflexivity.
  rewrite Hwallet. cbn [option_map]. rewrite Z.eqb_refl.
  rewrite (find_app_fresh _ _ _ Hfresh).
  cbn [walletTransactions.reference]. rewrite String.eqb_refl.
  cbn [option_map]. rewrite String.eqb_refl.
  split; [reflexivity|]. split; [reflexivity|].
  repeat split.
Qed.

(** ** Units of work *)

(** X10. [transfer], [payMerchant] and [payBill] are all-or-nothing: when
    one of them throws, at a check or inside [db.transaction], the world is
    the one before the call: no balance has moved, no row is left, no
    callback is pending. *)
Theorem unit_of_work_all_or_nothing ctx env w w' e :
  (forall input accepted,
     run_transfer ctx input env accepted w = (w', Throw e) -> w' = w)
  /\ (forall input, run_payMerchant ctx input env w = (w', Throw e) -> w' = w)
  /\ (forall input isSuccess,
        run_payBill ctx input env isSuccess w = (w', Throw e) -> w' = w).
Proof.
  open_world w. repeat split; intros.
  - unfold transfer in H. run_in H. all: injection H as <- _; reflexivity.
  - unfold payMerchant in H. run_in H. all: injection H as <- _; reflexivity.
  - unfold payBill in H. run_in H. all: injection H as <- _; reflexivity.
Qed.

(** X11. [withdraw] does not run in a unit of work, but every check it
    makes comes before its first write, and the hold is inserted first:
    as long as a withdrawal reference met in the transactions table also
    has its hold (which [withdraw] itself maintains), a [withdraw] that
    throws leaves the world as it was. *)
Theorem withdraw_throw_leaves_world ctx input env w w' e :
  (holdByReference (String.append "WDL_" (nonce env)) (db w) = None ->
   transactionByReference (String.append "WDL_" (nonce env)) (db w) = None) ->
  run_withdraw ctx input env w = (w', Throw e) ->
  w' = w.
Proof.
  intros Hinv H. open_world w. unfold withdraw in H. run_in H.
  all: try (injection H as <- _; reflexivity).
  exfalso.
  unfold holdByReference, transactionByReference, first_where in *.
  proc_cbv_in Hinv. proc_cbv_in Heqo1. proc_cbv_in Heqo2.
  cbn [walletHolds.reference] in Heqo1.
  cbn [walletTransactions.reference] in Heqo2.
  rewrite (Hinv Heqo1) in Heqo2. discriminate Heqo2.
Qed.

(** ** Money in the system *)

(** X13. A merchant payment that returns takes exactly the fee out of the
    wallets when the payer is not the merchant. The router does not refuse
    a merchant who pays itself: both updates then hit the same wallet, the
    second computed from the balance read before the first, and the wallet
    ends with the amount less the fee more than it had, while the balance
    reported back is the debited one. *)
Theorem payMerchant_total_balance ctx input env w w' r merchant wallet :
  wallets_primary_key (db w) = true ->
  run_payMerchant ctx input env w = (w', Return r) ->
  merchantById (merchant_merchantId input) (db w) = Some merchant ->
  walletOfUser (users.id (user ctx)) (db w) = Some wallet ->
  (walletMerchants.userId merchant <> users.id (user ctx) ->
   totalBalance (db w') = totalBalance (db w) - mr_fee r)
  /\ (walletMerchants.userId merchant = users.id (user ctx) ->
      totalBalance (db w') = totalBalance (db w) + (mr_amount r - mr_fee r)
      /\ option_map wallets.balance (walletOfUser (users.id (user ctx)) (db w'))
         = Some (wallets.balance wallet + (mr_amount r - mr_fee r))
      /\ mr_newBalance r = wallets.balance wallet - mr_amount r).
Proof.
  intros Hpk H Hm Hw. open_world w. proc_cbv_in Hm. proc_cbv_in Hw.
  unfold payMerchant in H. proc_cbv_in H.
  repeat (first [rewrite Hw in H | rewrite Hm in H | branch_in H];
          proc_cbv_in H; try discriminate H).
  all: injection H as <- <-; unfold totalBalance; proc_cbv.
  all: match goal with
       | Hx : walletOfUser (walletMerchants.userId _) _ = Some _ |- _ =>
           rename Hx into Hmw
       end.
  all: pose proof (walletById_of_user _ _ _ Hpk Hw) as Hs.
  all: pose proof (walletById_of_user _ _ _ Hpk Hmw) as Hr.
  all: unfold walletById, first_where in Hs, Hr; proc_cbv_in Hs; proc_cbv_in Hr.
  all: pose proof (distinct_NoDup _ Hpk) as Hnd; proc_cbv_in Hnd.
  all: split; intros Hself.
  all: try (pose proof (wallets_of_distinct_users _ _ _ _ _ Hpk Hw Hmw
                          (fun E => Hself (eq_sym E))) as Hids;
            erewrite total_update_where;
            [ | rewrite map_update_where by reflexivity; exact Hnd
              | rewrite find_update_where by reflexivity; rewrite Hr;
                cbn [option_map]; rewrite Z.eqb_sym, Hids; reflexivity ];
            erewrite total_update_where; [ | exact Hnd | exact Hs ];
            cbn [wallets.balance wallets.set_balance wallets.set_availableBalance
                 wallets.set_lastTransactionAt mr_fee]; lia).
  all: rewrite Hself in Hmw; rewrite Hw in Hmw; injection Hmw as <-.
  all: cbn [mr_amount mr_fee mr_newBalance].
  all: (split; [|split; [|reflexivity]]).
  all: try (erewrite total_update_where;
            [ | rewrite map_update_where by reflexivity; exact Hnd
              | rewrite find_update_where by reflexivity; rewrite Hs;
                cbn [option_map]; rewrite Z.eqb_refl; reflexivity ];
            erewrite total_update_where; [ | exact Hnd | exact Hs ];
            cbn [wallets.balance wallets.set_balance wallets.set_availableBalance
                 wallets.set_lastTransactionAt]; lia).
  all: unfold walletOfUser, first_where in *; proc_cbv; proc_cbv_in Hw.
  all: rewrite !find_update_where by reflexivity.
  all: rewrite Hw; cbn [option_map]; rewrite Z.eqb_refl.
  all: cbn [wallets.id wallets.set_balance wallets.set_availableBalance
            wallets.set_lastTransactionAt]; rewrite Z.eqb_refl.
  all: cbn [option_map wallets.balance]; f_equal; lia.
Qed.

(** ** The transfer on the store of the schema *)

(** X12. On the store of the schema a transfer never completes. Whatever
    the request and the state of the store, [transfer] throws and leaves the
    world as it was: a request that passes every check runs its unit of
    work up to the cache statement, the store refuses that statement
    ([wallet_recipients] has no unique index on the conflict target), and
    the debit, the credit and the three rows are undone. *)
Theorem transfer_never_completes ctx input env w :
  exists e,
    run_transfer ctx input env schemaAcceptsRecipientUpsert w = (w, Throw e).
Proof.
  open_world w. change schemaAcceptsRecipientUpsert with false.
  unfold transfer. run_goal.
  all: eexists; reflexivity.
Qed.

(** The rows of type 'transfer' after a run of updates and insertions. *)
Ltac no_transfer_rows :=
  unfold noTransferRows in *; proc_cbv;
  rewrite ?forallb_app, ?forallb_update_where by reflexivity;
  cbn [forallb walletTransactions.type String.eqb Ascii.eqb Bool.eqb negb andb];
  rewrite ?andb_true_r;
  auto.

(** X14. The totals behind the limits on the store of the schema. No
    procedure leaves a row of type 'transfer' in the ledger: the two rows
    of that type are written by [transfer], whose unit of work is undone.
    A ledger without such rows stays without them after every procedure and
    callback, and in such a ledger the daily and monthly totals the limit
    check of [transfer] sums are 0 for every wallet and every window. *)
Theorem transfer_limit_totals_stay_zero ctx env w :
  noTransferRows (db w) = true ->
  (forall walletId since, transferTotalSince walletId since (db w) = 0)
  /\ let kept (w' : World) := noTransferRows (db w') = true in
     (forall pin salt, kept (exec (run_initialize ctx pin salt) w))
     /\ (forall input gateway, kept (exec (fundWallet ctx input env gateway) w))
     /\ (forall reference gateway, kept (exec (verifyFunding ctx reference env gateway) w))
     /\ (forall input,
           kept (exec (run_transfer ctx input env schemaAcceptsRecipientUpsert) w))
     /\ (forall input, kept (exec (run_payMerchant ctx input env) w))
     /\ (forall input isSuccess, kept (exec (run_payBill ctx input env isSuccess) w))
     /\ (forall input, kept (exec (run_withdraw ctx input env) w))
     /\ (forall later t, kept (exec (runTimer later t) w)).
Proof.
  intros Hnone. split.
  - intros walletId since. unfold transferTotalSince. apply sum_amounts_none.
    intros t Ht. unfold noTransferRows in Hnone.
    rewrite forallb_forall in Hnone. specialize (Hnone t Ht).
    apply negb_true_iff in Hnone. rewrite Hnone. apply andb_false_r.
  - cbv zeta. open_world w. change schemaAcceptsRecipientUpsert with false.
    repeat match goal with |- _ /\ _ => split end; intros.
    + unfold initialize. run_goal; no_transfer_rows.
    + unfold fundWallet. run_goal; no_transfer_rows.
    + unfold verifyFunding. run_goal; no_transfer_rows.
    + unfold transfer. run_goal; no_transfer_rows.
    + unfold payMerchant. run_goal; no_transfer_rows.
    + unfold payBill. run_goal; no_transfer_rows.
    + unfold withdraw. run_goal; no_transfer_rows.
    + destruct t; unfold runTimer; run_goal; no_transfer_rows.
Qed.

(** ** Completion callbacks *)

(** X16. A bill payment and its completion. When [payBill] returns, its
    callback is the last one pending; once it has run, the transaction of
    the payment is completed, it satisfies
    balanceAfter = balanceBefore + netAmount with the balance the payment
    reported, and the bill is completed as well. *)
Theorem payBill_then_completion ctx input env w w' r later :
  run_payBill ctx input env true w = (w', Return r) ->
  exists billId t bill,
    timers w' = timers w ++ [BillCompletion billId (br_reference r)]
    /\ let settled := exec (runTimer later (BillCompletion billId (br_reference r))) w' in
       transactionByReference (br_reference r) (db settled) = Some t
       /\ walletTransactions.status t = "completed"
       /\ walletTransactions.completedAt t = Some later
       /\ walletTransactions.netAmount t = - br_totalAmount r
       /\ walletTransactions.balanceAfter t = br_newBalance r
       /\ ledgerEquation t
       /\ tbl_walletBills (db settled) = tbl_walletBills (db w) ++ [bill]
       /\ walletBills.id bill = billId
       /\ walletBills.status bill = "completed"
       /\ walletBills.amount bill = br_amount r
       /\ walletBills.fee bill = br_fee r.
Proof.
  intros H. open_world w. unfold payBill in H. run_in H.
  injection H as <- <-. proc_cbv.
  unfold transactionByReference, first_where in *. proc_cbv_in Heqo0.
  cbn [walletTransactions.reference] in Heqo0.
  do 3 eexists. split; [reflexivity|].
  cbn [br_reference br_totalAmount br_newBalance br_amount br_fee].
  unfold runTimer. proc_cbv.
  rewrite find_update_where by reflexivity.
  rewrite (find_app_fresh _ _ _ Heqo0).
  cbn [walletTransactions.reference]. rewrite String.eqb_refl.
  cbn [option_map]. rewrite String.eqb_refl.
  split; [reflexivity|].
  unfold ledgerEquation.
  cbn [walletTransactions.status walletTransactions.completedAt
       walletTransactions.netAmount walletTransactions.balanceAfter
       walletTransactions.balanceBefore
       walletTransactions.set_status walletTransactions.set_completedAt].
  do 5 (split; [try reflexivity; lia|]).
  rewrite update_where_app, (update_where_serial walletBills.id).
  cbn [update_where map walletBills.id]. rewrite Z.eqb_refl.
  split; [reflexivity|]. repeat split.
Qed.



(** ** The wallet view *)

(** X20. [getWallet] reads only. Its statistics sum the signed amounts of
    the completed transfer, payment and withdrawal rows of the caller's
    wallet, so after a merchant payment that returns the payer's view, taken
    at a time whose day and month started before the payment, shows a
    balance lower by the amount, a spent total lower by the amount and a
    remaining limit higher by the amount, for the day and for the month
    (the payer not being the merchant). *)
Theorem getWallet_after_payMerchant ctx input env env' w w' r v merchant :
  wallets_primary_key (db w) = true ->
  run_payMerchant ctx input env w = (w', Return r) ->
  merchantById (merchant_merchantId input) (db w) = Some merchant ->
  walletMerchants.userId merchant <> users.id (user ctx) ->
  startOfDay (now env') <= now env ->
  startOfMonth (now env') <= now env ->
  run_getWallet ctx env' w = (w, Return v) ->
  exists v',
    run_getWallet ctx env' w' = (w', Return v')
    /\ view_balance v' = view_balance v - mr_amount r
    /\ view_availableBalance v' = view_availableBalance v - mr_amount r
    /\ dailySpent (view_stats v') = dailySpent (view_stats v) - mr_amount r
    /\ monthlySpent (view_stats v') = monthlySpent (view_stats v) - mr_amount r
    /\ dailyLimitRemaining (view_stats v')
       = dailyLimitRemaining (view_stats v) + mr_amount r
    /\ monthlyLimitRemaining (view_stats v')
       = monthlyLimitRemaining (view_stats v) + mr_amount r.
Proof.
  intros Hpk H Hm Hother Hday Hmonth Hview. open_world w. proc_cbv_in Hm.
  unfold payMerchant in H. proc_cbv_in H.
  repeat (first [rewrite Hm in H | branch_in H]; proc_cbv_in H; try discriminate H).
  all: injection H as <- <-.
  all: match goal with
       | Hx : walletOfUser (users.id (user _)) _ = Some _ |- _ => rename Hx into Hpayer
       end.
  all: match goal with
       | Hx : walletOfUser (walletMerchants.userId _) _ = Some _ |- _ =>
           rename Hx into Hshop
       end.
  all: unfold getWallet in *; proc_cbv_in Hview; proc_cbv.
  all: proc_cbv_in Hpayer; rewrite Hpayer in Hview; injection Hview as <-.
  all: pose proof (wallets_of_distinct_users _ _ _ _ _ Hpk Hpayer Hshop
                     (fun E => Hother (eq_sym E))) as Hids.
  all: pose proof (distinct_NoDup _ Hpk) as Hnd; proc_cbv_in Hnd.
  all: pose proof Hpayer as Hin0; unfold walletOfUser, first_where in Hin0;
    proc_cbv_in Hin0; apply find_some in Hin0; destruct Hin0 as [Hin0 Hu0].
  all: pose proof Hshop as Hin2; unfold walletOfUser, first_where in Hin2;
    proc_cbv_in Hin2; apply find_some in Hin2; destruct Hin2 as [Hin2 Hu2].
  all: match type of Hu2 with
       | (?x =? _) = true =>
           assert ((x =? users.id (user ctx)) = false) as Hu2'
             by (apply Z.eqb_eq in Hu2; rewrite Hu2; apply Z.eqb_neq; exact Hother)
       end.
  all: apply Z.leb_le in Hday, Hmonth.
  all: unfold walletOfUser, first_where in *; proc_cbv; proc_cbv_in Hpayer.
  all: rewrite !find_update_where by reflexivity.
  all: rewrite Hpayer; cbn [option_map]; rewrite Z.eqb_refl.
  all: cbn [wallets.id wallets.set_balance wallets.set_availableBalance
            wallets.set_lastTransactionAt]; rewrite Hids.
  all: eexists; split; [reflexivity|].
  all: cbn [view_balance view_availableBalance view_stats dailySpent monthlySpent
            dailyLimitRemaining monthlyLimitRemaining
            wallets.balance wallets.availableBalance wallets.dailyLimit
            wallets.monthlyLimit mr_amount].
  all: match type of Hin0 with
       | In ?pw _ =>
         match type of Hin2 with
         | In ?mw _ =>
           match goal with
           | |- context [spendTotalSince ?u _ ?d'] =>
               assert (forall since, (since <=? now env) = true ->
                         spendTotalSince u since d'
                         = spendTotalSince u since
                             (mkDb users_ wallets_ transactions_ holds_ banks_
                                   merchants_ bills_ recipients_)
                           - merchant_amount input) as Hspent
                 by (intros since Hsince;
                     erewrite (spendTotalSince_append _ _
                                 (mkDb users_ wallets_ transactions_ holds_ banks_
                                       merchants_ bills_ recipients_));
                     [ | cbn [tbl_wallets]; rewrite !map_update_where by reflexivity;
                         reflexivity
                       | cbn [tbl_wallets]; rewrite !map_update_where by reflexivity;
                         reflexivity
                       | cbn [tbl_walletTransactions]; rewrite <- ?app_assoc;
                         cbn [app]; reflexivity ];
                     cbn [filter walletTransactions.createdAt walletTransactions.status
                          walletTransactions.type spendKind];
                     rewrite Hsince;
                     cbn [andb orb String.eqb Ascii.eqb Bool.eqb spendKind
                          walletTransactions.type];
                     rewrite joined_cons, sum_amounts_app;
                     rewrite (joined_one _ _ _ pw), (joined_one _ _ _ mw)
                       by (assumption || reflexivity);
                     rewrite Hu0, Hu2';
                     cbn [sum_amounts fold_right walletTransactions.amount]; lia)
           end
         end
       end.
  all: rewrite !Hspent by assumption.
  all: repeat split;
    cbn [wallets.dailyLimit wallets.monthlyLimit wallets.set_balance
         wallets.set_availableBalance wallets.set_lastTransactionAt];
    lia.
Qed.

(** ** Bank accounts *)

(** X21. [addBank] outside production: whatever the verification service
    answers, and also when the call fails, a request that passes the schema
    and fits the columns appends the account as verified, and the lookup
    [withdraw] performs finds it for its owner. In production the account
    is appended (as verified) exactly when the service answers with a
    status; otherwise the call throws 'Failed to verify bank account' and
    nothing changes: the error raised inside the [try] is caught by its own
    [catch], so its message 'Bank account verification failed' never leaves
    the procedure. *)
Theorem addBank_verification ctx input production gateway w :
  addBankSchema input = true ->
  bankColumnsFit (getBankName (bank_bankCode input)) input = true ->
  let accepted :=
    negb production
    || match gateway with Some response => validate_status response | None => false end in
  let bank :=
    walletBanks.mk (next_serial (map walletBanks.id (tbl_walletBanks (db w))))
                   (users.id (user ctx)) (getBankName (bank_bankCode input))
                   (bank_accountNumber input) true in
  (accepted = true ->
   exists w',
     run_addBank ctx input production gateway w = (w', Return bank)
     /\ tbl_walletBanks (db w') = tbl_walletBanks (db w) ++ [bank]
     /\ tbl_wallets (db w') = tbl_wallets (db w)
     /\ bankOfUser (walletBanks.id bank) (users.id (user ctx)) (db w') = Some bank
     /\ walletBanks.isVerified bank = true)
  /\ (accepted = false ->
      run_addBank ctx input production gateway w
      = (w, Throw (TRPCError "BAD_REQUEST" "Failed to verify bank account"))).
Proof.
  intros Hschema Hfit accepted bank. subst accepted bank. open_world w.
  unfold addBank. rest_cbv. rewrite Hschema, Hfit. rest_cbv.
  split; intros Hacc.
  - destruct gateway as [response|]; rest_cbv;
      [destruct (validate_status response) eqn:Hst; rest_cbv|];
      destruct production; try discriminate Hacc; rest_cbv.
    all: eexists; split; [reflexivity|].
    all: split; [reflexivity|]; split; [reflexivity|]; split; [|reflexivity].
    all: unfold bankOfUser, first_where; rest_cbv.
    all: cbn [walletBanks.id].
    all: rewrite find_app_fresh
      by apply (find_serial_none walletBanks.id
                  (fun b => walletBanks.userId b =? users.id (user ctx))).
    all: cbn [walletBanks.id walletBanks.userId]; now rewrite !Z.eqb_refl.
  - destruct gateway as [response|]; rest_cbv;
      [destruct (validate_status response) eqn:Hst; rest_cbv|];
      destruct production; try discriminate Hacc; reflexivity.
Qed.

(** ** QR codes *)


(** X23. A code and its scan. A payee generates a code for an amount; the
    text of the code parses back to the object that was written. A payer
    with another wallet, the right PIN and the amount available then scans
    it, at any later time (a generated code has no expiry): the scan answers
    success with the amount and the payee, the code counts its first scan,
    and the ledger is the one from before the code was generated: neither
    wallet has changed. *)
Theorem generateQRCode_then_scanQRCode
  payee payer input pin env env' qw qw1 code amount payeeWallet payerWallet :
  wallets_primary_key (db (ledger qw)) = true ->
  run_generateQRCode payee input env qw = (qw1, Return code) ->
  gen_amount input = Some amount ->
  walletOfUser (users.id (user payee)) (db (ledger qw)) = Some payeeWallet ->
  JSON_parse (walletQRCodes.qrData code)
  = Some (mkQRPayload "varsityhub_payment" (users.id (user payee))
                      (wallets.id payeeWallet) (walletQRCodes.reference code)
                      (Some amount) (gen_description input) (now env)) ->
  users.id (user payer) <> users.id (user payee) ->
  walletOfUser (users.id (user payer)) (db (ledger qw)) = Some payerWallet ->
  pin_ok pin = true ->
  pinValid bcrypt_compare pin payerWallet = true ->
  amount <= wallets.availableBalance payerWallet ->
  exists qw2,
    run_scanQRCode payer (mkScanQRInput (walletQRCodes.qrData code) pin) env' qw1
    = (qw2, Return (mkScanQRResult true amount (users.id (user payee))
                      (orDefault (gen_description input) "QR code payment")))
    /\ ledger qw2 = ledger qw
    /\ qrByReference (walletQRCodes.reference code) qw2
       = Some (walletQRCodes.set_scanCount 1 code).
Proof.
  intros Hpk Hgen Hamount Hpayee Hparse Hother Hpayer Hpin Hvalid Hfunds.
  unfold generateQRCode in Hgen. rewrite Hpayee in Hgen.
  destruct (generateQRSchema input) eqn:Hschema; cbv [negb] in Hgen;
    [|discriminate Hgen].
  destruct (qrByReference (String.append "QR_" (nonce env)) qw) eqn:Hfresh;
    [discriminate Hgen|].
  injection Hgen as <- <-.
  cbn [walletQRCodes.qrData walletQRCodes.reference] in *.
  assert (0 < amount) as Hpos.
  { unfold generateQRSchema in Hschema. rewrite Hamount in Hschema.
    apply andb_true_iff in Hschema. destruct Hschema as [Hschema _].
    now apply Z.ltb_lt in Hschema. }
  pose proof (walletById_of_user _ _ _ Hpk Hpayee) as Hbyid.
  assert ((wallets.userId payeeWallet =? users.id (user payer)) = false) as Hnotself.
  { unfold walletOfUser, first_where in Hpayee. apply find_some in Hpayee.
    destruct Hpayee as [_ Hu]. apply Z.eqb_eq in Hu. rewrite Hu.
    apply Z.eqb_neq. congruence. }
  unfold scanQRCode. cbn [scan_pin scan_qrData ledger]. rewrite Hpin, Hparse.
  cbv [negb]. cbn [qr_type qr_reference qr_walletId qr_amount qr_userId].
  rewrite String.eqb_refl.
  unfold qrByReference, first_where in *. cbn [tbl_walletQRCodes].
  rewrite (find_app_fresh _ _ _ Hfresh).
  cbn [walletQRCodes.reference]. rewrite String.eqb_refl.
  cbn [walletQRCodes.isActive walletQRCodes.expiresAt walletQRCodes.amount
       walletQRCodes.description walletQRCodes.id].
  rewrite Hpayer, Hvalid, Hbyid, Hnotself, Hamount.
  unfold orElse.
  replace (amount =? 0) with false by (symmetry; apply Z.eqb_neq; lia).
  replace (amount <=? 0) with false by (symmetry; apply Z.leb_gt; lia).
  replace (amount >? wallets.availableBalance payerWallet) with false
    by (symmetry; rewrite Z.gtb_ltb; apply Z.ltb_ge; lia).
  eexists. split; [reflexivity|]. split; [reflexivity|].
  cbn [tbl_walletQRCodes].
  rewrite find_update_where by reflexivity.
  rewrite (find_app_fresh _ _ _ Hfresh).
  cbn [walletQRCodes.reference]. rewrite String.eqb_refl.
  cbn [option_map walletQRCodes.id]. rewrite Z.eqb_refl. reflexivity.
Qed.

(** ** The checks of WalletSecurity, after a merchant payment *)

(** X27. [checkDuplicateTransaction] compares the stored amount with the
    amount it is given. A merchant payment that returns is recorded for the
    payer as a negative amount: asked about the payer's wallet and the
    amount paid, the check answers after the payment what it answered
    before (the payer not being the merchant); asked about the negated
    amount, without a recipient and within a window that reaches back to
    the payment, it answers true. *)
Theorem payMerchant_and_duplicate_check ctx input env w w' r merchant :
  wallets_primary_key (db w) = true ->
  run_payMerchant ctx input env w = (w', Return r) ->
  merchantById (merchant_merchantId input) (db w) = Some merchant ->
  walletMerchants.userId merchant <> users.id (user ctx) ->
  exists senderWallet,
    walletOfUser (users.id (user ctx)) (db w) = Some senderWallet
    /\ (forall recipientId withinMinutes now',
          checkDuplicateTransaction (wallets.id senderWallet) (merchant_amount input)
                                    recipientId withinMinutes now' (db w')
          = checkDuplicateTransaction (wallets.id senderWallet) (merchant_amount input)
                                      recipientId withinMinutes now' (db w))
    /\ (forall withinMinutes now',
          now' - withinMinutes * 60 * 1000 <= now env ->
          checkDuplicateTransaction (wallets.id senderWallet) (- merchant_amount input)
                                    None withinMinutes now' (db w')
          = true).
Proof.
  intros Hpk H Hm Hother. open_world w. proc_cbv_in Hm.
  unfold payMerchant in H. proc_cbv_in H.
  repeat (first [rewrite Hm in H | branch_in H]; proc_cbv_in H; try discriminate H).
  all: injection H as <- <-; proc_cbv.
  all: match goal with
       | Hx : walletOfUser (users.id (user _)) _ = Some _ |- _ => rename Hx into Hpayer
       end.
  all: match goal with
       | Hx : walletOfUser (walletMerchants.userId _) _ = Some _ |- _ =>
           rename Hx into Hshop
       end.
  all: match goal with
       | Hx : payMerchantSchema _ = true |- _ => rename Hx into Hschema
       end.
  all: pose proof (wallets_of_distinct_users _ _ _ _ _ Hpk Hpayer Hshop
                     (fun E => Hother (eq_sym E))) as Hids.
  all: pose proof Hids as Hids'; rewrite Z.eqb_sym in Hids'.
  all: unfold payMerchantSchema in Hschema;
    rewrite !andb_true_iff, Z.leb_le in Hschema.
  all: eexists; split; [exact Hpayer|].
  all: unfold checkDuplicateTransaction, first_where; cbv zeta; proc_cbv.
  all: rewrite <- ?app_assoc; cbn [app].
  all: split; [intros recipientId withinMinutes now' | intros withinMinutes now' Hwindow].
  all: rewrite !found_existsb, existsb_app.
  all: cbn [existsb walletTransactions.walletId walletTransactions.amount
            walletTransactions.status walletTransactions.createdAt
            walletTransactions.receiverId].
  all: rewrite ?Hids'.
  1, 3: replace (- merchant_amount input =? merchant_amount input) with false
      by (symmetry; apply Z.eqb_neq; lia);
    rewrite ?andb_false_r; cbn [andb orb]; now rewrite orb_false_r.
  all: apply Z.leb_le in Hwindow; rewrite !Z.eqb_refl, Hwindow.
  all: cbn [andb String.eqb Ascii.eqb Bool.eqb orb]; apply orb_true_r.
Qed.

(** ** What the store refuses *)

(** X31. A credit that leaves the range of the integer columns. When the
    gateway confirms a funding whose net amount would take the balance or
    the available balance of the wallet past the 32-bit range, the store
    refuses the update of the wallet: [verifyFunding] throws after the
    request to the gateway has gone out, nothing is credited and the
    transaction keeps the status it had. *)
Theorem verifyFunding_out_of_range ctx reference env response w t wallet :
  transactionByReference reference (db w) = Some t ->
  walletById (walletTransactions.walletId t) (db w) = Some wallet ->
  verify_status response = true ->
  verify_data_status response = "success" ->
  int4 (wallets.balance wallet + walletTransactions.netAmount t) = false
  \/ int4 (wallets.availableBalance wallet + walletTransactions.netAmount t) = false ->
  exists column,
    verifyFunding ctx reference env (Some response) w
    = (mkWorld (db w) (timers w) (paystackLog w ++ [Verify reference]),
       Throw (IntegerOutOfRange column)).
Proof.
  intros Ht Hw Hs Hd Hrange. open_world w.
  unfold verifyFunding. proc_cbv. proc_cbv_in Ht. proc_cbv_in Hw.
  rewrite Ht. proc_cbv. rewrite Hs, Hd. cbn [orb String.eqb Ascii.eqb Bool.eqb]. proc_cbv.
  rewrite Hw. proc_cbv.
  destruct (int4 (wallets.balance wallet + walletTransactions.netAmount t)) eqn:Hbalance.
  - destruct Hrange as [Hno|Hno]; [discriminate Hno|]. rewrite Hno.
    eexists. reflexivity.
  - eexists. reflexivity.
Qed.

(** X32. The merchant reference of a payment. [payMerchant] writes the id
    of the merchant into [merchant_id], a column that references the table
    of users: when no user carries that id the store refuses the first row
    of the payment, and [payMerchant] throws and leaves the world as it
    was, whatever else the request is. *)
Theorem payMerchant_needs_user_with_merchant_id ctx input env w merchant :
  merchantById (merchant_merchantId input) (db w) = Some merchant ->
  existsb (fun u => users.id u =? walletMerchants.id merchant) (tbl_users (db w)) = false ->
  exists e, run_payMerchant ctx input env w = (w, Throw e).
Proof.
  intros Hm Hnone. open_world w. proc_cbv_in Hm. proc_cbv_in Hnone.
  unfold payMerchant. proc_cbv.
  repeat (first [rewrite Hm | rewrite Hnone | branch_goal]; proc_cbv).
  all: eexists; reflexivity.
Qed.

End RestOfTheRouter.

(** ** PIN rules of WalletSecurity *)

Lemma pin_ok_digits_only (pin : string) :
  pin_ok pin = (String.length pin =? 4)%nat && digits_only pin.
Proof.
  unfold pin_ok, digits_only.
  destruct (String.length pin =? 4)%nat eqn:E; [|reflexivity].
  apply Nat.eqb_eq in E. rewrite E. reflexivity.
Qed.

(** Close the cases in which the verdict is settled by the check [Hc]. *)
Ltac refuted_by Hc :=
  repeat split; unfold not; intros;
  repeat match goal with
         | H : _ /\ _ |- _ => destruct H
         | H : _ \/ _ |- _ => destruct H
         end;
  subst; try discriminate; try congruence;
  solve [vm_compute in Hc; discriminate Hc].

(** X24. [validatePIN] accepts exactly the four-digit PINs that do not
    consist of one digit four times and are neither '1234' nor '4321';
    every PIN it accepts passes the schema of the router. Of the twelve
    entries of its list of common PINs only '1234' and '4321' can produce
    'PIN is too common': the other ten are refused before, as repeated
    digits. *)
Theorem validatePIN_characterised (pin : string) :
  (valid (validatePIN pin) = true
   <-> pin_ok pin = true /\ four_repeated pin = false
       /\ pin <> "1234" /\ pin <> "4321")
  /\ (verdict_message (validatePIN pin) = Some "PIN is too common"
      <-> pin = "1234" \/ pin = "4321")
  /\ (valid (validatePIN pin) = true -> verdict_message (validatePIN pin) = None).
Proof.
  assert (forall p, In p commonPINs -> p <> "1234" -> p <> "4321" ->
                    four_repeated p = true) as Hrep.
  { intros p Hin H1 H2. cbn [In commonPINs] in Hin.
    repeat (destruct Hin as [<-|Hin]; [try reflexivity; congruence|]).
    destruct Hin. }
  assert (existsb (String.eqb pin) commonPINs = true <-> In pin commonPINs) as Hex.
  { rewrite existsb_exists. split.
    - intros (x & Hin & Hx). apply String.eqb_eq in Hx. now subst.
    - intros Hin. exists pin. split; [assumption | apply String.eqb_refl]. }
  unfold validatePIN. rewrite pin_ok_digits_only.
  destruct (String.length pin =? 4)%nat eqn:Hl; cbn [negb andb valid verdict_message];
    [|refuted_by Hl].
  destruct (digits_only pin) eqn:Hd; cbn [negb valid verdict_message];
    [|refuted_by Hd].
  destruct (four_repeated pin) eqn:Hf; cbn [valid verdict_message];
    [refuted_by Hf|].
  destruct (existsb (String.eqb pin) commonPINs) eqn:He; cbn [valid verdict_message];
    [|refuted_by He].
  pose proof (proj1 Hex eq_refl) as Hin. clear Hex He.
  repeat split; intros; try discriminate; try easy.
  - match goal with H : _ /\ _ |- _ => destruct H as [_ [_ [H1 H2]]] end.
    rewrite (Hrep pin Hin H1 H2) in Hf. discriminate Hf.
  - destruct (String.eqb_spec pin "1234") as [|H1]; [now left|].
    destruct (String.eqb_spec pin "4321") as [|H2]; [now right|].
    rewrite (Hrep pin Hin H1 H2) in Hf. discriminate Hf.
Qed.

(** ** Guards in front of the procedures *)

Lemma to_int_not_nil (z : Z) :
  Z.to_int z <> Decimal.Pos Decimal.Nil /\ Z.to_int z <> Decimal.Neg Decimal.Nil.
Proof.
  split; intros E; pose proof (DecimalZ.of_to z) as Hz; rewrite E in Hz;
    cbn in Hz; subst z; discriminate E.
Qed.

Lemma id_toString_inj (a b : Z) :
  NilZero.string_of_int (Z.to_int a) = NilZero.string_of_int (Z.to_int b) -> a = b.
Proof.
  intros E. apply DecimalZ.to_int_inj.
  pose proof (NilZero.isi (Z.to_int a) (proj1 (to_int_not_nil a))
                (proj2 (to_int_not_nil a))) as Ha.
  pose proof (NilZero.isi (Z.to_int b) (proj1 (to_int_not_nil b))
                (proj2 (to_int_not_nil b))) as Hb.
  rewrite E in Ha. rewrite Ha in Hb. now injection Hb.
Qed.

(** X28. The guards form a hierarchy. Whoever [isAdmin] lets through has
    the role 'admin' and is let through by [isSeller] as well; whoever any
    role guard lets through is the signed-in user that [isAuthenticated]
    returns; a caller who is not signed in gets UNAUTHORIZED from every
    guard, never FORBIDDEN; and a context [adminProcedure] hands on is the
    one [sellerProcedure] and [protectedProcedure] hand on. *)
Theorem guards_hierarchy (ctx : AuthContext) :
  (forall u, isAdmin ctx = Return u ->
             isSeller ctx = Return u /\ session_role u = "admin")
  /\ (forall u, isAdmin ctx = Return u \/ isSeller ctx = Return u
                \/ isOnboarded ctx = Return u ->
                isAuthenticated ctx = Return u /\ auth_user ctx = Some u)
  /\ (auth_user ctx = None ->
      forall guard, In guard [isAuthenticated; isAdmin; isSeller; isOnboarded] ->
        guard ctx = Throw (TRPCError "UNAUTHORIZED"
                             "You must be logged in to access this resource"))
  /\ (forall ctx', adminProcedure ctx = Return ctx' ->
                   sellerProcedure ctx = Return ctx'
                   /\ protectedProcedure ctx = Return ctx').
Proof.
  unfold adminProcedure, sellerProcedure, protectedProcedure, withUser,
    isAdmin, isSeller, isOnboarded, isAuthenticated.
  destruct (auth_user ctx) as [user|] eqn:Huser.
  - destruct (String.eqb (session_role user) "admin") eqn:Hrole;
      destruct (session_isSellerSubscribed user);
      destruct (session_isOnboarded user); cbn [negb andb].
    all: repeat split; intros;
      repeat match goal with
             | H : _ \/ _ |- _ => destruct H
             | H : Return _ = Return _ |- _ => injection H as <-
             end;
      try discriminate; try reflexivity; try tauto.
    all: now apply String.eqb_eq.
  - repeat split; intros;
      repeat match goal with
             | H : _ \/ _ |- _ => destruct H
             | H : In _ _ |- _ => cbn [In] in H
             end;
      subst; cbv beta; rewrite ?Huser;
      try discriminate; try reflexivity; try tauto.
Qed.

(** X29. [rateLimitedProcedure] limits and does not authenticate: when
    the limiter lets the request through, the resolver gets the context as
    it came, also when nobody is signed in, where [protectedProcedure]
    answers UNAUTHORIZED. Two signed-in users share a limiter identifier
    only when they have the same id; callers who are not signed in and have
    no address all share 'anonymous'. *)
Theorem rateLimitedProcedure_does_not_authenticate (ctx : AuthContext) :
  rateLimitedProcedure true ctx = Return ctx
  /\ (auth_user ctx = None ->
      protectedProcedure ctx
      = Throw (TRPCError "UNAUTHORIZED"
                 "You must be logged in to access this resource"))
  /\ (forall ctx2 u1 u2,
        auth_user ctx = Some u1 -> auth_user ctx2 = Some u2 ->
        rateLimitIdentifier ctx = rateLimitIdentifier ctx2 ->
        session_id u1 = session_id u2)
  /\ (auth_user ctx = None -> req_ip ctx = None ->
      rateLimitIdentifier ctx = "anonymous").
Proof.
  unfold rateLimitedProcedure, protectedProcedure, withUser, isAuthenticated,
    rateLimitIdentifier.
  repeat split.
  - intros ->. reflexivity.
  - intros ctx2 u1 u2 -> ->. apply id_toString_inj.
  - intros -> ->. reflexivity.
Qed.

(** * The rest of the router, run

    Each theorem above that has a hypothesis is applied to a scenario. *)

(** Alice opens her wallet in the empty store. *)
Lemma initialize_opens_wallet_witness :
  exists w' wallet,
    initialize Fixture.bcrypt_hash (mkCtx Fixture.alice) "1234" "salt" Fixture.world0
    = (w', Return wallet)
    /\ wallets.balance wallet = 0
    /\ walletOfUser 1 (db w') = Some wallet
    /\ pinValid Fixture.bcrypt_compare "1234" wallet = true.
Proof.
  destruct (initialize_opens_wallet Fixture.bcrypt_hash Fixture.bcrypt_compare
              (mkCtx Fixture.alice) "1234" "salt" Fixture.world0 eq_refl eq_refl)
    as (w' & wallet & Hrun & _ & _ & Hbal & _ & _ & _ & Hfound & _ & Hpin & _).
  exists w', wallet. repeat split; try assumption. apply Hpin. reflexivity.
Defined.

(** The keys still hold after Alice has paid the shop 400000. *)
Lemma wallet_keys_invariant_witness :
  wallets_primary_key (db Scenario.afterPayment) = true
  /\ wallets_one_per_user (db Scenario.afterPayment) = true.
Proof.
  destruct (wallet_keys_invariant Fixture.bcrypt_hash Fixture.bcrypt_compare
              Fixture.parseInt Fixture.startOfDay Fixture.startOfMonth
              (mkCtx Fixture.alice) (Scenario.env 3000 "3000_11111111")
              Scenario.fundedLarge eq_refl eq_refl)
    as (_ & _ & _ & _ & Hpayment & _).
  exact (Hpayment Scenario.pay400000).
Defined.

(** A transfer of 5000 costs the flat 100, and a transfer of 10 as well. *)
Lemma transferFee_integer_rule_witness :
  transferFee 5000 = 100 /\ 10 - transferFee 10 < 0.
Proof.
  split.
  - apply (transferFee_integer_rule 5000); lia.
  - apply (transferFee_integer_rule 10); lia.
Defined.

(** Funding 10000 costs 150. *)
Lemma fundingFee_integer_rule_witness :
  fundingFee 10000 = 150 /\ 0 <= fundingFee 10000 < 10000.
Proof.
  apply (fundingFee_integer_rule 10000). split; [lia | reflexivity].
Defined.

(** A bill of 1000 costs the flat 200, a bill of 20000 costs 300. *)
Lemma billFee_integer_rule_witness : billFee 1000 = 200 /\ billFee 20000 = 300.
Proof.
  split.
  - apply (billFee_integer_rule 1000); [split; [lia | reflexivity] | lia].
  - apply (billFee_integer_rule 20000); [split; [lia | reflexivity] | lia].
Defined.

(** A payment of 1050 to a merchant without a stored percentage costs 11,
    to a merchant with '0.00' nothing. *)
Lemma merchantFee_integer_rule_witness :
  merchantFee 1050 None = 11 /\ merchantFee 1050 (Some 0) = 0.
Proof.
  destruct (merchantFee_integer_rule 1050) as (Hdefault & _ & Hzero);
    [split; [lia | reflexivity]|].
  split; [exact Hdefault | exact Hzero].
Defined.

(** Alice's request to fund 10000 leaves the wallets alone and records a
    deposit with fee 150 and net amount 9850. *)
Lemma fundWallet_records_pending_deposit_witness :
  tbl_wallets (db Scenario.fundingPending) = tbl_wallets (db Scenario.opened)
  /\ exists t,
       tbl_walletTransactions (db Scenario.fundingPending)
       = tbl_walletTransactions (db Scenario.opened) ++ [t]
       /\ walletTransactions.fee t = 150
       /\ walletTransactions.netAmount t = 9850.
Proof.
  destruct (fundWallet_records_pending_deposit
              (mkCtx Fixture.alice) (mkFundWalletInput 10000 "card" None None)
              (Scenario.env 1000 "1000_1_a1b2c3d4")
              (Scenario.gatewayInit "VH_1000_1_a1b2c3d4")
              Scenario.opened Scenario.fundingPending
              (Return (mkFundWalletResult "https://checkout.test/pay"
                         "VH_1000_1_a1b2c3d4" 10000)))
    as (Hwallets & _ & Hreturned); [vm_compute; reflexivity|].
  split; [exact Hwallets|].
  destruct (Hreturned _ eq_refl)
    as (wallet & response & t & _ & _ & _ & Hrows & _ & _ & Hfee & Hnet & _).
  exists t. split; [exact Hrows|]. split; [exact Hfee | exact Hnet].
Defined.

(** The gateway cannot be reached: the request is logged, nothing is stored. *)
Lemma fundWallet_gateway_refusal_witness :
  fundWallet (mkCtx Fixture.alice) (mkFundWalletInput 10000 "card" None None)
             (Scenario.env 1000 "1000_1_a1b2c3d4") None Scenario.opened
  = (mkWorld (db Scenario.opened) []
       [Initialize "alice@campus.test" 10000 "VH_1000_1_a1b2c3d4" ["card"]],
     Throw HttpFailure).
Proof.
  exact (fundWallet_gateway_refusal
           (mkCtx Fixture.alice) (mkFundWalletInput 10000 "card" None None)
           (Scenario.env 1000 "1000_1_a1b2c3d4") None Scenario.opened
           (wallets.mk 1 1 0 0 (Some "salt1234") (Some "salt")
                       500000 2000000 true true None)
           eq_refl eq_refl I).
Defined.

(** Alice's deposit is completed and credited (balance 9850); a later
    verification that the gateway declines marks it failed and leaves the
    balance. *)
Lemma verifyFunding_not_found_or_failed_witness :
  exists w',
    verifyFunding (mkCtx Fixture.alice) "VH_1000_1_a1b2c3d4" (Scenario.env 3000 "")
                  (Some (mkVerifyResponse true (Some "Declined") "failed"))
                  Scenario.fundingVerified
    = (w', Throw (TRPCError "BAD_REQUEST" "Payment verification failed"))
    /\ option_map walletTransactions.status
         (transactionByReference "VH_1000_1_a1b2c3d4" (db w'))
       = Some "failed"
    /\ tbl_wallets (db w') = tbl_wallets (db Scenario.fundingVerified).
Proof.
  destruct (proj2 (verifyFunding_not_found_or_failed
                     (mkCtx Fixture.alice) "VH_1000_1_a1b2c3d4"
                     (Scenario.env 3000 "") Scenario.fundingVerified)
              (walletTransactions.mk 1 "VH_1000_1_a1b2c3d4" "deposit" (Some "card")
                 10000 150 9850 0 9850 None None None "completed" (Some "card")
                 (Some "VH_1000_1_a1b2c3d4") (Some 2000) None 1000)
              (mkVerifyResponse true (Some "Declined") "failed"))
    as (w' & Hrun & Hwallets & _ & Htx).
  - vm_compute. reflexivity.
  - right. cbn. discriminate.
  - exists w'. split; [exact Hrun|]. split; [|exact Hwallets].
    rewrite Htx. reflexivity.
Defined.

(** Alice funds 10000 and the gateway confirms: her balance is 9850. *)
Lemma fundWallet_then_verifyFunding_witness :
  exists w1 r w2,
    fundWallet (mkCtx Fixture.alice) (mkFundWalletInput 10000 "card" None None)
               (Scenario.env 1000 "1000_1_a1b2c3d4")
               (Scenario.gatewayInit "VH_1000_1_a1b2c3d4") Scenario.opened
    = (w1, Return r)
    /\ verifyFunding (mkCtx Fixture.alice) (fr_reference r) (Scenario.env 2000 "")
                     Scenario.gatewaySuccess w1
       = (w2, Return (mkVerifyFundingResult true 10000 9850))
    /\ option_map wallets.balance (walletOfUser 1 (db w2)) = Some 9850.
Proof.
  destruct (fundWallet_then_verifyFunding
              (mkCtx Fixture.alice) (mkFundWalletInput 10000 "card" None None)
              (Scenario.env 1000 "1000_1_a1b2c3d4") (Scenario.env 2000 "")
              (mkInitializeResponse true "https://checkout.test/pay"
                                    "VH_1000_1_a1b2c3d4")
              (mkVerifyResponse true None "success")
              Scenario.opened
              (wallets.mk 1 1 0 0 (Some "salt1234") (Some "salt")
                          500000 2000000 true true None)
              eq_refl eq_refl eq_refl eq_refl eq_refl eq_refl eq_refl eq_refl
              eq_refl eq_refl)
    as (w1 & r & w2 & t & Hfund & Hverify & Hwallet & _).
  exists w1, r, w2. split; [exact Hfund|]. split; [exact Hverify|].
  cbn [users.id user Fixture.alice] in Hwallet. rewrite Hwallet. reflexivity.
Defined.

(** Alice's transfer fails at the recipient cache, inside the unit of work:
    the world is the one before. *)
Lemma unit_of_work_all_or_nothing_witness :
  exec (Scenario.transfer (mkCtx Fixture.alice) Scenario.transfer5000
          (Scenario.env 4000 "4000_0a0b0c0d") false)
       Scenario.beforeTransfer
  = Scenario.beforeTransfer.
Proof.
  apply (proj1 (unit_of_work_all_or_nothing
                  Fixture.bcrypt_compare Fixture.parseInt Fixture.startOfDay
                  Fixture.startOfMonth (mkCtx Fixture.alice)
                  (Scenario.env 4000 "4000_0a0b0c0d") Scenario.beforeTransfer
                  (exec (Scenario.transfer (mkCtx Fixture.alice) Scenario.transfer5000
                           (Scenario.env 4000 "4000_0a0b0c0d") false)
                        Scenario.beforeTransfer)
                  UpsertFailure)
          Scenario.transfer5000 false).
  vm_compute. reflexivity.
Defined.

(** Alice has 3000 and asks for 2000: with the fee that is too much, and
    nothing changes. *)
Lemma withdraw_throw_leaves_world_witness :
  exec (Scenario.withdraw (mkCtx Fixture.alice) Scenario.withdraw2000
          (Scenario.env 6000 "6000_55555555"))
       Scenario.beforeWithdrawal
  = Scenario.beforeWithdrawal.
Proof.
  apply (withdraw_throw_leaves_world Fixture.bcrypt_compare
           (mkCtx Fixture.alice) Scenario.withdraw2000
           (Scenario.env 6000 "6000_55555555") Scenario.beforeWithdrawal
           (exec (Scenario.withdraw (mkCtx Fixture.alice) Scenario.withdraw2000
                    (Scenario.env 6000 "6000_55555555"))
                 Scenario.beforeWithdrawal)
           (TRPCError "BAD_REQUEST" "Insufficient balance (includes R15.00 fee)")).
  - intros _. reflexivity.
  - vm_compute. reflexivity.
Defined.

(** The shop pays its own merchant account 1000 and ends 990 richer, while
    the answer reports a balance 1000 lower. *)
Lemma payMerchant_total_balance_witness :
  totalBalance (db RestScenario.afterSelfPayment)
  = totalBalance (db Scenario.afterPayment) + 990
  /\ option_map wallets.balance (walletOfUser 3 (db RestScenario.afterSelfPayment))
     = Some 396990.
Proof.
  destruct (proj2 (payMerchant_total_balance Fixture.bcrypt_compare
                     (mkCtx Fixture.shop) RestScenario.shopPays1000
                     (Scenario.env 5000 "5000_66666666")
                     Scenario.afterPayment RestScenario.afterSelfPayment
                     (mkPayMerchantResult true "MERCH_5000_66666666" 1000 10 990
                                          "Campus Shop" 395000)
                     (walletMerchants.mk 1 3 "Campus Shop" (Some 100) 400000 1)
                     (wallets.mk 3 3 396000 396000 (Some "salt1234") (Some "salt")
                                 500000 2000000 true true (Some 3000))
                     eq_refl
                     ltac:(vm_compute; reflexivity)
                     ltac:(vm_compute; reflexivity)
                     ltac:(vm_compute; reflexivity))
              eq_refl)
    as (Htotal & Hbalance & _).
  split; [exact Htotal | exact Hbalance].
Defined.

(** After Alice's payment of 400000 the ledger has no transfer row: the
    total her limit check sums is 0, and her transfer of 200000 leaves no
    such row either. *)
Lemma transfer_limit_totals_stay_zero_witness :
  transferTotalSince 1 (Fixture.startOfDay 4000) (db Scenario.afterPayment) = 0
  /\ noTransferRows
       (db (exec (Scenario.transfer (mkCtx Fixture.alice) Scenario.transfer200000
                    (Scenario.env 4000 "4000_33333333") schemaAcceptsRecipientUpsert)
                 Scenario.afterPayment))
     = true.
Proof.
  destruct (transfer_limit_totals_stay_zero Fixture.bcrypt_hash Fixture.bcrypt_compare
              Fixture.parseInt Fixture.startOfDay Fixture.startOfMonth
              (mkCtx Fixture.alice) (Scenario.env 4000 "4000_33333333")
              Scenario.afterPayment)
    as (Hzero & _ & _ & _ & Htransfer & _).
  - vm_compute. reflexivity.
  - split; [apply Hzero | apply Htransfer].
Defined.

(** Bob has received 300000 twice today; his own transfer of 10 is refused
    for the daily limit. *)
Lemma transfer_daily_limit_as_coded_witness :
  Scenario.transfer (mkCtx Fixture.bob) RestScenario.bobSends10
                    (Scenario.env 5000 "5000_88888888") true Scenario.afterSecond300000
  = (Scenario.afterSecond300000,
     Throw (TRPCError "BAD_REQUEST" "Daily transfer limit exceeded")).
Proof.
  apply (transfer_daily_limit_as_coded Fixture.bcrypt_compare Fixture.parseInt
           Fixture.startOfDay Fixture.startOfMonth
           (mkCtx Fixture.bob) RestScenario.bobSends10
           (Scenario.env 5000 "5000_88888888") true Scenario.afterSecond300000
           (wallets.mk 2 2 597000 597000 (Some "salt1234") (Some "salt")
                       500000 2000000 true true (Some 4000))).
  - reflexivity.
  - vm_compute. reflexivity.
  - reflexivity.
  - cbn. lia.
  - vm_compute. reflexivity.
Defined.

(** Alice's airtime of 1000 (total 1200) and its completion. *)
Lemma payBill_then_completion_witness :
  exists billId t,
    timers Scenario.afterBill = [BillCompletion billId "BILL_5000_44444444"]
    /\ transactionByReference "BILL_5000_44444444"
         (db (exec (runTimer 7000 (BillCompletion billId "BILL_5000_44444444"))
                   Scenario.afterBill))
       = Some t
    /\ walletTransactions.status t = "completed"
    /\ walletTransactions.balanceAfter t = 8800
    /\ ledgerEquation t.
Proof.
  destruct (payBill_then_completion Fixture.bcrypt_compare
              (mkCtx Fixture.alice) Scenario.airtime1000
              (Scenario.env 5000 "5000_44444444")
              Scenario.beforeBill Scenario.afterBill
              (mkPayBillResult true "BILL_5000_44444444" 1000 200 1200
                               "processing" 8800)
              7000)
    as (billId & t & bill & Htimers & Htx & Hstatus & _ & _ & Hafter & Hledger & _).
  - vm_compute. reflexivity.
  - exists billId, t. repeat split; assumption.
Defined.



(** Alice's view before and after she has paid the shop 400000: a spent
    total of -400000 and 900000 left of a daily limit of 500000. *)
Lemma getWallet_after_payMerchant_witness :
  exists v',
    RestScenario.getWallet (mkCtx Fixture.alice) (Scenario.env 5000 "")
                           Scenario.afterPayment
    = (Scenario.afterPayment, Return v')
    /\ view_balance v' = 585000
    /\ dailySpent (view_stats v') = -400000
    /\ dailyLimitRemaining (view_stats v') = 900000.
Proof.
  destruct (getWallet_after_payMerchant Fixture.bcrypt_compare
              Fixture.startOfDay Fixture.startOfMonth
              (mkCtx Fixture.alice) Scenario.pay400000
              (Scenario.env 3000 "3000_11111111") (Scenario.env 5000 "")
              Scenario.fundedLarge Scenario.afterPayment
              (mkPayMerchantResult true "MERCH_3000_11111111" 400000 4000 396000
                                   "Campus Shop" 585000)
              (mkWalletView 1 985000 985000 500000 2000000 true true (Some 2000)
                            (mkWalletStats 0 0 500000 2000000))
              (walletMerchants.mk 1 3 "Campus Shop" (Some 100) 0 0))
    as (v' & Hview & Hbalance & _ & Hspent & _ & Hleft & _).
  - reflexivity.
  - vm_compute. reflexivity.
  - vm_compute. reflexivity.
  - cbn. discriminate.
  - vm_compute. discriminate.
  - vm_compute. discriminate.
  - vm_compute. reflexivity.
  - exists v'. split; [exact Hview|]. repeat split; assumption.
Defined.

(** Outside production Alice's Capitec account is added as verified though
    the verification service could not be reached. *)
Lemma addBank_verification_witness :
  exists w',
    RestScenario.addBank (mkCtx Fixture.alice) RestScenario.capitec false None
                         Scenario.opened
    = (w', Return (walletBanks.mk 2 1 "Capitec Bank" "1234567890" true))
    /\ bankOfUser 2 1 (db w')
       = Some (walletBanks.mk 2 1 "Capitec Bank" "1234567890" true).
Proof.
  destruct (proj1 (addBank_verification RestScenario.getBankName
                     (mkCtx Fixture.alice) RestScenario.capitec false None
                     Scenario.opened eq_refl eq_refl)
              eq_refl)
    as (w' & Hrun & _ & _ & Hbank & _).
  exists w'. split; [exact Hrun | exact Hbank].
Defined.


(** Bob generates a code for 2500 at 7000 and Alice scans it at 9000. *)
Lemma generateQRCode_then_scanQRCode_witness :
  exists qw2,
    RestScenario.scanQRCode (mkCtx Fixture.alice)
      (mkScanQRInput (walletQRCodes.qrData RestScenario.bobsCode) "1234")
      (Scenario.env 9000 "") RestScenario.codeGenerated
    = (qw2, Return (mkScanQRResult true 2500 2 "QR code payment"))
    /\ ledger qw2 = Scenario.beforeTransfer
    /\ option_map walletQRCodes.scanCount (qrByReference "QR_7000_aabbccdd" qw2)
       = Some 1.
Proof.
  destruct (generateQRCode_then_scanQRCode Fixture.bcrypt_compare
              RestScenario.JSON_stringify RestScenario.JSON_parse
              (mkCtx Fixture.bob) (mkCtx Fixture.alice) RestScenario.codeFor2500 "1234"
              (Scenario.env 7000 "7000_aabbccdd") (Scenario.env 9000 "")
              RestScenario.noCodes RestScenario.codeGenerated RestScenario.bobsCode 2500
              (wallets.mk 2 2 700 700 (Some "salt1234") (Some "salt")
                          500000 2000000 true true None)
              (wallets.mk 1 1 10000 10000 (Some "salt1234") (Some "salt")
                          500000 2000000 true true None))
    as (qw2 & Hscan & Hledger & Hcode).
  - reflexivity.
  - vm_compute. reflexivity.
  - reflexivity.
  - reflexivity.
  - vm_compute. reflexivity.
  - cbn. discriminate.
  - reflexivity.
  - reflexivity.
  - reflexivity.
  - cbn. lia.
  - exists qw2. split; [exact Hscan|]. split; [exact Hledger|].
    cbn [walletQRCodes.reference RestScenario.bobsCode] in Hcode.
    rewrite Hcode. reflexivity.
Defined.

(** A minute after Alice has paid the shop 400000, the duplicate check does
    not find the payment under 400000 and finds it under -400000. *)
Lemma payMerchant_and_duplicate_check_witness :
  checkDuplicateTransaction 1 400000 None 5 63000 (db Scenario.afterPayment) = false
  /\ checkDuplicateTransaction 1 (-400000) None 5 63000 (db Scenario.afterPayment)
     = true.
Proof.
  destruct (payMerchant_and_duplicate_check Fixture.bcrypt_compare
              (mkCtx Fixture.alice) Scenario.pay400000
              (Scenario.env 3000 "3000_11111111")
              Scenario.fundedLarge Scenario.afterPayment
              (mkPayMerchantResult true "MERCH_3000_11111111" 400000 4000 396000
                                   "Campus Shop" 585000)
              (walletMerchants.mk 1 3 "Campus Shop" (Some 100) 0 0))
    as (payer & Hpayer & Hsame & Hfound).
  - reflexivity.
  - vm_compute. reflexivity.
  - vm_compute. reflexivity.
  - cbn. discriminate.
  - vm_compute in Hpayer. injection Hpayer as <-.
    cbn [wallets.id] in Hsame, Hfound.
    change (merchant_amount Scenario.pay400000) with 400000 in Hsame, Hfound.
    split.
    + rewrite (Hsame None 5 63000). vm_compute. reflexivity.
    + apply (Hfound 5 63000). cbn. lia.
Defined.

(** With a balance of 2147480000 the credit of 9850 is refused: the
    request has gone to the gateway, the store is the one before. *)
Lemma verifyFunding_out_of_range_witness :
  verifyFunding (mkCtx Fixture.alice) "VH_1000_1_a1b2c3d4" (Scenario.env 2000 "")
                Scenario.gatewaySuccess RestScenario.nearTheTop
  = (mkWorld (db RestScenario.nearTheTop) []
             (paystackLog RestScenario.nearTheTop ++ [Verify "VH_1000_1_a1b2c3d4"]),
     Throw (IntegerOutOfRange "wallets.balance")).
Proof.
  destruct (verifyFunding_out_of_range
              (mkCtx Fixture.alice) "VH_1000_1_a1b2c3d4" (Scenario.env 2000 "")
              (mkVerifyResponse true None "success") RestScenario.nearTheTop
              (walletTransactions.mk 1 "VH_1000_1_a1b2c3d4" "deposit" (Some "card")
                 10000 150 9850 2147480000 2147480000 None None None "pending"
                 (Some "card") (Some "VH_1000_1_a1b2c3d4") None None 1000)
              (wallets.mk 1 1 2147480000 2147480000 (Some "salt1234") (Some "salt")
                          500000 2000000 true true None))
    as (column & Hrun);
    [ vm_compute; reflexivity | vm_compute; reflexivity | reflexivity | reflexivity
    | left; vm_compute; reflexivity | ].
  assert (column = "wallets.balance") as <-; [|exact Hrun].
  vm_compute in Hrun. injection Hrun as Hcolumn. symmetry. exact Hcolumn.
Defined.

(** Alice pays Bob's stall, merchant 4: no user has the id 4 and the
    payment is refused by the store. *)
Lemma payMerchant_needs_user_with_merchant_id_witness :
  Scenario.payMerchant (mkCtx Fixture.alice) RestScenario.payStall1000
                       (Scenario.env 3000 "3000_99999999") RestScenario.withBobsStall
  = (RestScenario.withBobsStall,
     Throw (ForeignKeyViolation "wallet_transactions.merchant_id")).
Proof.
  destruct (payMerchant_needs_user_with_merchant_id Fixture.bcrypt_compare
              (mkCtx Fixture.alice) RestScenario.payStall1000
              (Scenario.env 3000 "3000_99999999") RestScenario.withBobsStall
              RestScenario.bobsStall)
    as (e & Hrun); [vm_compute; reflexivity | vm_compute; reflexivity | ].
  assert (e = ForeignKeyViolation "wallet_transactions.merchant_id") as <-;
    [|exact Hrun].
  vm_compute in Hrun. injection Hrun as He. symmetry. exact He.
Defined.

(** An administrator without a subscription passes the seller guard. *)
Lemma guards_hierarchy_witness :
  isSeller RestScenario.adminContext = Return RestScenario.admin
  /\ session_role RestScenario.admin = "admin".
Proof.
  exact (proj1 (guards_hierarchy RestScenario.adminContext) RestScenario.admin eq_refl).
Defined.

(** A caller who is not signed in passes the rate limiter and is stopped by
    [protectedProcedure]. *)
Lemma rateLimitedProcedure_does_not_authenticate_witness :
  rateLimitedProcedure true RestScenario.anonymous = Return RestScenario.anonymous
  /\ protectedProcedure RestScenario.anonymous
     = Throw (TRPCError "UNAUTHORIZED" "You must be logged in to access this resource")
  /\ rateLimitIdentifier RestScenario.anonymous = "anonymous".
Proof.
  destruct (rateLimitedProcedure_does_not_authenticate RestScenario.anonymous)
    as (Hpass & Hstop & _ & Hname).
  split; [exact Hpass|]. split; [exact (Hstop eq_refl) | exact (Hname eq_refl eq_refl)].
Defined.
